(** * Investment lifecycle and ledger settlement

    A shallow embedding of the handlers of the investment platform backend:
    the admin withdrawal controller (GetWithdrawals, ApproveWithdrawal,
    RejectWithdrawal, KytaPayoutWebhookHandler) and the user investment
    controller (CreateInvestmentHandler, KytaWebhookHandler,
    CronDailyReturnsHandler with its gateway helpers, round3 and
    calculateVIPLevel).

    Modelling conventions.
    - The database is a record of tables; a table is the list of its rows in
      primary-key order.  A GORM query is a function on the table:
      [First] is the first row matching the WHERE clause, [Updates] rewrites
      every matching row, [Create] appends a row under a fresh primary key.
      The store is reliable: the only query error is gorm.ErrRecordNotFound.
    - [db.Transaction(func)] runs its closure in the error monad [Tx]; an
      error discards every write of the closure (rollback).
    - Money is float64 in the Go code and decimal(15,2) in the schema.  A
      column is modelled exactly, as an integer number of hundredths; [rp n]
      is the whole amount [n] of the source.  Sums of amounts and products
      of an amount with a whole number are whole hundredths too and are
      computed exactly.  The one product that is not, amount * 0.30, is
      computed in binary64 as the source computes it (package SpecFloat);
      the section on float64 arithmetic proves that round3 in binary64
      returns whole hundredths as the exact model has them, for amounts
      from 0 to the capacity of a decimal(15,2) column.
    - A string is the sequence of its bytes; text is UTF-8, as in Go.
    - time.Time is a number of seconds; [Hour] is time.Hour.
    - Outbound HTTP exchanges and decoded request bodies are inputs of the
      handlers; a handler returns its HTTP response, the new database and,
      where it calls the gateway, the list of calls it made. *)

From Stdlib Require Import ZArith List String Ascii Bool Lia DecimalString.
From Stdlib Require Import DecimalPos Sorted SpecFloat QArith Qpower Lqa.
Import ListNotations.

Local Open Scope string_scope.
Local Open Scope list_scope.
Local Open Scope Z_scope.

(** ** Scalars *)

Definition Money := Z.
Definition Time := Z.

Definition rp (n : Z) : Money := 100 * n.

Definition Hour : Time := 3600.

(** [round3 x] is the source's [round3(f)],
    [float64(int(f*100+0.5))/100], at a value [f] of [x] whole hundredths
    (a sum of columns, or a column times a whole number): [f*100+0.5] is
    [x] and a half, which Go's [int] truncates toward zero.  This is what
    float64 gives for the amounts a decimal(15,2) column holds, which are
    far below 2^53 hundredths; the section on float64 arithmetic proves
    it for the amounts from 0 to the capacity of the column. *)
Definition round3 (x : Money) : Money := Z.quot (2 * x + 1) 2.

(** *** float64

    The values and operations of IEEE 754 binary64, rounding to nearest
    even after each operation, as Go computes them on amd64. *)
Definition float64 := spec_float.

Definition fmul : float64 -> float64 -> float64 := SFmul 53 1024.
Definition fadd : float64 -> float64 -> float64 := SFadd 53 1024.
Definition fdiv : float64 -> float64 -> float64 := SFdiv 53 1024.

(** [float64(n)] of a whole number. *)
Definition float64_of_Z (n : Z) : float64 := binary_normalize 53 1024 n 0 false.

(** A decimal literal or a decimal(15,2) column read into a float64: the
    float64 nearest to [n/d], for [n] and [d] below 2^53. *)
Definition float64_of_decimal (n d : Z) : float64 :=
  fdiv (float64_of_Z n) (float64_of_Z d).

Definition float64_of_Money (m : Money) : float64 := float64_of_decimal m 100.

(** Go's conversion [int(f)]: the whole part, toward zero.  Outside the
    64-bit range (and for NaN) Go leaves the result to the platform; amd64
    gives the least int, and no amount of a decimal(15,2) column gets
    there. *)
Definition int_of_float64 (f : float64) : Z :=
  match f with
  | S754_zero _ => 0
  | S754_finite sign m e =>
      let whole := if 0 <=? e then Z.pos m * 2 ^ e else Z.pos m / 2 ^ (- e) in
      if 2 ^ 63 <=? whole then - 2 ^ 63
      else if sign then - whole else whole
  | S754_infinity _ | S754_nan => - 2 ^ 63
  end.

(** [round3(f)] at any float64 [f], in hundredths: [int(f*100+0.5)].  The
    result [float64(k)/100] goes to a decimal(15,2) column, which holds the
    [k] hundredths. *)
Definition round3_float64 (f : float64) : Money :=
  int_of_float64
    (fadd (fmul f (float64_of_Z 100)) (float64_of_decimal 5 10)).

(** *** The rational value of a float64

    The vocabulary of the error analysis of the operations above. *)

(** The power of two of an exponent. *)
Definition pow2 (e : Z) : Q := (2 ^ e)%Q.

(** The rational a finite, positive float64 stands for. *)
Definition F2Q (m e : Z) : Q := (inject_Z m * pow2 e)%Q.

(** What a record says of the number [x] it was shifted from: [x] is the
    mantissa, or lies below, at or above the middle of it and the next. *)
Definition located (x : Q) (rec : shr_record) : Prop :=
  match shr_r rec, shr_s rec with
  | false, false => (x == inject_Z (shr_m rec))%Q
  | false, true =>
      (inject_Z (shr_m rec) < x /\ x < inject_Z (shr_m rec) + (1 # 2))%Q
  | true, false => (x == inject_Z (shr_m rec) + (1 # 2))%Q
  | true, true =>
      (inject_Z (shr_m rec) + (1 # 2) < x /\ x < inject_Z (shr_m rec) + 1)%Q
  end.

(** The unit roundoff of float64, 2^-53. *)
Definition unit_roundoff : Q := 1 # 9007199254740992.

(** The range of magnitudes the analysis works in: far from the subnormal
    numbers and from overflow. *)
Definition working_range (V : Q) : Prop :=
  (1 # 1024 <= V)%Q /\ (V <= 1152921504606846976)%Q.

(** A float64 with a full mantissa, no sign, and its value. *)
Definition canonical (f : float64) (F : Q) : Prop :=
  exists m e, f = S754_finite false m e
    /\ 2 ^ 52 <= Z.pos m < 2 ^ 53
    /\ -1074 <= e <= 971
    /\ (F == F2Q (Z.pos m) e)%Q.

Definition calculateVIPLevel (totalInvestVIP : Money) : Z :=
  if rp 150000000 <=? totalInvestVIP then 5
  else if rp 30000000 <=? totalInvestVIP then 4
  else if rp 7000000 <=? totalInvestVIP then 3
  else if rp 1200000 <=? totalInvestVIP then 2
  else if rp 50000 <=? totalInvestVIP then 1
  else 0.

(** ** Enumerations of the schema *)

Module InvStatus.
Inductive t := Pending | Running | Completed | Suspended | Cancelled.
Definition eqb (a b : t) : bool :=
  match a, b with
  | Pending, Pending | Running, Running | Completed, Completed
  | Suspended, Suspended | Cancelled, Cancelled => true
  | _, _ => false
  end.
End InvStatus.

Module Status.
Inductive t := Success | Pending | Failed.
Definition eqb (a b : t) : bool :=
  match a, b with
  | Success, Success | Pending, Pending | Failed, Failed => true
  | _, _ => false
  end.
End Status.

Inductive ProfitType := locked | unlocked.

Inductive Flow := debit | credit.

Inductive Activity := Active | Inactive.

(** ** Rows *)

Module User.
Record t := mk {
  ID : Z;
  Name : string;
  Number : string;
  ReffBy : option Z;
  Balance : Money;
  Level : option Z;
  TotalInvest : Money;
  TotalInvestVIP : Money;
  SpinTicket : option Z;
  InvestmentStatus : Activity
}.
Definition set_Balance (b : Money) (u : t) : t :=
  mk (ID u) (Name u) (Number u) (ReffBy u) b (Level u) (TotalInvest u)
     (TotalInvestVIP u) (SpinTicket u) (InvestmentStatus u).
Definition set_Level (l : option Z) (u : t) : t :=
  mk (ID u) (Name u) (Number u) (ReffBy u) (Balance u) l (TotalInvest u)
     (TotalInvestVIP u) (SpinTicket u) (InvestmentStatus u).
Definition set_SpinTicket (s : option Z) (u : t) : t :=
  mk (ID u) (Name u) (Number u) (ReffBy u) (Balance u) (Level u)
     (TotalInvest u) (TotalInvestVIP u) s (InvestmentStatus u).
Definition set_Invest (ti tv : Money) (st : Activity) (u : t) : t :=
  mk (ID u) (Name u) (Number u) (ReffBy u) (Balance u) (Level u) ti tv
     (SpinTicket u) st.
End User.

Module Category.
Record t := mk {
  ID : Z;
  Name : string;
  Profit : ProfitType;
  Status : Activity
}.
End Category.

Module Product.
Record t := mk {
  ID : Z;
  CategoryID : Z;
  Name : string;
  Amount : Money;
  DailyProfit : Money;
  Duration : Z;
  RequiredVIP : Z;
  PurchaseLimit : Z;
  Status : Activity
}.
End Product.

Module Investment.
Record t := mk {
  ID : Z;
  UserID : Z;
  ProductID : Z;
  CategoryID : Z;
  Amount : Money;
  DailyProfit : Money;
  Duration : Z;
  TotalPaid : Z;
  TotalReturned : Money;
  LastReturnAt : option Time;
  NextReturnAt : option Time;
  OrderID : string;
  Status : InvStatus.t
}.
Definition set_ID (i : Z) (r : t) : t :=
  mk i (UserID r) (ProductID r) (CategoryID r) (Amount r) (DailyProfit r)
     (Duration r) (TotalPaid r) (TotalReturned r) (LastReturnAt r)
     (NextReturnAt r) (OrderID r) (Status r).
Definition set_Status (s : InvStatus.t) (r : t) : t :=
  mk (ID r) (UserID r) (ProductID r) (CategoryID r) (Amount r)
     (DailyProfit r) (Duration r) (TotalPaid r) (TotalReturned r)
     (LastReturnAt r) (NextReturnAt r) (OrderID r) s.
Definition set_Returns (last next : option Time) (r : t) : t :=
  mk (ID r) (UserID r) (ProductID r) (CategoryID r) (Amount r)
     (DailyProfit r) (Duration r) (TotalPaid r) (TotalReturned r)
     last next (OrderID r) (Status r).
Definition set_Totals (paid : Z) (returned : Money) (r : t) : t :=
  mk (ID r) (UserID r) (ProductID r) (CategoryID r) (Amount r)
     (DailyProfit r) (Duration r) paid returned
     (LastReturnAt r) (NextReturnAt r) (OrderID r) (Status r).
End Investment.

Module Payment.
Record t := mk {
  ID : Z;
  InvestmentID : Z;
  ReferenceID : option string;
  OrderID : string;
  PaymentMethod : option string;
  PaymentChannel : option string;
  PaymentCode : option string;
  PaymentLink : option string;
  Status : string;
  ExpiredAt : option Time
}.
Definition set_ID (i : Z) (p : t) : t :=
  mk i (InvestmentID p) (ReferenceID p) (OrderID p) (PaymentMethod p)
     (PaymentChannel p) (PaymentCode p) (PaymentLink p) (Status p)
     (ExpiredAt p).
Definition set_ReferenceID (r : option string) (p : t) : t :=
  mk (ID p) (InvestmentID p) r (OrderID p) (PaymentMethod p)
     (PaymentChannel p) (PaymentCode p) (PaymentLink p) (Status p)
     (ExpiredAt p).
Definition set_Status (s : string) (p : t) : t :=
  mk (ID p) (InvestmentID p) (ReferenceID p) (OrderID p) (PaymentMethod p)
     (PaymentChannel p) (PaymentCode p) (PaymentLink p) s (ExpiredAt p).
Definition set_PaymentCode (c : option string) (p : t) : t :=
  mk (ID p) (InvestmentID p) (ReferenceID p) (OrderID p) (PaymentMethod p)
     (PaymentChannel p) c (PaymentLink p) (Status p) (ExpiredAt p).
End Payment.

Module Transaction.
Record t := mk {
  ID : Z;
  UserID : Z;
  Amount : Money;
  Charge : Money;
  OrderID : string;
  TransactionFlow : Flow;
  TransactionType : string;
  Message : option string;
  Status : Status.t
}.
Definition set_ID (i : Z) (x : t) : t :=
  mk i (UserID x) (Amount x) (Charge x) (OrderID x) (TransactionFlow x)
     (TransactionType x) (Message x) (Status x).
Definition set_Status (s : Status.t) (x : t) : t :=
  mk (ID x) (UserID x) (Amount x) (Charge x) (OrderID x)
     (TransactionFlow x) (TransactionType x) (Message x) s.
End Transaction.

Module Withdrawal.
Record t := mk {
  ID : Z;
  UserID : Z;
  BankAccountID : Z;
  Amount : Money;
  Charge : Money;
  FinalAmount : Money;
  OrderID : string;
  Status : Status.t;
  CreatedAt : Time
}.
Definition set_Status (s : Status.t) (w : t) : t :=
  mk (ID w) (UserID w) (BankAccountID w) (Amount w) (Charge w)
     (FinalAmount w) (OrderID w) s (CreatedAt w).
End Withdrawal.

Module Bank.
Record t := mk {
  ID : Z;
  Name : string;
  Code : string
}.
End Bank.

Module BankAccount.
Record t := mk {
  ID : Z;
  UserID : Z;
  BankID : Z;
  AccountName : string;
  AccountNumber : string
}.
End BankAccount.

Module PaymentSettings.
Record t := mk {
  ID : Z;
  BankName : string;
  BankCode : string;
  AccountNumber : string;
  AccountName : string;
  WithdrawAmount : Money;
  WishlistID : string
}.
(** The zero value a failed [First(&ps)] leaves in [ps]. *)
Definition zero : t := mk 0 "" "" "" "" 0 "".
End PaymentSettings.

Module Setting.
Record t := mk {
  ID : Z;
  AutoWithdraw : bool
}.
End Setting.

(** ** The database *)

Record DB := mkDB {
  users : list User.t;
  categories : list Category.t;
  products : list Product.t;
  investments : list Investment.t;
  payments : list Payment.t;
  transactions : list Transaction.t;
  withdrawals : list Withdrawal.t;
  bank_accounts : list BankAccount.t;
  banks : list Bank.t;
  payment_settings : list PaymentSettings.t;
  settings : list Setting.t
}.

Definition with_users (f : list User.t -> list User.t) (db : DB) : DB :=
  mkDB (f (users db)) (categories db) (products db) (investments db)
       (payments db) (transactions db) (withdrawals db) (bank_accounts db)
       (banks db) (payment_settings db) (settings db).

Definition with_investments
  (f : list Investment.t -> list Investment.t) (db : DB) : DB :=
  mkDB (users db) (categories db) (products db) (f (investments db))
       (payments db) (transactions db) (withdrawals db) (bank_accounts db)
       (banks db) (payment_settings db) (settings db).

Definition with_payments (f : list Payment.t -> list Payment.t) (db : DB)
  : DB :=
  mkDB (users db) (categories db) (products db) (investments db)
       (f (payments db)) (transactions db) (withdrawals db)
       (bank_accounts db) (banks db) (payment_settings db) (settings db).

Definition with_transactions
  (f : list Transaction.t -> list Transaction.t) (db : DB) : DB :=
  mkDB (users db) (categories db) (products db) (investments db)
       (payments db) (f (transactions db)) (withdrawals db)
       (bank_accounts db) (banks db) (payment_settings db) (settings db).

Definition with_withdrawals
  (f : list Withdrawal.t -> list Withdrawal.t) (db : DB) : DB :=
  mkDB (users db) (categories db) (products db) (investments db)
       (payments db) (transactions db) (f (withdrawals db))
       (bank_accounts db) (banks db) (payment_settings db) (settings db).

(** *** Queries *)

Definition First {A : Type} (where_ : A -> bool) (table : list A)
  : option A := find where_ table.

Definition Updates {A : Type} (where_ : A -> bool) (set : A -> A)
  (table : list A) : list A :=
  map (fun row => if where_ row then set row else row) table.

Definition Count {A : Type} (where_ : A -> bool) (table : list A) : Z :=
  Z.of_nat (List.length (filter where_ table)).

(** The primary key an auto-increment column gives the next row. *)
Definition NextID (ids : list Z) : Z := 1 + fold_right Z.max 0 ids.

(** [tx.Save(&row)]: rewrite the row of that primary key, insert it when
    the table has none. *)
Definition Save {A : Type} (id : A -> Z) (row : A) (table : list A)
  : list A :=
  if existsb (fun r => id r =? id row) table
  then Updates (fun r => id r =? id row) (fun _ => row) table
  else table ++ [row].

(** *** Transactions *)

Definition Tx (A : Type) : Type := DB -> option (A * DB).

Definition ret {A : Type} (a : A) : Tx A := fun db => Some (a, db).

Definition bind {A B : Type} (m : Tx A) (k : A -> Tx B) : Tx B :=
  fun db => match m db with
            | Some (a, db') => k a db'
            | None => None
            end.

Notation "x <- m ;; k" := (bind m (fun x => k))
  (at level 61, m at next level, right associativity).
Notation "m ;;; k" := (bind m (fun _ => k))
  (at level 61, right associativity).

(** A query whose error the closure returns. *)
Definition orReturnErr {A : Type} (q : DB -> option A) : Tx A :=
  fun db => match q db with
            | Some a => Some (a, db)
            | None => None
            end.

(** A query whose error the closure inspects. *)
Definition query {A : Type} (q : DB -> A) : Tx A :=
  fun db => Some (q db, db).

Definition exec (f : DB -> DB) : Tx unit := fun db => Some (tt, f db).

(** [db.Transaction(closure)]: commit on nil, roll back on error.  The
    first component is [None] when the closure returned an error, and
    otherwise what the closure left in the variables it captured. *)
Definition db_Transaction {A : Type} (closure : Tx A) (db : DB)
  : option A * DB :=
  match closure db with
  | Some (a, db') => (Some a, db')
  | None => (None, db)
  end.

Definition CreateTransaction (trx : Transaction.t) : Tx unit :=
  exec (with_transactions (fun t =>
    t ++ [Transaction.set_ID (NextID (map Transaction.ID t)) trx])).

(** ** HTTP responses *)

Record WithdrawalResponse := mkWithdrawalResponse {
  wr_ID : Z;
  wr_UserID : Z;
  wr_UserName : string;
  wr_Phone : string;
  wr_BankAccountID : Z;
  wr_BankName : string;
  wr_AccountName : string;
  wr_AccountNumber : string;
  wr_Amount : Money;
  wr_Charge : Money;
  wr_FinalAmount : Money;
  wr_OrderID : string;
  wr_Status : Status.t;
  wr_CreatedAt : Time
}.

Inductive ResponseData :=
| NoData
| Processed (processed : Z)
| OrderStatus (order_id : string) (status : Status.t)
| IdStatus (id : Z) (status : Status.t)
| Purchase (order_id : string) (amount : Money) (product category : string)
    (category_id duration : Z) (daily_profit : Money)
    (status : InvStatus.t)
| WithdrawalList (rows : list WithdrawalResponse).

Record APIResponse := mkResp {
  Code : Z;
  Success : bool;
  Message : string;
  Data : ResponseData
}.

Definition StatusOK : Z := 200.
Definition StatusCreated : Z := 201.
Definition StatusBadRequest : Z := 400.
Definition StatusUnauthorized : Z := 401.
Definition StatusNotFound : Z := 404.
Definition StatusInternalServerError : Z := 500.

(** ** Process environment (os.Getenv) *)

Record Env := mkEnv {
  CRON_KEY : string;
  KYTAPAY_BASE_URL : string;
  KYTAPAY_CLIENT_ID : string;
  KYTAPAY_CLIENT_SECRET : string;
  NOTIFY_URL : string;
  SUCCESS_URL : string;
  FAILED_URL : string;
  CALLBACK_WITHDRAW : string
}.

Definition ProfitType_eqb (a b : ProfitType) : bool :=
  match a, b with
  | locked, locked | unlocked, unlocked => true
  | _, _ => false
  end.

(** ** Strings (package strings) *)

(** unicode.IsSpace on the runes of one byte: tab, line feed, vertical tab,
    form feed, carriage return and the space. *)
Definition isSpace (c : ascii) : bool :=
  let n := nat_of_ascii c in
  ((n =? 32) || ((9 <=? n) && (n <=? 13)))%nat.

(** unicode.IsSpace on the runes of two bytes: U+0085 (C2 85) and U+00A0
    (C2 A0). *)
Definition isSpace2 (b1 b2 : ascii) : bool :=
  let n1 := nat_of_ascii b1 in
  let n2 := nat_of_ascii b2 in
  ((n1 =? 194) && ((n2 =? 133) || (n2 =? 160)))%nat.

(** unicode.IsSpace on the runes of three bytes: U+1680 (E1 9A 80), U+2000
    to U+200A (E2 80 80 to E2 80 8A), U+2028 and U+2029 (E2 80 A8, E2 80 A9),
    U+202F (E2 80 AF), U+205F (E2 81 9F) and U+3000 (E3 80 80).  No rune of
    four bytes is a space. *)
Definition isSpace3 (b1 b2 b3 : ascii) : bool :=
  let n1 := nat_of_ascii b1 in
  let n2 := nat_of_ascii b2 in
  let n3 := nat_of_ascii b3 in
  (((n1 =? 225) && (n2 =? 154) && (n3 =? 128))
   || ((n1 =? 226) && (n2 =? 128)
       && (((128 <=? n3) && (n3 <=? 138))
           || (n3 =? 168) || (n3 =? 169) || (n3 =? 175)))
   || ((n1 =? 226) && (n2 =? 129) && (n3 =? 159))
   || ((n1 =? 227) && (n2 =? 128) && (n3 =? 128)))%nat.

(** strings.TrimLeftFunc(s, unicode.IsSpace): the runes are decoded from
    the front; bytes that are not the encoding of a space stop the trim. *)
Fixpoint TrimLeftSpace (s : string) : string :=
  match s with
  | EmptyString => EmptyString
  | String b1 rest1 =>
      if isSpace b1 then TrimLeftSpace rest1
      else
        match rest1 with
        | EmptyString => s
        | String b2 rest2 =>
            if isSpace2 b1 b2 then TrimLeftSpace rest2
            else
              match rest2 with
              | EmptyString => s
              | String b3 rest3 =>
                  if isSpace3 b1 b2 b3 then TrimLeftSpace rest3 else s
              end
        end
  end.

(** The same from the back, on the bytes in reverse order. *)
Fixpoint dropSpaces (reversed : list ascii) : list ascii :=
  match reversed with
  | [] => []
  | b3 :: rest1 =>
      if isSpace b3 then dropSpaces rest1
      else
        match rest1 with
        | [] => reversed
        | b2 :: rest2 =>
            if isSpace2 b2 b3 then dropSpaces rest2
            else
              match rest2 with
              | [] => reversed
              | b1 :: rest3 =>
                  if isSpace3 b1 b2 b3 then dropSpaces rest3 else reversed
              end
        end
  end.

(** strings.TrimRightFunc(s, unicode.IsSpace). *)
Definition TrimRightSpace (s : string) : string :=
  string_of_list_ascii (rev (dropSpaces (rev (list_ascii_of_string s)))).

(** strings.TrimSpace. *)
Definition TrimSpace (s : string) : string :=
  TrimRightSpace (TrimLeftSpace s).

Definition upper (c : ascii) : ascii :=
  let n := nat_of_ascii c in
  if ((97 <=? n) && (n <=? 122))%nat then ascii_of_nat (n - 32) else c.

(** Whether every byte is below utf8.RuneSelf. *)
Fixpoint isASCII (s : string) : bool :=
  match s with
  | EmptyString => true
  | String c rest => (nat_of_ascii c <? 128)%nat && isASCII rest
  end.

(** What strings.ToUpper does to a string of ASCII bytes. *)
Fixpoint upperASCII (s : string) : string :=
  match s with
  | EmptyString => EmptyString
  | String c rest => String (upper c) (upperASCII rest)
  end.

(** [strings.TrimRight(s, "/")]. *)
Fixpoint TrimRightSlash (s : string) : string :=
  match s with
  | EmptyString => EmptyString
  | String c rest =>
      match TrimRightSlash rest with
      | EmptyString => if Ascii.eqb c "/" then EmptyString
                       else String c EmptyString
      | kept => String c kept
      end
  end.

Definition HasPrefix (s prefix : string) : bool := String.prefix prefix s.

(** [%d] of fmt.Sprintf. *)
Definition itoa (z : Z) : string := NilZero.string_of_int (Z.to_int z).

(** Go's conversion [uint(x)] of an int (64-bit words). *)
Definition uint (x : Z) : Z := x mod 2 ^ 64.

(** Go's conversion [int64(f)] of a float64 amount: the whole part. *)
Definition int64 (f : Money) : Z := Z.quot f 100.

Definition Minute : Time := 60.

(** ** The payment gateway *)

(** What an HTTP exchange gives the caller: client.Do fails, io.ReadAll
    fails, or a status code with the body and what json.Unmarshal makes of
    the body ([None] when it returns an error). *)
Inductive HttpResult (Body : Type) : Type :=
| ConnectionError (reason : string)
| ReadError
| HttpResponse (statusCode : Z) (raw : string) (parsed : option Body).
Arguments ConnectionError {Body} reason.
Arguments ReadError {Body}.
Arguments HttpResponse {Body} statusCode raw parsed.

Inductive GoError :=
| ErrNewRequest
| ErrDo
| ErrReadAll
| ErrStatus (statusCode : Z)
| ErrUnmarshal
| ErrKytapay
| ErrEmptyToken.

Record KytaAccessTokenResponse := mkTokenResp {
  tk_ResponseCode : string;
  tk_ResponseMessage : string;
  tk_AccessToken : string
}.

Record KytaPaymentResponse := mkPaymentResp {
  pr_ResponseCode : string;
  pr_ResponseMessage : string;
  pr_QRString : string;
  pr_AccountNumber : string;
  pr_CheckoutURL : string;
  pr_ExpiresAt : string
}.

Record KytaPayoutResponse := mkPayoutResp {
  po_ResponseCode : string;
  po_ResponseMessage : string
}.

(** The requests the handlers send. *)
Inductive GatewayCall :=
| PostAccessToken (url credentials : string)
| PostQRIS (url accessToken referenceID : string) (amount : Z)
    (notifyURL successURL failedURL : string)
| PostVA (url accessToken referenceID : string) (amount : Z)
    (bankCode notifyURL successURL failedURL : string)
| PostPayout (url accessToken reference_id : string) (amount : Z)
    (description code account_number account_name notify_url : string).

(** The gateway answers each request it is sent. *)
Record Gateway := mkGateway {
  answer_token : GatewayCall -> HttpResult KytaAccessTokenResponse;
  answer_payment : GatewayCall -> HttpResult KytaPaymentResponse;
  answer_payout : GatewayCall -> HttpResult KytaPayoutResponse
}.

(** The message the helpers build from a response that is not 200 OK. *)
Definition statusErrorMsg (fallback : string) (message : option string)
  (raw : string) : string :=
  match message with
  | Some m =>
      if negb (m =? "")%string then m
      else if ((0 <? String.length raw) && (String.length raw <? 500))%nat
           then raw else fallback
  | None =>
      if ((0 <? String.length raw) && (String.length raw <? 500))%nat
      then raw else fallback
  end.

Section Handlers.

(** strings.ToUpper maps a string with a byte outside ASCII rune by rune
    through unicode.ToUpper, whose case tables are not under src/.  That
    mapping is a parameter. *)
Variable Map_unicode_ToUpper : string -> string.

(** strings.ToUpper. *)
Definition ToUpper (s : string) : string :=
  if isASCII s then upperASCII s else Map_unicode_ToUpper s.

(** utils.GenerateOrderID is not under src/.  It is a parameter: applied to
    the user id and to a number standing for the clock and random source it
    reads; the model passes the current size of the ledger. *)
Variable GenerateOrderID : Z -> nat -> string.

Definition freshOrderID (uid : Z) : Tx string :=
  query (fun db => GenerateOrderID uid (List.length (transactions db))).

(** ** The daily settlement scheduler *)

(** [tx.Model(&user).Update("balance", newBalance)]: the row of that primary
    key is rewritten, and GORM assigns the column to the struct too. *)
Definition UpdateBalance (user : User.t) (newBalance : Money) : Tx User.t :=
  exec (with_users (Updates (fun u => User.ID u =? User.ID user)
                            (User.set_Balance newBalance))) ;;;
  ret (User.set_Balance newBalance user).

(** The WHERE clause of the scheduler's scan:
    status = 'Running' AND next_return_at IS NOT NULL
    AND next_return_at <= now AND total_paid < duration. *)
Definition is_due (now : Time) (inv : Investment.t) : bool :=
  InvStatus.eqb (Investment.Status inv) InvStatus.Running
  && match Investment.NextReturnAt inv with
     | Some next => next <=? now
     | None => false
     end
  && (Investment.TotalPaid inv <? Investment.Duration inv).

(** The columns of [updates]: the counters and the return times, and the
    status when the settlement completes the investment. *)
Definition settlementUpdates (paid : Z) (returned : Money)
  (nowTime nextTime : Time) (completes : bool) (r : Investment.t)
  : Investment.t :=
  let r := Investment.set_Totals paid returned r in
  let r := Investment.set_Returns (Some nowTime) (Some nextTime) r in
  if completes then Investment.set_Status InvStatus.Completed r else r.

(** The closure the scheduler runs for one due investment; [nowTime] is the
    reading of time.Now() inside it. *)
Definition settle (nowTime : Time) (inv : Investment.t) : Tx unit :=
  user <- orReturnErr (fun db =>
    First (fun u => User.ID u =? Investment.UserID inv) (users db)) ;;
  category <- orReturnErr (fun db =>
    First (fun c => Category.ID c =? Investment.CategoryID inv)
          (categories db)) ;;
  let amount := Investment.DailyProfit inv in
  let paid := Investment.TotalPaid inv + 1 in
  let returned := round3 (Investment.TotalReturned inv + amount) in
  product <- orReturnErr (fun db =>
    First (fun p => Product.ID p =? Investment.ProductID inv)
          (products db)) ;;
  user <- (if ProfitType_eqb (Category.Profit category) unlocked then
             let newBalance := round3 (User.Balance user + amount) in
             user <- UpdateBalance user newBalance ;;
             orderID <- freshOrderID (Investment.UserID inv) ;;
             let msg := String.append "Profit investasi produk "
                                      (Product.Name product) in
             CreateTransaction
               (Transaction.mk 0 (Investment.UserID inv) amount 0 orderID
                  debit "return" (Some msg) Status.Success) ;;;
             ret user
           else ret user) ;;
  user <- (if ProfitType_eqb (Category.Profit category) locked
              && (Investment.Duration inv <=? paid) then
             let totalProfit :=
               round3 (Investment.DailyProfit inv * Investment.Duration inv)
             in
             let newBalance := round3 (User.Balance user + totalProfit) in
             user <- UpdateBalance user newBalance ;;
             orderID <- freshOrderID (Investment.UserID inv) ;;
             let msg := String.append "Total profit investasi produk "
                          (String.append (Product.Name product)
                                         " selesai") in
             CreateTransaction
               (Transaction.mk 0 (Investment.UserID inv) totalProfit 0
                  orderID debit "return" (Some msg) Status.Success) ;;;
             ret user
           else ret user) ;;
  let nextTime := nowTime + 24 * Hour in
  let completes := Investment.Duration inv <=? paid in
  (if completes then
     let newBalance := round3 (User.Balance user + Investment.Amount inv) in
     user <- UpdateBalance user newBalance ;;
     orderID <- freshOrderID (Investment.UserID inv) ;;
     let msg := String.append "Pengembalian modal investasi produk "
                              (Product.Name product) in
     CreateTransaction
       (Transaction.mk 0 (Investment.UserID inv) (Investment.Amount inv) 0
          orderID debit "return" (Some msg) Status.Success)
   else ret tt) ;;;
  exec (with_investments
    (Updates (fun r => Investment.ID r =? Investment.ID inv)
             (settlementUpdates paid returned nowTime nextTime completes))).

(** The loop over the scan's result; [clock i] is the reading of time.Now()
    in the closure of the i-th due investment. *)
Fixpoint settle_all (clock : nat -> Time) (i : nat)
  (due : list Investment.t) (processed : Z) (db : DB) : Z * DB :=
  match due with
  | [] => (processed, db)
  | inv :: rest =>
      match db_Transaction (settle (clock i) inv) db with
      | (Some _, db') => settle_all clock (S i) rest (processed + 1) db'
      | (None, db') => settle_all clock (S i) rest processed db'
      end
  end.

(** POST /api/cron/daily-returns.  [key] is the X-CRON-KEY header, [now]
    the reading of time.Now() that the scan uses. *)
Definition CronDailyReturnsHandler (env : Env) (key : string) (now : Time)
  (clock : nat -> Time) (db : DB) : APIResponse * DB :=
  if (key =? "")%string || negb (key =? CRON_KEY env)%string then
    (mkResp StatusUnauthorized false "Unauthorized" NoData, db)
  else
    let due := filter (is_due now) (investments db) in
    let '(processed, db') := settle_all clock 0 due 0 db in
    (mkResp StatusOK true "Cron executed" (Processed processed), db').

(** ** The purchase webhook *)

(** The fields of the callback body that the handler reads. *)
Record KytaCallback := mkCallback {
  cb_ID : string;
  cb_ReferenceID : string;
  cb_Status : string
}.

(** The statuses the handler reads as a successful payment. *)
Definition isPaid (status : string) : bool :=
  ((status =? "SUCCESS") || (status =? "PAID")
   || (status =? "COMPLETED"))%string.

(** The closure run when a pending investment's payment succeeded; [next]
    is time.Now() plus 24 hours. *)
Definition confirmPayment (next : Time) (inv : Investment.t) : Tx unit :=
  exec (with_transactions
    (Updates (fun t => (Transaction.OrderID t =? Investment.OrderID inv)%string)
             (Transaction.set_Status Status.Success))) ;;;
  exec (with_investments
    (Updates (fun r => Investment.ID r =? Investment.ID inv)
       (fun r => Investment.set_Returns None (Some next)
                   (Investment.set_Status InvStatus.Running r)))) ;;;
  category <- query (fun db =>
    First (fun c => Category.ID c =? Investment.CategoryID inv)
          (categories db)) ;;
  let isMonitor :=
    match category with
    | Some c => ProfitType_eqb (Category.Profit c) locked
    | None => false
    end in
  exec (with_users
    (Updates (fun u => User.ID u =? Investment.UserID inv)
       (fun u => User.set_Invest
                   (User.TotalInvest u + Investment.Amount inv)
                   (if isMonitor
                    then User.TotalInvestVIP u + Investment.Amount inv
                    else User.TotalInvestVIP u)
                   Active u))) ;;;
  (if isMonitor then
     user <- query (fun db =>
       First (fun u => User.ID u =? Investment.UserID inv) (users db)) ;;
     match user with
     | Some user =>
         let newLevel := calculateVIPLevel (User.TotalInvestVIP user) in
         exec (with_users
           (Updates (fun u => User.ID u =? Investment.UserID inv)
                    (User.set_Level (Some newLevel))))
     | None => ret tt
     end
   else ret tt) ;;;
  user <- query (fun db =>
    First (fun u => User.ID u =? Investment.UserID inv) (users db)) ;;
  match user with
  | Some user =>
      match User.ReffBy user with
      | Some reffBy =>
          level1 <- query (fun db =>
            First (fun u => User.ID u =? reffBy) (users db)) ;;
          match level1 with
          | Some level1 =>
              (if rp 100000 <=? Investment.Amount inv then
                 match User.SpinTicket level1 with
                 | None =>
                     exec (with_users
                       (Updates (fun u => User.ID u =? User.ID level1)
                                (User.set_SpinTicket (Some 1))))
                 | Some _ =>
                     exec (with_users
                       (Updates (fun u => User.ID u =? User.ID level1)
                          (fun u => User.set_SpinTicket
                             (option_map (fun n => n + 1)
                                         (User.SpinTicket u)) u)))
                 end
               else ret tt) ;;;
              let bonus :=
                round3_float64
                  (fmul (float64_of_Money (Investment.Amount inv))
                        (float64_of_decimal 30 100)) in
              exec (with_users
                (Updates (fun u => User.ID u =? User.ID level1)
                   (fun u => User.set_Balance (User.Balance u + bonus) u))) ;;;
              orderID <- freshOrderID (User.ID level1) ;;
              CreateTransaction
                (Transaction.mk 0 (User.ID level1) bonus 0 orderID debit
                   "team" (Some "Bonus rekomendasi investor")
                   Status.Success)
          | None => ret tt
          end
      | None => ret tt
      end
  | None => ret tt
  end.

(** The closure run when a pending investment's payment failed. *)
Definition cancelPayment (inv : Investment.t) : Tx unit :=
  exec (with_transactions
    (Updates (fun t => (Transaction.OrderID t =? Investment.OrderID inv)%string)
             (Transaction.set_Status Status.Failed))) ;;;
  exec (with_investments
    (Updates (fun r => Investment.ID r =? Investment.ID inv)
             (Investment.set_Status InvStatus.Cancelled))).

(** The columns of [paymentUpdates]: the gateway's id when the callback
    carries one, and the outcome. *)
Definition recordOutcome (paymentID : string) (success : bool)
  (p : Payment.t) : Payment.t :=
  let p := if (paymentID =? "")%string then p
           else Payment.set_ReferenceID (Some paymentID) p in
  Payment.set_Status (if success then "Success" else "Failed") p.

(** POST /api/payments/kyta/webhook.  [payload] is the decoded body
    ([None] when it is not valid JSON), [now] the reading of time.Now(). *)
Definition KytaWebhookHandler (now : Time) (payload : option KytaCallback)
  (db : DB) : APIResponse * DB :=
  match payload with
  | None => (mkResp StatusBadRequest false "Invalid JSON" NoData, db)
  | Some payload =>
    let referenceID := TrimSpace (cb_ReferenceID payload) in
    let status := ToUpper (TrimSpace (cb_Status payload)) in
    let paymentID := TrimSpace (cb_ID payload) in
    if (referenceID =? "")%string then
      (mkResp StatusBadRequest false "reference_id kosong" NoData, db)
    else
    let success := isPaid status in
    match First (fun p => (Payment.OrderID p =? referenceID)%string)
                (payments db) with
    | None =>
        (mkResp StatusNotFound false "Pembayaran tidak ditemukan" NoData, db)
    | Some payment =>
      let db := with_payments
        (Updates (fun p => Payment.ID p =? Payment.ID payment)
                 (recordOutcome paymentID success)) db in
      match First (fun r => Investment.ID r =? Payment.InvestmentID payment)
                  (investments db) with
      | None =>
          (mkResp StatusNotFound false "Investasi tidak ditemukan" NoData, db)
      | Some inv =>
        if negb (InvStatus.eqb (Investment.Status inv) InvStatus.Pending) then
          (mkResp StatusOK true "Ignored" NoData, db)
        else if success then
          let next := now + 24 * Hour in
          let '(_, db) := db_Transaction (confirmPayment next inv) db in
          (mkResp StatusOK true "OK" NoData, db)
        else
          let '(_, db) := db_Transaction (cancelPayment inv) db in
          (mkResp StatusOK true "Failed updated" NoData, db)
      end
    end
  end.

(** ** Gateway helpers *)

(** Whether http.NewRequest accepts the URL. *)
Variable NewRequest_ok : string -> bool.

(** time.Parse, by layout. *)
Variable time_Parse : string -> string -> option Time.

Definition parseTimeFlexible (s : string) : option Time :=
  if (s =? "")%string then None
  else match time_Parse "2006-01-02T15:04:05Z07:00" s with
       | Some t => Some t
       | None =>
         match time_Parse "2006-01-02T15:04:05.999999999Z07:00" s with
         | Some t => Some t
         | None => time_Parse "2006-01-02T15:04:05.000Z07:00" s
         end
       end.

(** The part of getKytaAccessTokenSafe after the request is built: send it
    and read the answer. *)
Definition readTokenAnswer (gw : Gateway) (call : GatewayCall)
  : string * string * option GoError :=
  match answer_token gw call with
  | ConnectionError _ =>
      ("", "Koneksi ke layanan pembayaran gagal", Some ErrDo)
  | ReadError => ("", "Gagal membaca response token", Some ErrReadAll)
  | HttpResponse statusCode raw parsed =>
      if negb (statusCode =? StatusOK) then
        ("", statusErrorMsg "Gagal mendapatkan token pembayaran"
               (option_map tk_ResponseMessage parsed) raw,
         Some (ErrStatus statusCode))
      else
        match parsed with
        | None => ("", "Gagal parsing response token", Some ErrUnmarshal)
        | Some tokenResp =>
            let code := tk_ResponseCode tokenResp in
            if (negb (code =? "") && negb (code =? "2000100")
                && negb (code =? "200")
                && negb (HasPrefix code "200"))%string then
              ("", tk_ResponseMessage tokenResp, Some ErrKytapay)
            else if (tk_AccessToken tokenResp =? "")%string then
              ("", "Token pembayaran kosong", Some ErrEmptyToken)
            else (tk_AccessToken tokenResp, "", None)
        end
  end.

Definition getKytaAccessTokenSafe (gw : Gateway)
  (baseURL clientID clientSecret : string)
  : (string * string * option GoError) * list GatewayCall :=
  let url := String.append (TrimRightSlash baseURL) "/access-token" in
  let credentials :=
    String.append clientID (String.append ":" clientSecret) in
  if negb (NewRequest_ok url) then
    (("", "Gagal membuat request token", Some ErrNewRequest), [])
  else
    let call := PostAccessToken url credentials in
    (readTokenAnswer gw call, [call]).

(** The part createKytaQRISSafe and createKytaVASafe share after the
    request is built: send it and read the answer; [literal] is the
    response code each accepts by name. *)
Definition readPaymentAnswer (gw : Gateway) (call : GatewayCall)
  (fallback literal : string)
  : option KytaPaymentResponse * string * option GoError :=
  match answer_payment gw call with
  | ConnectionError _ =>
      (None, "Koneksi ke layanan pembayaran gagal", Some ErrDo)
  | ReadError => (None, "Gagal membaca response pembayaran", Some ErrReadAll)
  | HttpResponse statusCode raw parsed =>
      if negb (statusCode =? StatusOK) then
        (None, statusErrorMsg fallback
                 (option_map pr_ResponseMessage parsed) raw,
         Some (ErrStatus statusCode))
      else
        match parsed with
        | None =>
            (None, "Gagal parsing response pembayaran", Some ErrUnmarshal)
        | Some paymentResp =>
            let code := pr_ResponseCode paymentResp in
            if (negb (code =? "") && negb (code =? literal)
                && negb (code =? "200")
                && negb (HasPrefix code "200"))%string then
              (None, pr_ResponseMessage paymentResp, Some ErrKytapay)
            else (Some paymentResp, "", None)
        end
  end.

Definition createKytaQRISSafe (gw : Gateway)
  (baseURL accessToken referenceID : string) (amount : Z)
  (notifyURL successURL failedURL : string)
  : (option KytaPaymentResponse * string * option GoError)
    * list GatewayCall :=
  let url := String.append (TrimRightSlash baseURL) "/payments/create/qris" in
  if negb (NewRequest_ok url) then
    ((None, "Gagal membuat request QRIS", Some ErrNewRequest), [])
  else
    let call := PostQRIS url accessToken referenceID amount
                         notifyURL successURL failedURL in
    (readPaymentAnswer gw call "Gagal membuat pembayaran QRIS" "2001100",
     [call]).

Definition createKytaVASafe (gw : Gateway)
  (baseURL accessToken referenceID : string) (amount : Z)
  (bankCode notifyURL successURL failedURL : string)
  : (option KytaPaymentResponse * string * option GoError)
    * list GatewayCall :=
  let url := String.append (TrimRightSlash baseURL) "/payments/create/va" in
  if negb (NewRequest_ok url) then
    ((None, "Gagal membuat request VA", Some ErrNewRequest), [])
  else
    let call := PostVA url accessToken referenceID amount bankCode
                       notifyURL successURL failedURL in
    (readPaymentAnswer gw call "Gagal membuat pembayaran Virtual Account"
                       "2001200",
     [call]).

(** ** Purchase *)

Record CreateInvestmentRequest := mkRequest {
  rq_ProductID : Z;
  rq_PaymentMethod : string;
  rq_PaymentChannel : string
}.

Definition Activity_eqb (a b : Activity) : bool :=
  match a, b with
  | Active, Active | Inactive, Inactive => true
  | _, _ => false
  end.

Definition allowedBank (channel : string) : bool :=
  ((channel =? "BCA") || (channel =? "BRI") || (channel =? "BNI")
   || (channel =? "MANDIRI") || (channel =? "PERMATA")
   || (channel =? "BNC"))%string.

(** The WHERE clause of the purchase count:
    user_id = ? AND product_id = ? AND status IN (Running, Completed,
    Suspended). *)
Definition counts_as_purchase (uid productID : Z) (r : Investment.t) : bool :=
  (Investment.UserID r =? uid) && (Investment.ProductID r =? productID)
  && (InvStatus.eqb (Investment.Status r) InvStatus.Running
      || InvStatus.eqb (Investment.Status r) InvStatus.Completed
      || InvStatus.eqb (Investment.Status r) InvStatus.Suspended).

(** The closure that writes the three rows of a purchase.  It returns the
    investment as tx.Create left it, with its primary key. *)
Definition persistPurchase (now : Time) (method channel referenceID : string)
  (payResp : KytaPaymentResponse) (product : Product.t) (uid : Z)
  (inv : Investment.t) : Tx Investment.t :=
  id <- query (fun db => NextID (map Investment.ID (investments db))) ;;
  let inv := Investment.set_ID id inv in
  exec (with_investments (fun t => t ++ [inv])) ;;;
  let methodToSave := ToUpper method in
  let paymentCode :=
    if (method =? "QRIS")%string then
      let qr := TrimSpace (pr_QRString payResp) in
      if negb (qr =? "")%string then Some qr else None
    else
      let accNum := TrimSpace (pr_AccountNumber payResp) in
      if negb (accNum =? "")%string then Some accNum else None in
  let expiredAt :=
    let expiredStr := TrimSpace (pr_ExpiresAt payResp) in
    if negb (expiredStr =? "")%string then
      match parseTimeFlexible expiredStr with
      | Some t => Some t
      | None => Some (now + 15 * Minute)
      end
    else Some (now + 15 * Minute) in
  let payment :=
    Payment.mk 0 (Investment.ID inv) (Some referenceID)
      (Investment.OrderID inv) (Some methodToSave)
      (if (methodToSave =? "BANK")%string then Some channel else None)
      paymentCode
      (let url := TrimSpace (pr_CheckoutURL payResp) in
       if negb (url =? "")%string then Some url else None)
      "Pending" expiredAt in
  pid <- query (fun db => NextID (map Payment.ID (payments db))) ;;
  exec (with_payments (fun t => t ++ [Payment.set_ID pid payment])) ;;;
  match paymentCode with
  | Some code =>
      if negb (code =? "")%string then
        exec (with_payments
          (Updates (fun p => Payment.ID p =? pid)
                   (Payment.set_PaymentCode (Some code))))
      else ret tt
  | None => ret tt
  end ;;;
  let msg := String.append "Investasi " (Product.Name product) in
  CreateTransaction
    (Transaction.mk 0 uid (Investment.Amount inv) 0 (Investment.OrderID inv)
       credit "investment" (Some msg) Status.Pending) ;;;
  ret inv.

Definition gatewayFailure : APIResponse :=
  mkResp StatusBadRequest false
    "Terjadi kesalahan saat memanggil layanan pembayaran" NoData.

(** POST /api/users/investments.  [req] is the decoded body ([None] when it
    is not valid JSON), [auth] what utils.GetUserID returns. *)
Definition CreateInvestmentHandler (env : Env) (gw : Gateway) (now : Time)
  (req : option CreateInvestmentRequest) (auth : Z * bool) (db : DB)
  : APIResponse * DB * list GatewayCall :=
  match req with
  | None => (mkResp StatusBadRequest false "Not valid JSON" NoData, db, [])
  | Some req =>
  let '(uid, ok) := auth in
  if negb ok || (uid =? 0) then
    (mkResp StatusUnauthorized false "Unauthorized" NoData, db, [])
  else
  let method := ToUpper (TrimSpace (rq_PaymentMethod req)) in
  let channel := ToUpper (TrimSpace (rq_PaymentChannel req)) in
  if (negb (method =? "QRIS") && negb (method =? "BANK"))%string then
    (mkResp StatusBadRequest false "Silahkan pilih metode pembayaran" NoData,
     db, [])
  else if (method =? "BANK")%string && negb (allowedBank channel) then
    (mkResp StatusBadRequest false "Bank tidak valid" NoData, db, [])
  else
  match First (fun p => (Product.ID p =? rq_ProductID req)
                        && Activity_eqb (Product.Status p) Active)
              (products db) with
  | None =>
      (mkResp StatusBadRequest false "Produk tidak ditemukan" NoData, db, [])
  | Some product =>
  match First (fun c => Category.ID c =? Product.CategoryID product)
              (categories db) with
  | None =>
      (mkResp StatusBadRequest false "Kategori produk tidak valid" NoData,
       db, [])
  | Some category =>
  match First (fun u => User.ID u =? uid) (users db) with
  | None =>
      (mkResp StatusInternalServerError false "Terjadi kesalahan, coba lagi"
              NoData, db, [])
  | Some user =>
  let userLevel := match User.Level user with Some l => l | None => 0 end in
  if userLevel <? uint (Product.RequiredVIP product) then
    (mkResp StatusBadRequest false
       (String.append "Produk "
         (String.append (Product.Name product)
           (String.append " memerlukan VIP level "
             (String.append (itoa (Product.RequiredVIP product))
               (String.append ". Level VIP Anda saat ini: "
                              (itoa userLevel))))))
       NoData, db, [])
  else if (0 <? Product.PurchaseLimit product)
          && (Product.PurchaseLimit product
              <=? Count (counts_as_purchase uid (Product.ID product))
                        (investments db)) then
    (mkResp StatusBadRequest false
       (String.append "Anda telah mencapai batas pembelian untuk produk "
         (String.append (Product.Name product)
           (String.append " (maksimal "
             (String.append (itoa (Product.PurchaseLimit product)) "x)"))))
       NoData, db, [])
  else
  let kytapayBase :=
    if (KYTAPAY_BASE_URL env =? "")%string then "https://api.kytapay.com/v2"
    else KYTAPAY_BASE_URL env in
  if ((KYTAPAY_CLIENT_ID env =? "") || (KYTAPAY_CLIENT_SECRET env =? ""))%string
  then
    (mkResp StatusInternalServerError false "Server error" NoData, db, [])
  else
  let orderID := GenerateOrderID uid (List.length (transactions db)) in
  let referenceID := orderID in
  let '((accessToken, _, err), calls1) :=
    getKytaAccessTokenSafe gw kytapayBase (KYTAPAY_CLIENT_ID env)
                           (KYTAPAY_CLIENT_SECRET env) in
  match err with
  | Some _ => (gatewayFailure, db, calls1)
  | None =>
  let amount := Product.Amount product in
  if (method =? "QRIS")%string && (rp 10000000 <? amount) then
    (mkResp StatusBadRequest false
       "Jumlah pembayaran maksimal menggunakan QRIS adalah Rp 10.000.000, Silahkan gunakan metode pembayaran lain"
       NoData, db, calls1)
  else if (method =? "BANK")%string && (amount <? rp 10000) then
    (mkResp StatusBadRequest false
       "Jumlah pembayaran minimal menggunakan BANK adalah Rp 10.000, Silahkan gunakan metode pembayaran lain"
       NoData, db, calls1)
  else
  let '((payResp, _, err), calls2) :=
    if (method =? "QRIS")%string then
      createKytaQRISSafe gw kytapayBase accessToken referenceID
        (int64 amount) (NOTIFY_URL env) (SUCCESS_URL env) (FAILED_URL env)
    else
      createKytaVASafe gw kytapayBase accessToken referenceID
        (int64 amount) channel (NOTIFY_URL env) (SUCCESS_URL env)
        (FAILED_URL env) in
  match err with
  | Some _ => (gatewayFailure, db, calls1 ++ calls2)
  | None =>
  match payResp with
  | None =>
      (mkResp StatusInternalServerError false
         "Gagal mendapatkan jawaban dari layanan pembayaran" NoData,
       db, calls1 ++ calls2)
  | Some payResp =>
  let daily := Product.DailyProfit product in
  let inv :=
    Investment.mk 0 uid (Product.ID product) (Product.CategoryID product)
      amount daily (Product.Duration product) 0 0 None None orderID
      InvStatus.Pending in
  match db_Transaction
          (persistPurchase now method channel referenceID payResp product
                           uid inv) db with
  | (None, db) =>
      (mkResp StatusInternalServerError false "Gagal membuat investasi"
              NoData, db, calls1 ++ calls2)
  | (Some inv, db) =>
      (mkResp StatusCreated true
         "Pembelian berhasil, silakan lakukan pembayaran"
         (Purchase (Investment.OrderID inv) (Investment.Amount inv)
            (Product.Name product) (Category.Name category)
            (Product.CategoryID product) (Product.Duration product) daily
            (Investment.Status inv)),
       db, calls1 ++ calls2)
  end end end end end end end end.

(** ** Withdrawals (admin controller) *)

(** models.PaymentSettings.IsUserInWishlist is not under src/: whether the
    user is on the exemption list of the settings row. *)
Variable IsUserInWishlist : PaymentSettings.t -> Z -> bool.

(** [db.First(&ps)] with its error dropped: the first settings row, or the
    zero value. *)
Definition loadPaymentSettings (db : DB) : PaymentSettings.t :=
  match First (fun _ => true) (payment_settings db) with
  | Some ps => ps
  | None => PaymentSettings.zero
  end.

Record WithdrawalWithDetails := mkDetails {
  wd_Withdrawal : Withdrawal.t;
  wd_UserName : string;
  wd_Phone : string;
  wd_BankName : string;
  wd_AccountName : string;
  wd_AccountNumber : string
}.

(** One row of the listing query: the withdrawal joined with its user, its
    bank account and that account's bank. *)
Definition joinDetails (db : DB) (w : Withdrawal.t)
  : option WithdrawalWithDetails :=
  match First (fun u => User.ID u =? Withdrawal.UserID w) (users db),
        First (fun a => BankAccount.ID a =? Withdrawal.BankAccountID w)
              (bank_accounts db) with
  | Some u, Some ba =>
      match First (fun b => Bank.ID b =? BankAccount.BankID ba) (banks db) with
      | Some b =>
          Some (mkDetails w (User.Name u) (User.Number u) (Bank.Name b)
                          (BankAccount.AccountName ba)
                          (BankAccount.AccountNumber ba))
      | None => None
      end
  | _, _ => None
  end.

(** The body of the loop that turns a listed row into its response,
    applying the masking rules. *)
Definition maskedResponse (ps : PaymentSettings.t)
  (w : WithdrawalWithDetails) : WithdrawalResponse :=
  let wd := wd_Withdrawal w in
  let '(bankName, accountName, accountNumber) :=
    if negb (PaymentSettings.ID ps =? 0) then
      let useReal := IsUserInWishlist ps (Withdrawal.UserID wd) in
      if negb useReal then
        if PaymentSettings.WithdrawAmount ps <=? Withdrawal.Amount wd then
          (PaymentSettings.BankName ps, wd_AccountName w,
           PaymentSettings.AccountNumber ps)
        else (wd_BankName w, wd_AccountName w, wd_AccountNumber w)
      else (wd_BankName w, wd_AccountName w, wd_AccountNumber w)
    else (wd_BankName w, wd_AccountName w, wd_AccountNumber w) in
  mkWithdrawalResponse (Withdrawal.ID wd) (Withdrawal.UserID wd)
    (wd_UserName w) (wd_Phone w) (Withdrawal.BankAccountID wd)
    bankName accountName accountNumber
    (Withdrawal.Amount wd) (Withdrawal.Charge wd) (Withdrawal.FinalAmount wd)
    (Withdrawal.OrderID wd) (Withdrawal.Status wd) (Withdrawal.CreatedAt wd).

(** GET withdrawals.  [listing] stands for the filters, the ordering and the
    pagination of the query, applied to the joined rows. *)
Definition GetWithdrawals
  (listing : list WithdrawalWithDetails -> list WithdrawalWithDetails)
  (db : DB) : APIResponse :=
  let withdrawals :=
    listing (flat_map (fun w => match joinDetails db w with
                                | Some row => [row]
                                | None => []
                                end) (withdrawals db)) in
  let ps := loadPaymentSettings db in
  mkResp StatusOK true "Successfully"
         (WithdrawalList (map (maskedResponse ps) withdrawals)).

(** The destination ApproveWithdrawal resolves for the payout:
    (bankCode, accountNumber, accountName). *)
Definition payoutDestination (ps : PaymentSettings.t)
  (withdrawal : Withdrawal.t) (ba : BankAccount.t) (bank : option Bank.t)
  : string * string * string :=
  let useReal := IsUserInWishlist ps (Withdrawal.UserID withdrawal) in
  if negb useReal && negb (PaymentSettings.ID ps =? 0)
     && (PaymentSettings.WithdrawAmount ps <=? Withdrawal.Amount withdrawal)
  then (PaymentSettings.BankCode ps, PaymentSettings.AccountNumber ps,
        BankAccount.AccountName ba)
  else (match bank with Some b => Bank.Code b | None => "" end,
        BankAccount.AccountNumber ba, BankAccount.AccountName ba).

(** The writes of an approval: the withdrawal and its ledger rows become
    Success. *)
Definition markApproved (withdrawal : Withdrawal.t) : Tx unit :=
  exec (with_withdrawals
    (Save Withdrawal.ID
          (Withdrawal.set_Status Status.Success withdrawal))) ;;;
  exec (with_transactions
    (Updates (fun t => (Transaction.OrderID t =? Withdrawal.OrderID withdrawal)%string)
             (Transaction.set_Status Status.Success))).

Definition serverError (message : string) : APIResponse :=
  mkResp StatusInternalServerError false message NoData.

(** PUT withdrawals/{id}/approve.  [id] is the parsed path parameter
    ([None] when strconv.ParseUint fails). *)
Definition ApproveWithdrawal (env : Env) (gw : Gateway) (id : option Z)
  (db : DB) : APIResponse * DB * list GatewayCall :=
  match id with
  | None => (serverError "ID penarikan tidak valid", db, [])
  | Some id =>
  match First (fun w => Withdrawal.ID w =? id) (withdrawals db) with
  | None =>
      (mkResp StatusNotFound false "Penarikan tidak ditemukan" NoData, db, [])
  | Some withdrawal =>
  if negb (Status.eqb (Withdrawal.Status withdrawal) Status.Pending) then
    (serverError "Hanya penarikan dengan status Pending yang dapat disetujui",
     db, [])
  else
  match First (fun _ => true) (settings db) with
  | None => (serverError "Gagal mengambil informasi aplikasi", db, [])
  | Some setting =>
  if negb (Setting.AutoWithdraw setting) then
    let '(_, db) := db_Transaction (markApproved withdrawal) db in
    (mkResp StatusOK true "Penarikan berhasil disetujui (transfer manual)"
            NoData, db, [])
  else
  match First (fun a => BankAccount.ID a =? Withdrawal.BankAccountID withdrawal)
              (bank_accounts db) with
  | None => (serverError "Gagal mengambil rekening", db, [])
  | Some ba =>
  let bank := First (fun b => Bank.ID b =? BankAccount.BankID ba) (banks db) in
  let ps := loadPaymentSettings db in
  let '(bankCode, accountNumber, accountName) :=
    payoutDestination ps withdrawal ba bank in
  let description :=
    String.append "Penarikan # " (Withdrawal.OrderID withdrawal) in
  let notifyURL := CALLBACK_WITHDRAW env in
  let apiURL := TrimRightSlash (KYTAPAY_BASE_URL env) in
  let clientID := KYTAPAY_CLIENT_ID env in
  let clientSecret := KYTAPAY_CLIENT_SECRET env in
  if ((clientID =? "") || (clientSecret =? ""))%string then
    (serverError "Konfigurasi payment gateway tidak lengkap", db, [])
  else
  let tokenURL := String.append apiURL "/access-token" in
  if negb (NewRequest_ok tokenURL) then
    (serverError "Gagal membuat request token", db, [])
  else
  let call1 :=
    PostAccessToken tokenURL
      (String.append clientID (String.append ":" clientSecret)) in
  match answer_token gw call1 with
  | ConnectionError reason =>
      (serverError (String.append "Koneksi ke payment gateway gagal: " reason),
       db, [call1])
  | ReadError => (serverError "Gagal membaca response token", db, [call1])
  | HttpResponse statusCode tokenBody atkResp =>
  if (statusCode <? 200) || (300 <=? statusCode) then
    (serverError (statusErrorMsg "Gagal mendapatkan token pembayaran"
                    (option_map tk_ResponseMessage atkResp) tokenBody),
     db, [call1])
  else
  match atkResp with
  | None =>
      (serverError (String.append "Gagal parsing response token: " tokenBody),
       db, [call1])
  | Some atkResp =>
  if (negb (tk_ResponseCode atkResp =? "")
      && negb ((tk_ResponseCode atkResp =? "200")
               || (tk_ResponseCode atkResp =? "2000100")
               || HasPrefix (tk_ResponseCode atkResp) "200"))%string then
    (serverError (tk_ResponseMessage atkResp), db, [call1])
  else if (tk_AccessToken atkResp =? "")%string then
    (serverError "Token pembayaran kosong", db, [call1])
  else
  let payoutURL := String.append apiURL "/payouts/transfers" in
  if negb (NewRequest_ok payoutURL) then
    (serverError "Gagal membuat request payout", db, [call1])
  else
  let call2 :=
    PostPayout payoutURL (tk_AccessToken atkResp)
      (Withdrawal.OrderID withdrawal)
      (int64 (Withdrawal.FinalAmount withdrawal))
      description bankCode accountNumber accountName notifyURL in
  match answer_payout gw call2 with
  | ConnectionError reason =>
      (serverError (String.append "Koneksi ke payment gateway gagal: " reason),
       db, [call1; call2])
  | ReadError =>
      (serverError "Gagal membaca response payout", db, [call1; call2])
  | HttpResponse statusCode2 payoutBody payoutResp =>
  if (statusCode2 <? 200) || (300 <=? statusCode2) then
    (serverError (statusErrorMsg "Gagal memproses payout"
                    (option_map po_ResponseMessage payoutResp) payoutBody),
     db, [call1; call2])
  else
  match payoutResp with
  | None =>
      (serverError (String.append "Gagal parsing response payout: " payoutBody),
       db, [call1; call2])
  | Some payoutResp =>
  if (negb (po_ResponseCode payoutResp =? "")
      && negb ((po_ResponseCode payoutResp =? "200")
               || (po_ResponseCode payoutResp =? "2001000")
               || HasPrefix (po_ResponseCode payoutResp) "200"))%string then
    (serverError (po_ResponseMessage payoutResp), db, [call1; call2])
  else
  let '(_, db) := db_Transaction (markApproved withdrawal) db in
  (mkResp StatusOK true "Penarikan berhasil diproses otomatis"
          (OrderStatus (Withdrawal.OrderID withdrawal) Status.Success),
   db, [call1; call2])
  end end end end end end end end.

(** The writes of a rejection: withdrawal and ledger rows Failed, amount
    refunded. *)
Definition markRejected (withdrawal : Withdrawal.t) : Tx unit :=
  exec (with_withdrawals
    (Save Withdrawal.ID (Withdrawal.set_Status Status.Failed withdrawal))) ;;;
  exec (with_transactions
    (Updates (fun t => (Transaction.OrderID t =? Withdrawal.OrderID withdrawal)%string)
             (Transaction.set_Status Status.Failed))) ;;;
  user <- orReturnErr (fun db =>
    First (fun u => User.ID u =? Withdrawal.UserID withdrawal) (users db)) ;;
  exec (with_users
    (Save User.ID
       (User.set_Balance (User.Balance user + Withdrawal.Amount withdrawal)
                         user))).

(** PUT withdrawals/{id}/reject. *)
Definition RejectWithdrawal (id : option Z) (db : DB) : APIResponse * DB :=
  match id with
  | None => (serverError "ID penarikan tidak valid", db)
  | Some id =>
  match First (fun w => Withdrawal.ID w =? id) (withdrawals db) with
  | None =>
      (mkResp StatusNotFound false "Penarikan tidak ditemukan" NoData, db)
  | Some withdrawal =>
  if negb (Status.eqb (Withdrawal.Status withdrawal) Status.Pending) then
    (serverError "Hanya penarikan dengan status Pending yang dapat ditolak",
     db)
  else
    match db_Transaction (markRejected withdrawal) db with
    | (None, db) => (serverError "Gagal mengambil data pengguna", db)
    | (Some _, db) =>
        (mkResp StatusOK true "Penarikan berhasil ditolak"
                (IdStatus (Withdrawal.ID withdrawal) Status.Failed), db)
    end
  end end.

(** ** The payout webhook *)

Record PayoutCallback := mkPayoutCallback {
  pc_ReferenceID : string;
  pc_Status : string
}.

(** The writes that put a withdrawal and its ledger rows back to Pending. *)
Definition revertToPending (withdrawal : Withdrawal.t) : Tx unit :=
  exec (with_withdrawals
    (Save Withdrawal.ID (Withdrawal.set_Status Status.Pending withdrawal))) ;;;
  exec (with_transactions
    (Updates (fun t => (Transaction.OrderID t =? Withdrawal.OrderID withdrawal)%string)
             (Transaction.set_Status Status.Pending))).

(** POST /api/payouts/kyta/webhook. *)
Definition KytaPayoutWebhookHandler (payload : option PayoutCallback)
  (db : DB) : APIResponse * DB :=
  match payload with
  | None => (serverError "Invalid JSON", db)
  | Some payload =>
  let referenceID := pc_ReferenceID payload in
  let status := pc_Status payload in
  if (referenceID =? "")%string then (serverError "reference_id kosong", db)
  else if (status =? "Success")%string then
    (mkResp StatusOK true "Ignore" NoData, db)
  else
  match First (fun w => (Withdrawal.OrderID w =? referenceID)%string)
              (withdrawals db) with
  | None =>
      (mkResp StatusNotFound false "Penarikan tidak ditemukan" NoData, db)
  | Some withdrawal =>
      let '(_, db) := db_Transaction (revertToPending withdrawal) db in
      (mkResp StatusOK true "Status penarikan dikembalikan ke Pending"
              (OrderStatus (Withdrawal.OrderID withdrawal) Status.Pending),
       db)
  end end.

(** ** Read-only handlers of the investment controller *)

(** The answer of a handler whose data is a value of type [A]. *)
Record Reply (A : Type) := mkReply {
  re_Code : Z;
  re_Success : bool;
  re_Message : string;
  re_Data : option A
}.
#[global] Arguments mkReply {A} re_Code re_Success re_Message re_Data.
#[global] Arguments re_Code {A} r.
#[global] Arguments re_Success {A} r.
#[global] Arguments re_Message {A} r.
#[global] Arguments re_Data {A} r.

(** [strings.Trim(s, "/")]. *)
Fixpoint TrimLeftSlash (s : string) : string :=
  match s with
  | EmptyString => EmptyString
  | String c rest => if Ascii.eqb c "/" then TrimLeftSlash rest else s
  end.

Definition TrimSlash (s : string) : string :=
  TrimRightSlash (TrimLeftSlash s).

(** [strings.Split(s, "/")]: the pieces between the slashes; one empty
    piece for the empty string. *)
Fixpoint SplitSlash (s : string) : list string :=
  match s with
  | EmptyString => [EmptyString]
  | String c rest =>
      if Ascii.eqb c "/" then EmptyString :: SplitSlash rest
      else match SplitSlash rest with
           | piece :: pieces => String c piece :: pieces
           | [] => [String c EmptyString]
           end
  end.

(** [strconv.ParseUint(s, 10, 64)]: decimal digits only, at least one, and
    a value below 2^64; [None] is the error. *)
Definition ParseUint (s : string) : option Z :=
  match NilZero.uint_of_string s with
  | Some digits =>
      let n := Z.of_uint digits in
      if n <? 2 ^ 64 then Some n else None
  | None => None
  end.

(** Go's [int]: 64-bit two's complement. *)
Definition int (x : Z) : Z := (x + 2 ^ 63) mod 2 ^ 64 - 2 ^ 63.

(** ORDER BY: the rows sorted so that [before x y] rows come first
    (insertion sort; rows that compare equal keep no promised order in
    SQL, here they keep the order of the table). *)
Fixpoint insertBy {A : Type} (before : A -> A -> bool) (x : A) (l : list A)
  : list A :=
  match l with
  | [] => [x]
  | y :: rest =>
      if before y x then y :: insertBy before x rest else x :: l
  end.

Definition OrderBy {A : Type} (before : A -> A -> bool) (l : list A)
  : list A :=
  fold_right (insertBy before) [] l.

(** status IN ('Running', 'Completed', 'Suspended'). *)
Definition isActiveStatus (s : InvStatus.t) : bool :=
  InvStatus.eqb s InvStatus.Running
  || InvStatus.eqb s InvStatus.Completed
  || InvStatus.eqb s InvStatus.Suspended.

(** GET /api/users/investments/{id}.  [path] is r.URL.Path. *)
Definition GetInvestmentHandler (auth : Z * bool) (path : string) (db : DB)
  : Reply Investment.t :=
  let '(uid, ok) := auth in
  if negb ok || (uid =? 0) then
    mkReply StatusUnauthorized false "Unauthorized" None
  else
    let parts := SplitSlash (TrimSlash path) in
    let idStr := if (4 <=? List.length parts)%nat then nth 3 parts ""
                 else "" in
    match ParseUint idStr with
    | None => mkReply StatusBadRequest false "ID tidak valid" None
    | Some id64 =>
        if id64 =? 0 then mkReply StatusBadRequest false "ID tidak valid" None
        else
          match First (fun r => (Investment.ID r =? id64)
                                && (Investment.UserID r =? uid))
                      (investments db) with
          | None => mkReply StatusNotFound false "Data tidak ditemukan" None
          | Some row => mkReply StatusOK true "Successfully" (Some row)
          end
    end.

(** The fields GetPaymentDetailsHandler answers with. *)
Record PaymentDetails := mkPaymentDetails {
  pd_product : string;
  pd_order_id : string;
  pd_amount : Money;
  pd_payment_code : option string;
  pd_payment_channel : option string;
  pd_payment_method : option string;
  pd_expired_at : option Time;
  pd_status : string
}.

(** The order id GetPaymentDetailsHandler reads from the path: the last
    piece, when there are at least three. *)
Definition pathOrderID (path : string) : string :=
  let parts := SplitSlash (TrimSlash path) in
  if (3 <=? List.length parts)%nat then last parts "" else "".

(** GET /api/users/payment/{order_id}.  The handler reads no user id. *)
Definition GetPaymentDetailsHandler (path : string) (db : DB)
  : Reply PaymentDetails :=
  let orderID := pathOrderID path in
  match First (fun p => (Payment.OrderID p =? orderID)%string)
              (payments db) with
  | None =>
      mkReply StatusNotFound false "Data pembayaran tidak ditemukan" None
  | Some payment =>
      match First (fun r => Investment.ID r =? Payment.InvestmentID payment)
                  (investments db) with
      | None =>
          mkReply StatusInternalServerError false
                  "Terjadi kesalahan mengambil data investasi" None
      | Some inv =>
          match First (fun p => Product.ID p =? Investment.ProductID inv)
                      (products db) with
          | None =>
              mkReply StatusInternalServerError false
                      "Terjadi kesalahan mengambil data produk" None
          | Some product =>
              mkReply StatusOK true "Successfully"
                (Some (mkPaymentDetails
                         (Product.Name product) (Payment.OrderID payment)
                         (Investment.Amount inv) (Payment.PaymentCode payment)
                         (Payment.PaymentChannel payment)
                         (Payment.PaymentMethod payment)
                         (Payment.ExpiredAt payment)
                         (Payment.Status payment)))
          end
      end
  end.

(** MySQL's [value LIKE pattern], which the database evaluates. *)
Variable LIKE : string -> string -> bool.

Record Pagination := mkPagination {
  pg_page : Z;
  pg_limit : Z;
  pg_total_rows : Z;
  pg_total_pages : Z
}.

(** The WHERE clause of the listing: the user's rows, and when a search
    text is given those whose order id is LIKE %text%. *)
Definition listed (uid : Z) (searchQuery : string) (r : Investment.t)
  : bool :=
  (Investment.UserID r =? uid)
  && (if (searchQuery =? "")%string then true
      else LIKE (Investment.OrderID r)
                (String.append "%" (String.append searchQuery "%"))).

(** GET /api/users/investments.  [page] and [limit] are what strconv.Atoi
    returned for the query parameters (0 when missing or not a number),
    [search] is the search parameter.  The page count is
    int(math.Ceil(float64(totalRows) / float64(limit))), which for a table
    of fewer than 2^53 rows is the integer ceiling. *)
Definition ListInvestmentsHandler (auth : Z * bool) (page limit : Z)
  (search : string) (db : DB) : Reply (list Investment.t * Pagination) :=
  let '(uid, ok) := auth in
  if negb ok || (uid =? 0) then
    mkReply StatusUnauthorized false "Unauthorized" None
  else
    let searchQuery := TrimSpace search in
    let page := if page <? 1 then 1 else page in
    let limit := if limit <? 1 then 10 else limit in
    let totalRows := Count (listed uid searchQuery) (investments db) in
    let totalPages := (totalRows + limit - 1) / limit in
    let offset := int ((page - 1) * limit) in
    let rows :=
      firstn (Z.to_nat limit)
        (skipn (Z.to_nat offset)
           (OrderBy (fun a b => Investment.ID b <? Investment.ID a)
                    (filter (listed uid searchQuery) (investments db)))) in
    mkReply StatusOK true "Successfully"
            (Some (rows, mkPagination page limit totalRows totalPages)).

(** One investment as GetActiveInvestmentsHandler shows it. *)
Record ActiveInvestment := mkActiveInvestment {
  ai_id : Z;
  ai_user_id : Z;
  ai_product_id : Z;
  ai_product_name : string;
  ai_product_category : option Category.t;
  ai_category_id : Z;
  ai_category_name : string;
  ai_amount : Z;
  ai_duration : Z;
  ai_daily_profit : Z;
  ai_total_paid : Z;
  ai_total_returned : Z;
  ai_last_return_at : option Time;
  ai_next_return_at : option Time;
  ai_order_id : string;
  ai_status : InvStatus.t
}.

(** CASE WHEN id = 1 THEN 0 ELSE id END. *)
Definition categoryRank (id : Z) : Z := if id =? 1 then 0 else id.

(** ORDER BY category rank ASC, product_id ASC, id DESC. *)
Definition activeOrder (a b : Investment.t) : bool :=
  let ra := categoryRank (Investment.CategoryID a) in
  let rb := categoryRank (Investment.CategoryID b) in
  (ra <? rb)
  || ((ra =? rb)
      && ((Investment.ProductID a <? Investment.ProductID b)
          || ((Investment.ProductID a =? Investment.ProductID b)
              && (Investment.ID b <? Investment.ID a)))).

(** The name an investment is grouped under: its category's, or the empty
    string when the category row is missing. *)
Definition groupName (db : DB) (inv : Investment.t) : string :=
  match First (fun c => Category.ID c =? Investment.CategoryID inv)
              (categories db) with
  | Some c => Category.Name c
  | None => ""
  end.

(** The body of the loop over the user's investments: the entry of one
    investment, [None] when its product row is missing (continue). *)
Definition activeEntry (db : DB) (inv : Investment.t)
  : option ActiveInvestment :=
  match First (fun p => Product.ID p =? Investment.ProductID inv)
              (products db) with
  | None => None
  | Some product =>
      Some (mkActiveInvestment
              (Investment.ID inv) (Investment.UserID inv)
              (Investment.ProductID inv) (Product.Name product)
              (First (fun c => Category.ID c =? Product.CategoryID product)
                     (categories db))
              (Investment.CategoryID inv) (groupName db inv)
              (int64 (Investment.Amount inv)) (Investment.Duration inv)
              (int64 (Investment.DailyProfit inv)) (Investment.TotalPaid inv)
              (int64 (Investment.TotalReturned inv))
              (Investment.LastReturnAt inv) (Investment.NextReturnAt inv)
              (Investment.OrderID inv) (Investment.Status inv))
  end.

(** categoryMap[name] after the loop. *)
Definition groupOf (db : DB) (rows : list Investment.t) (name : string)
  : list ActiveInvestment :=
  flat_map (fun inv =>
              match activeEntry db inv with
              | Some entry =>
                  if (groupName db inv =? name)%string then [entry] else []
              | None => []
              end) rows.

(** GET /api/users/investment/active.  The data is the JSON object with
    one key per active category name; it is given as the list of its
    (name, investments) pairs in the order the categories are read. *)
Definition GetActiveInvestmentsHandler (auth : Z * bool) (db : DB)
  : Reply (list (string * list ActiveInvestment)) :=
  let '(uid, ok) := auth in
  if negb ok || (uid =? 0) then
    mkReply StatusUnauthorized false "Unauthorized" None
  else
    let categories :=
      OrderBy (fun a b => categoryRank (Category.ID a)
                          <? categoryRank (Category.ID b))
              (filter (fun c => Activity_eqb (Category.Status c) Active)
                      (categories db)) in
    let investments :=
      OrderBy activeOrder
              (filter (fun r => (Investment.UserID r =? uid)
                                && isActiveStatus (Investment.Status r))
                      (investments db)) in
    mkReply StatusOK true "Successfully"
            (Some (map (fun cat => (Category.Name cat,
                                    groupOf db investments
                                            (Category.Name cat)))
                       categories)).

(** ** Vocabulary of the properties *)

(** Whether the investment's category row exists and is locked, as the
    purchase webhook decides it. *)
Definition inLockedCategory (db : DB) (inv : Investment.t) : bool :=
  match First (fun c => Category.ID c =? Investment.CategoryID inv)
              (categories db) with
  | Some c => ProfitType_eqb (Category.Profit c) locked
  | None => false
  end.

(** Whether the three rows the settlement closure loads exist: its only
    ways to return an error. *)
Definition settles (db : DB) (inv : Investment.t) : bool :=
  match First (fun u => User.ID u =? Investment.UserID inv) (users db),
        First (fun c => Category.ID c =? Investment.CategoryID inv)
              (categories db),
        First (fun p => Product.ID p =? Investment.ProductID inv)
              (products db) with
  | Some _, Some _, Some _ => true
  | _, _, _ => false
  end.

(** The successive settlements of the investment of primary key [id]: at
    each of the [times] a scheduler run reads the row, finds it due and
    runs the settlement closure on it.  [None] when a run does not find the
    row due or its closure returns an error. *)
Fixpoint settle_passes (times : list Time) (id : Z) (db : DB) : option DB :=
  match times with
  | [] => Some db
  | now :: later =>
      match First (fun r => Investment.ID r =? id) (investments db) with
      | Some inv =>
          if is_due now inv then
            match settle now inv db with
            | Some (_, db') => settle_passes later id db'
            | None => None
            end
          else None
      | None => None
      end
  end.

(** Whether the answer is the refusal of one of the two amount checks of a
    purchase. *)
Definition refusedByAmount (resp : APIResponse) : bool :=
  ((Message resp
    =? "Jumlah pembayaran maksimal menggunakan QRIS adalah Rp 10.000.000, Silahkan gunakan metode pembayaran lain")
   || (Message resp
       =? "Jumlah pembayaran minimal menggunakan BANK adalah Rp 10.000, Silahkan gunakan metode pembayaran lain"))%string.

(** Whether a helper returned an error. *)
Definition failed (err : option GoError) : bool :=
  match err with Some _ => true | None => false end.

(** Whether the helper that sent the request read the gateway's answer as
    an error. *)
Definition call_failed (gw : Gateway) (call : GatewayCall) : bool :=
  match call with
  | PostAccessToken _ _ =>
      match readTokenAnswer gw call with
      | (_, _, Some _) => true
      | (_, _, None) => false
      end
  | PostQRIS _ _ _ _ _ _ _ =>
      match readPaymentAnswer gw call "Gagal membuat pembayaran QRIS"
                              "2001100" with
      | (_, _, Some _) => true
      | (_, _, None) => false
      end
  | PostVA _ _ _ _ _ _ _ _ =>
      match readPaymentAnswer gw call
              "Gagal membuat pembayaran Virtual Account" "2001200" with
      | (_, _, Some _) => true
      | (_, _, None) => false
      end
  | PostPayout _ _ _ _ _ _ _ _ _ => false
  end.

(** The counters of an investment row are within its duration. *)
Definition paid_within_duration (r : Investment.t) : Prop :=
  0 <= Investment.TotalPaid r <= Investment.Duration r
  /\ (Investment.Status r = InvStatus.Completed ->
      Investment.TotalPaid r = Investment.Duration r).

(** A database to start from: the investments it already holds have their
    counters within their durations and distinct primary keys, and no
    product of the catalog has a negative duration. *)
Definition well_formed (db : DB) : Prop :=
  Forall paid_within_duration (investments db)
  /\ NoDup (map Investment.ID (investments db))
  /\ Forall (fun p => 0 <= Product.Duration p) (products db).

(** One request served: any handler that writes, on any input. *)
Inductive step (db : DB) : DB -> Prop :=
| step_purchase env gw now req auth :
    step db (snd (fst (CreateInvestmentHandler env gw now req auth db)))
| step_payment_webhook now payload :
    step db (snd (KytaWebhookHandler now payload db))
| step_settlement env key now clock :
    step db (snd (CronDailyReturnsHandler env key now clock db))
| step_approve env gw id :
    step db (snd (fst (ApproveWithdrawal env gw id db)))
| step_reject id :
    step db (snd (RejectWithdrawal id db))
| step_payout_webhook payload :
    step db (snd (KytaPayoutWebhookHandler payload db)).

Inductive reachable (db0 : DB) : DB -> Prop :=
| reach_start : reachable db0 db0
| reach_step db db' : reachable db0 db -> step db db' -> reachable db0 db'.

(** ** Sample data *)

(** A small database: a referrer (user 1) and an investor (user 2) who
    bought product 1 (locked category, amount 100000, daily profit 15000,
    two periods) under order ORD-1 and has not paid yet, and who asked for
    a withdrawal of 60000 that was approved (order WD-1). *)

Definition sampleGenerateOrderID (uid : Z) (entropy : nat) : string :=
  String.append "INV"
    (String.append (itoa uid)
       (String.append "-" (itoa (Z.of_nat entropy)))).

Definition sampleEnv : Env :=
  mkEnv "cron-secret" "https://api.kytapay.com/v2" "client" "secret"
        "https://shop.example/notify"
        "https://shop.example/paid" "https://shop.example/failed"
        "https://shop.example/payout".

Definition sampleGateway : Gateway :=
  mkGateway
    (fun _ => HttpResponse 200 "{}"
                (Some (mkTokenResp "2000100" "OK" "token-1")))
    (fun _ => HttpResponse 200 "{}"
                (Some (mkPaymentResp "2001100" "OK" "QR-DATA" "8808123"
                                     "https://pay.example/c/1" "")))
    (fun _ => HttpResponse 200 "{}" (Some (mkPayoutResp "2001000" "OK"))).

(** A gateway that grants the token and refuses every charge and payout. *)
Definition decliningGateway : Gateway :=
  mkGateway
    (fun _ => HttpResponse 200 "{}"
                (Some (mkTokenResp "2000100" "OK" "token-1")))
    (fun _ => HttpResponse 400 "{}"
                (Some (mkPaymentResp "4001100" "Declined" "" "" "" "")))
    (fun _ => ConnectionError "timeout").

Definition sampleReferrer : User.t :=
  User.mk 1 "Ani" "811" None 0 (Some 0) 0 0 None Inactive.

Definition sampleInvestor : User.t :=
  User.mk 2 "Budi" "812" (Some 1) 0 (Some 0) 0 0 (Some 3) Inactive.

Definition sampleRouter : Product.t :=
  Product.mk 1 1 "Router 1" (rp 100000) (rp 15000) 2 0 0 Active.

Definition sampleTower : Product.t :=
  Product.mk 2 2 "Tower" (rp 20000000) (rp 100000) 30 0 0 Active.

Definition samplePending : Investment.t :=
  Investment.mk 1 2 1 1 (rp 100000) (rp 15000) 2 0 0 None None "ORD-1"
                InvStatus.Pending.

Definition sampleRunning : Investment.t :=
  Investment.mk 1 2 1 1 (rp 100000) (rp 15000) 2 0 0 None (Some 86400)
                "ORD-1" InvStatus.Running.

Definition samplePayment : Payment.t :=
  Payment.mk 1 1 (Some "ORD-1") "ORD-1" (Some "QRIS") None (Some "QR-DATA")
             None "Pending" (Some 900).

Definition sampleWithdrawal : Withdrawal.t :=
  Withdrawal.mk 1 2 1 (rp 60000) (rp 6000) (rp 54000) "WD-1" Status.Success
                0.

Definition sampleAccount : BankAccount.t :=
  BankAccount.mk 1 2 1 "Budi" "555000111".

Definition sampleSettings : PaymentSettings.t :=
  PaymentSettings.mk 1 "Bank BCA" "BCA" "1234567890" "StoneForm Admin"
                     (rp 50000) "1".

Definition sampleDB : DB :=
  mkDB [sampleReferrer; sampleInvestor]
       [Category.mk 1 "Router" locked Active;
        Category.mk 2 "Mifi" unlocked Active]
       [sampleRouter; sampleTower]
       [samplePending]
       [samplePayment]
       [Transaction.mk 1 2 (rp 100000) 0 "ORD-1" credit "investment"
                       (Some "Investasi Router 1") Status.Pending;
        Transaction.mk 2 2 (rp 60000) (rp 6000) "WD-1" debit "withdraw"
                       None Status.Success]
       [sampleWithdrawal]
       [sampleAccount]
       [Bank.mk 1 "Bank BRI" "BRI"]
       [sampleSettings]
       [Setting.mk 1 true].

(** The same database once the payment was confirmed at time 0: the
    investment runs and is due at 86400. *)
Definition runningDB : DB :=
  with_payments (fun _ => [Payment.set_Status "Success" samplePayment])
    (with_investments (fun _ => [sampleRunning]) sampleDB).

(** A pending investment of 33333.35, whose 30% is 10000.005. *)
Definition oddPending : Investment.t :=
  Investment.mk 1 2 1 1 3333335 (rp 15000) 2 0 0 None None "ORD-1"
                InvStatus.Pending.

(** The sample database with the pending investment of 33333.35. *)
Definition oddAmountDB : DB :=
  with_investments (fun _ => [oddPending]) sampleDB.

(** The sample database before the withdrawal was approved. *)
Definition awaitingApprovalDB : DB :=
  with_withdrawals
    (fun _ => [Withdrawal.set_Status Status.Pending sampleWithdrawal])
    sampleDB.

Definition paidCallback : KytaCallback := mkCallback "KYTA-77" "ORD-1" "paid".

Definition failedCallback : KytaCallback :=
  mkCallback "KYTA-78" " ORD-1 " "expired".

(** The samples are ASCII text once trimmed; strings.ToUpper does not
    consult the case tables of package unicode for them. *)
Definition sampleUnicodeToUpper (s : string) : string := s.

(** U+00A0, the no-break space, in UTF-8. *)
Definition NBSP : string := String "194" (String "160" "").

(** The paid callback as a gateway may pad it. *)
Definition paddedCallback : KytaCallback :=
  mkCallback (String.append NBSP "KYTA-77") (String.append "ORD-1" NBSP)
             (String.append "paid" NBSP).

(** Nobody is on the exemption list. *)
Definition nobodyExempt (ps : PaymentSettings.t) (uid : Z) : bool := false.

(** An investment of an unlocked category, running and due at 86400:
    product 3 (amount 50000, daily profit 5000, two periods). *)
Definition sampleMifi : Product.t :=
  Product.mk 3 2 "Mifi 1" (rp 50000) (rp 5000) 2 0 1 Active.

Definition unlockedRunning : Investment.t :=
  Investment.mk 1 2 3 2 (rp 50000) (rp 5000) 2 0 0 None (Some 86400) "ORD-9"
                InvStatus.Running.

Definition unlockedDB : DB :=
  mkDB [sampleReferrer; sampleInvestor]
       [Category.mk 1 "Router" locked Active;
        Category.mk 2 "Mifi" unlocked Active;
        Category.mk 3 "Legacy" unlocked Inactive]
       [sampleRouter; sampleTower; sampleMifi]
       [unlockedRunning;
        Investment.mk 2 2 1 1 (rp 100000) (rp 15000) 2 0 0 None None "ORD-10"
                      InvStatus.Pending;
        Investment.mk 3 1 3 2 (rp 50000) (rp 5000) 2 2 (rp 10000) (Some 0)
                      (Some 86400) "ORD-11" InvStatus.Completed;
        Investment.mk 4 2 3 3 (rp 50000) (rp 5000) 2 0 0 None None "ORD-12"
                      InvStatus.Suspended;
        Investment.mk 5 2 1 1 (rp 100000) (rp 15000) 2 1 0 (Some 0)
                      (Some 200000) "ORD-13" InvStatus.Running]
       [] [] [] [] [] [] [].

(** The sample database with the user of the withdrawal removed. *)
Definition orphanWithdrawalDB : DB :=
  with_users (fun _ => [sampleReferrer]) awaitingApprovalDB.

Definition failedPayout : PayoutCallback := mkPayoutCallback "WD-1" "Failed".

(** A LIKE under which nothing matches; the samples search for nothing. *)
Definition nothingMatches (value pattern : string) : bool := false.

(** The sample database before any row was saved to payment_settings. *)
Definition unconfiguredDB : DB :=
  mkDB (users awaitingApprovalDB) (categories awaitingApprovalDB)
       (products awaitingApprovalDB) (investments awaitingApprovalDB)
       (payments awaitingApprovalDB) (transactions awaitingApprovalDB)
       (withdrawals awaitingApprovalDB) (bank_accounts awaitingApprovalDB)
       (banks awaitingApprovalDB) [] (settings awaitingApprovalDB).

(** * Properties *)

(** ** Strings *)

(** TrimSpace takes off the white space of Unicode, from both ends and
    nothing else; what is left of the padded sample is ASCII. *)
Lemma TrimSpace_padded :
  TrimSpace (String.append NBSP (String.append " pa id" (String.append NBSP " ")))
  = "pa id"
  /\ TrimSpace (String "160" "x") = String "160" "x"
  /\ ToUpper (TrimSpace (cb_Status paddedCallback)) = "PAID".
Proof. repeat split. Qed.

(** ** Tables *)

Lemma First_Updates {A : Type} (p q : A -> bool) (f : A -> A) (t : list A) :
  (forall r, p (f r) = p r) ->
  First p (Updates q f t)
  = option_map (fun r => if q r then f r else r) (First p t).
Proof.
  intros Hp. unfold First, Updates.
  induction t as [|r t IH]; simpl; [reflexivity|].
  destruct (q r) eqn:Hq.
  - rewrite Hp. destruct (p r); simpl; [rewrite Hq; reflexivity | exact IH].
  - destruct (p r); simpl; [rewrite Hq; reflexivity | exact IH].
Qed.

Lemma First_some {A : Type} (p : A -> bool) (t : list A) (w : A) :
  First p t = Some w -> In w t /\ p w = true.
Proof. unfold First. apply find_some. Qed.

Lemma First_Save {A : Type} (id : A -> Z) (p : A -> bool) (row w : A)
  (t : list A) :
  First p t = Some w -> id row = id w -> p row = true ->
  First p (Save id row t) = Some row.
Proof.
  intros Hw Hid Hrow.
  assert (Hex : existsb (fun r => id r =? id row) t = true).
  { apply existsb_exists. exists w. split.
    - apply (First_some p t w Hw).
    - rewrite Hid. apply Z.eqb_refl. }
  unfold Save. rewrite Hex. clear Hex.
  unfold First, Updates in *.
  induction t as [|r t IH]; simpl in *; [discriminate|].
  destruct (id r =? id row) eqn:E.
  - simpl. rewrite Hrow. reflexivity.
  - destruct (p r) eqn:Ep.
    + inversion Hw; subst r. rewrite Hid, Z.eqb_refl in E. discriminate.
    + apply IH. exact Hw.
Qed.

Lemma In_Updates {A : Type} (q : A -> bool) (f : A -> A) (t : list A) (x : A) :
  In x (Updates q f t) -> exists r, In r t /\ x = if q r then f r else r.
Proof.
  unfold Updates. intros H. apply in_map_iff in H.
  destruct H as [r [Hx Hr]]. exists r. split; [exact Hr | symmetry; exact Hx].
Qed.

Lemma map_Updates {A B : Type} (key : A -> B) (q : A -> bool) (f : A -> A)
  (t : list A) :
  (forall r, key (f r) = key r) -> map key (Updates q f t) = map key t.
Proof.
  intros Hk. unfold Updates. rewrite map_map. apply map_ext.
  intros r. destruct (q r); [apply Hk | reflexivity].
Qed.

Lemma Updates_none {A : Type} (q : A -> bool) (f : A -> A) (t : list A) :
  (forall r, In r t -> q r = false) -> Updates q f t = t.
Proof.
  intros H. unfold Updates. rewrite <- (map_id t) at 2.
  apply map_ext_in. intros r Hr. rewrite (H r Hr). reflexivity.
Qed.

(** ** The payout webhook *)


(** ** The purchase webhook *)

Ltac tx_unfold :=
  cbv beta iota zeta delta
    [bind exec query ret orReturnErr CreateTransaction freshOrderID
     UpdateBalance].

(** Case analysis on the innermost scrutinee of the goal, until none is
    left. *)
Ltac innermost scrutinee :=
  lazymatch scrutinee with
  | context [match _ with _ => _ end] => fail
  | _ => idtac
  end.

Ltac split_matches :=
  repeat match goal with
         | |- context [match ?scrutinee with _ => _ end] =>
             innermost scrutinee; destruct scrutinee; cbv beta iota
         end.

(** What confirmPayment leaves alone, and what it does to the investment. *)
Lemma confirmPayment_frame (next : Time) (inv : Investment.t) (db : DB) :
  exists db',
    confirmPayment next inv db = Some (tt, db')
    /\ payments db' = payments db
    /\ products db' = products db
    /\ categories db' = categories db
    /\ withdrawals db' = withdrawals db
    /\ investments db'
       = Updates (fun r => Investment.ID r =? Investment.ID inv)
           (fun r => Investment.set_Returns None (Some next)
                       (Investment.set_Status InvStatus.Running r))
           (investments db).
Proof.
  unfold confirmPayment. tx_unfold.
  split_matches; eexists; (split; [reflexivity|]); cbn; repeat split.
Qed.

Lemma cancelPayment_frame (inv : Investment.t) (db : DB) :
  exists db',
    cancelPayment inv db = Some (tt, db')
    /\ payments db' = payments db
    /\ products db' = products db
    /\ categories db' = categories db
    /\ withdrawals db' = withdrawals db
    /\ users db' = users db
    /\ investments db'
       = Updates (fun r => Investment.ID r =? Investment.ID inv)
           (Investment.set_Status InvStatus.Cancelled) (investments db).
Proof.
  unfold cancelPayment. tx_unfold. eexists. split; [reflexivity|].
  cbn. repeat split.
Qed.

(** The handler's paths once the payment row is found. *)
Lemma webhook_paths (now : Time) (payload : KytaCallback) (db : DB)
  (payment : Payment.t) :
  let referenceID := TrimSpace (cb_ReferenceID payload) in
  let paymentID := TrimSpace (cb_ID payload) in
  let success := isPaid (ToUpper (TrimSpace (cb_Status payload))) in
  let dbp := with_payments
               (Updates (fun p => Payment.ID p =? Payment.ID payment)
                        (recordOutcome paymentID success)) db in
  referenceID <> "" ->
  First (fun p => (Payment.OrderID p =? referenceID)%string) (payments db)
  = Some payment ->
  exists resp db',
    KytaWebhookHandler now (Some payload) db = (resp, db')
    /\ payments db' = payments dbp
    /\ match First (fun r => Investment.ID r =? Payment.InvestmentID payment)
                   (investments db) with
       | None =>
           resp = mkResp StatusNotFound false "Investasi tidak ditemukan"
                         NoData
           /\ db' = dbp
       | Some inv =>
           if InvStatus.eqb (Investment.Status inv) InvStatus.Pending then
             if success then
               resp = mkResp StatusOK true "OK" NoData
               /\ confirmPayment (now + 24 * Hour) inv dbp = Some (tt, db')
             else
               resp = mkResp StatusOK true "Failed updated" NoData
               /\ cancelPayment inv dbp = Some (tt, db')
           else
             resp = mkResp StatusOK true "Ignored" NoData /\ db' = dbp
       end.
Proof.
  intros referenceID paymentID success dbp Href Hpay.
  apply String.eqb_neq in Href.
  unfold KytaWebhookHandler.
  fold referenceID paymentID. rewrite Href, Hpay.
  fold success. fold dbp.
  change (investments dbp) with (investments db).
  destruct (First (fun r => Investment.ID r =? Payment.InvestmentID payment)
                  (investments db)) as [inv|].
  2: { eexists; eexists; repeat split. }
  destruct (InvStatus.eqb (Investment.Status inv) InvStatus.Pending); cbn [negb].
  2: { eexists; eexists; repeat split. }
  destruct success.
  - destruct (confirmPayment_frame (now + 24 * Hour) inv dbp)
      as [db' [Hc [Hp _]]].
    unfold db_Transaction. rewrite Hc.
    exists (mkResp StatusOK true "OK" NoData), db'. repeat split. exact Hp.
  - destruct (cancelPayment_frame inv dbp) as [db' [Hc [Hp _]]].
    unfold db_Transaction. rewrite Hc.
    exists (mkResp StatusOK true "Failed updated" NoData), db'.
    repeat split. exact Hp.
Qed.

Lemma InvStatus_eqb_eq (a b : InvStatus.t) :
  InvStatus.eqb a b = true <-> a = b.
Proof. destruct a, b; simpl; split; intros H; congruence. Qed.

(** A callback for an investment that is no longer pending is ignored. *)
Lemma webhook_not_pending (now : Time) (payload : KytaCallback) (db : DB)
  (payment : Payment.t) (inv : Investment.t) :
  TrimSpace (cb_ReferenceID payload) <> "" ->
  First (fun p => (Payment.OrderID p
                   =? TrimSpace (cb_ReferenceID payload))%string)
        (payments db) = Some payment ->
  First (fun r => Investment.ID r =? Payment.InvestmentID payment)
        (investments db) = Some inv ->
  Investment.Status inv <> InvStatus.Pending ->
  exists db',
    KytaWebhookHandler now (Some payload) db
    = (mkResp StatusOK true "Ignored" NoData, db')
    /\ investments db' = investments db
    /\ transactions db' = transactions db
    /\ users db' = users db.
Proof.
  intros Href Hpay Hinv Hst.
  destruct (webhook_paths now payload db payment Href Hpay)
    as [resp [db' [Hrun [_ Hcase]]]].
  rewrite Hinv in Hcase.
  destruct (InvStatus.eqb (Investment.Status inv) InvStatus.Pending) eqn:E.
  - apply InvStatus_eqb_eq in E. contradiction.
  - destruct Hcase as [-> ->]. eexists. split; [exact Hrun|]. repeat split.
Qed.

Lemma recordOutcome_keys (paymentID : string) (success : bool)
  (p : Payment.t) :
  Payment.ID (recordOutcome paymentID success p) = Payment.ID p
  /\ Payment.OrderID (recordOutcome paymentID success p) = Payment.OrderID p
  /\ Payment.InvestmentID (recordOutcome paymentID success p)
     = Payment.InvestmentID p.
Proof.
  unfold recordOutcome. destruct (paymentID =? "")%string; repeat split.
Qed.

(** The payment row the next delivery of the same order id will find. *)
Lemma webhook_payment_after (paymentID referenceID : string) (success : bool)
  (db : DB) (payment : Payment.t) :
  First (fun p => (Payment.OrderID p =? referenceID)%string) (payments db)
  = Some payment ->
  First (fun p => (Payment.OrderID p =? referenceID)%string)
        (Updates (fun p => Payment.ID p =? Payment.ID payment)
                 (recordOutcome paymentID success) (payments db))
  = Some (recordOutcome paymentID success payment).
Proof.
  intros Hpay. rewrite First_Updates.
  - rewrite Hpay. simpl. rewrite Z.eqb_refl. reflexivity.
  - intros r. destruct (recordOutcome_keys paymentID success r) as [_ [E _]].
    rewrite E. reflexivity.
Qed.


(** Projections of rewritten tables and rows. *)
Ltac db_simpl :=
  cbv beta iota;
  cbn [users categories products investments payments transactions
       withdrawals bank_accounts banks payment_settings settings
       with_users with_investments with_payments with_transactions
       with_withdrawals option_map
       User.ID User.Name User.Number User.ReffBy User.Balance User.Level
       User.TotalInvest User.TotalInvestVIP User.SpinTicket
       User.InvestmentStatus User.set_Balance User.set_Level
       User.set_SpinTicket User.set_Invest].

(** Rewrite with the equations case analysis left in the context. *)
Ltac use_cases :=
  repeat match goal with
         | H : ?b = _ |- context [?b] => rewrite H
         end.

(** What the closure does for the referrer of the investor. *)
Lemma confirmPayment_referral (next : Time) (inv : Investment.t) (db : DB)
  (investor : User.t) (rid : Z) (referrer : User.t) :
  First (fun u => User.ID u =? Investment.UserID inv) (users db) = Some investor ->
  User.ReffBy investor = Some rid ->
  First (fun u => User.ID u =? rid) (users db) = Some referrer ->
  exists db',
    confirmPayment next inv db = Some (tt, db')
    /\ exists referrer',
      First (fun u => User.ID u =? rid) (users db') = Some referrer'
      /\ User.Balance referrer'
         = User.Balance referrer
           + round3_float64
             (fmul (float64_of_Money (Investment.Amount inv))
                   (float64_of_decimal 30 100))
      /\ User.SpinTicket referrer'
         = (if rp 100000 <=? Investment.Amount inv
            then Some (match User.SpinTicket referrer with
                       | Some n => n + 1
                       | None => 1
                       end)
            else User.SpinTicket referrer)
      /\ exists trx,
        transactions db'
        = Updates (fun t => (Transaction.OrderID t =? Investment.OrderID inv)%string)
                  (Transaction.set_Status Status.Success) (transactions db)
          ++ [trx]
        /\ Transaction.UserID trx = rid
        /\ Transaction.Amount trx
           = round3_float64
             (fmul (float64_of_Money (Investment.Amount inv))
                   (float64_of_decimal 30 100))
        /\ Transaction.TransactionFlow trx = debit
        /\ Transaction.TransactionType trx = "team"
        /\ Transaction.Status trx = Status.Success.
Proof.
  intros Hinv Href Hrid.
  assert (Hidr : User.ID referrer = rid).
  { apply First_some in Hrid. destruct Hrid as [_ E]. apply Z.eqb_eq in E. exact E. }
  assert (Hidi : (User.ID investor =? Investment.UserID inv) = true).
  { apply First_some in Hinv. apply Hinv. }
  unfold confirmPayment. tx_unfold. db_simpl.
  match goal with
  | |- context [match First ?p (categories db) with _ => _ end] =>
      destruct (First p (categories db)) as [c|];
      [destruct (ProfitType_eqb (Category.Profit c) locked)|]
  end;
  repeat first
    [ progress db_simpl
    | rewrite First_Updates by (intros; reflexivity)
    | rewrite Hinv | rewrite Hrid | rewrite Href | rewrite Hidi
    | rewrite Hidr | rewrite Z.eqb_refl
    | match goal with
      | |- context [if ?b then _ else _] =>
          lazymatch b with
          | context [match _ with _ => _ end] => fail
          | _ => destruct b eqn:?
          end
      | |- context [match User.SpinTicket referrer with _ => _ end] =>
          destruct (User.SpinTicket referrer) eqn:?
      end ];
  (eexists; split; [reflexivity|]);
  repeat first
    [ progress db_simpl
    | rewrite First_Updates by (intros; reflexivity)
    | rewrite Hrid | rewrite Hidr | rewrite Z.eqb_refl
    | progress use_cases ];
  (eexists; split; [reflexivity|]); db_simpl; use_cases;
  (split; [reflexivity|]); (split; [reflexivity|]);
  eexists; repeat split.
Qed.

(** Symbolic execution of a closure: simplify, look rows up through the
    rewritten tables, use the known facts [known], and split on what is
    left undetermined. *)
Ltac tx_cases known :=
  repeat first
    [ progress db_simpl
    | rewrite First_Updates by (intros; reflexivity)
    | known
    | rewrite Z.eqb_refl
    | match goal with
      | |- context [option_map _ (First ?p ?t)] => destruct (First p t) eqn:?
      | |- context [match ?scrutinee with _ => _ end] =>
          innermost scrutinee; destruct scrutinee eqn:?
      end ].

(** What the closure does for the investor. *)
Lemma confirmPayment_investor (next : Time) (inv : Investment.t) (db : DB)
  (investor : User.t) :
  First (fun u => User.ID u =? Investment.UserID inv) (users db)
  = Some investor ->
  exists db',
    confirmPayment next inv db = Some (tt, db')
    /\ exists investor',
      First (fun u => User.ID u =? Investment.UserID inv) (users db')
      = Some investor'
      /\ User.TotalInvest investor'
         = User.TotalInvest investor + Investment.Amount inv
      /\ User.TotalInvestVIP investor'
         = (if inLockedCategory db inv
            then User.TotalInvestVIP investor + Investment.Amount inv
            else User.TotalInvestVIP investor)
      /\ User.Level investor'
         = (if inLockedCategory db inv
            then Some (calculateVIPLevel
                         (User.TotalInvestVIP investor + Investment.Amount inv))
            else User.Level investor).
Proof.
  intros Hinv.
  assert (Hidi : (User.ID investor =? Investment.UserID inv) = true).
  { apply First_some in Hinv. apply Hinv. }
  unfold confirmPayment, inLockedCategory. tx_unfold.
  tx_cases ltac:(first [rewrite Hinv | rewrite Hidi]);
  (eexists; split; [reflexivity|]);
  tx_cases ltac:(first [rewrite Hinv | rewrite Hidi | progress use_cases]);
  (eexists; split; [reflexivity | db_simpl; repeat split]).
Qed.


(** A second delivery after a confirming one. *)
Lemma redelivery_ignored :
  forall (now1 now2 : Time) (first second : KytaCallback) (db : DB)
         (payment : Payment.t) (inv : Investment.t),
    let referenceID := TrimSpace (cb_ReferenceID first) in
    referenceID <> "" ->
    TrimSpace (cb_ReferenceID second) = referenceID ->
    isPaid (ToUpper (TrimSpace (cb_Status first))) = true ->
    First (fun p => (Payment.OrderID p =? referenceID)%string) (payments db)
    = Some payment ->
    First (fun r => Investment.ID r =? Payment.InvestmentID payment)
          (investments db) = Some inv ->
    Investment.Status inv = InvStatus.Pending ->
    exists db1 db2 inv1,
      KytaWebhookHandler now1 (Some first) db
      = (mkResp StatusOK true "OK" NoData, db1)
      /\ First (fun r => Investment.ID r =? Payment.InvestmentID payment)
               (investments db1) = Some inv1
      /\ Investment.Status inv1 = InvStatus.Running
      /\ (forall investor,
            First (fun u => User.ID u =? Investment.UserID inv) (users db)
            = Some investor ->
            exists investor1,
              First (fun u => User.ID u =? Investment.UserID inv) (users db1)
              = Some investor1
              /\ User.TotalInvest investor1
                 = User.TotalInvest investor + Investment.Amount inv)
      /\ KytaWebhookHandler now2 (Some second) db1
         = (mkResp StatusOK true "Ignored" NoData, db2)
      /\ users db2 = users db1
      /\ investments db2 = investments db1
      /\ transactions db2 = transactions db1.
Proof.
  intros now1 now2 first second db payment inv referenceID
         Href Hsame Hpaid Hpay Hinv Hpending.
  destruct (webhook_paths now1 first db payment Href Hpay)
    as [resp [db1 [Hrun1 [Hp1 Hcase1]]]].
  rewrite Hinv, Hpending, Hpaid in Hcase1. cbn [InvStatus.eqb] in Hcase1.
  rewrite Hpaid in Hp1.
  destruct Hcase1 as [-> Hconfirm].
  set (dbp := with_payments
                (Updates (fun p => Payment.ID p =? Payment.ID payment)
                   (recordOutcome (TrimSpace (cb_ID first)) true)) db) in *.
  destruct (confirmPayment_frame (now1 + 24 * Hour) inv dbp)
    as [db1' [Hc [_ [_ [_ [_ Hinvs]]]]]].
  rewrite Hconfirm in Hc. inversion Hc; subst db1'. clear Hc.
  assert (Hinv1 :
    First (fun r => Investment.ID r =? Payment.InvestmentID payment)
          (investments db1)
    = Some (Investment.set_Returns None (Some (now1 + 24 * Hour))
              (Investment.set_Status InvStatus.Running inv))).
  { rewrite Hinvs. rewrite First_Updates by (intros; reflexivity).
    change (investments dbp) with (investments db).
    rewrite Hinv. cbn [option_map]. rewrite Z.eqb_refl. reflexivity. }
  set (payment1 := recordOutcome (TrimSpace (cb_ID first)) true payment).
  assert (Hpay1 :
    First (fun p => (Payment.OrderID p =? TrimSpace (cb_ReferenceID second))%string)
          (payments db1) = Some payment1).
  { rewrite Hsame, Hp1. apply webhook_payment_after. exact Hpay. }
  assert (Href2 : TrimSpace (cb_ReferenceID second) <> "").
  { rewrite Hsame. exact Href. }
  destruct (webhook_paths now2 second db1 payment1 Href2 Hpay1)
    as [resp2 [db2 [Hrun2 [_ Hcase2]]]].
  assert (Hkey : Payment.InvestmentID payment1 = Payment.InvestmentID payment).
  { apply recordOutcome_keys. }
  rewrite Hkey, Hinv1 in Hcase2. cbn in Hcase2.
  destruct Hcase2 as [-> ->].
  eexists db1, _, _. split; [exact Hrun1|]. split; [exact Hinv1|].
  split; [reflexivity|]. split.
  { intros investor Hinvestor.
    destruct (confirmPayment_investor (now1 + 24 * Hour) inv dbp investor
                Hinvestor) as [db1' [Hc [investor1 [Hf [Ht _]]]]].
    rewrite Hconfirm in Hc. inversion Hc; subst db1'.
    exists investor1. split; assumption. }
  split; [exact Hrun2|]. repeat split.
Qed.

(** C2.  (1) A callback whose investment is not pending is answered 200
    "Ignored" and leaves the users, the investments and the ledger as they
    were.  (2) A pending investment whose payment callback reports success:
    the first delivery confirms it (the investment runs, the investor's
    totals grow by the amount, once); any later delivery for the same order
    id, whatever its status, is answered 200 "Ignored" and leaves the
    users, the investments and the ledger exactly as the first delivery
    left them. *)
Theorem webhook_redelivery_applies_once :
  (forall (now : Time) (payload : KytaCallback) (db : DB)
          (payment : Payment.t) (inv : Investment.t),
      TrimSpace (cb_ReferenceID payload) <> "" ->
      First (fun p => (Payment.OrderID p
                       =? TrimSpace (cb_ReferenceID payload))%string)
            (payments db) = Some payment ->
      First (fun r => Investment.ID r =? Payment.InvestmentID payment)
            (investments db) = Some inv ->
      Investment.Status inv <> InvStatus.Pending ->
      exists db',
        KytaWebhookHandler now (Some payload) db
        = (mkResp StatusOK true "Ignored" NoData, db')
        /\ investments db' = investments db
        /\ transactions db' = transactions db
        /\ users db' = users db)
  /\ (forall (now1 now2 : Time) (first second : KytaCallback) (db : DB)
             (payment : Payment.t) (inv : Investment.t),
        TrimSpace (cb_ReferenceID first) <> "" ->
        TrimSpace (cb_ReferenceID second) = TrimSpace (cb_ReferenceID first) ->
        isPaid (ToUpper (TrimSpace (cb_Status first))) = true ->
        First (fun p => (Payment.OrderID p
                         =? TrimSpace (cb_ReferenceID first))%string)
              (payments db) = Some payment ->
        First (fun r => Investment.ID r =? Payment.InvestmentID payment)
              (investments db) = Some inv ->
        Investment.Status inv = InvStatus.Pending ->
        exists db1 db2 inv1,
          KytaWebhookHandler now1 (Some first) db
          = (mkResp StatusOK true "OK" NoData, db1)
          /\ First (fun r => Investment.ID r =? Payment.InvestmentID payment)
                   (investments db1) = Some inv1
          /\ Investment.Status inv1 = InvStatus.Running
          /\ (forall investor,
                First (fun u => User.ID u =? Investment.UserID inv) (users db)
                = Some investor ->
                exists investor1,
                  First (fun u => User.ID u =? Investment.UserID inv)
                        (users db1) = Some investor1
                  /\ User.TotalInvest investor1
                     = User.TotalInvest investor + Investment.Amount inv)
          /\ KytaWebhookHandler now2 (Some second) db1
             = (mkResp StatusOK true "Ignored" NoData, db2)
          /\ users db2 = users db1
          /\ investments db2 = investments db1
          /\ transactions db2 = transactions db1).
Proof.
  split.
  - exact webhook_not_pending.
  - exact redelivery_ignored.
Qed.

(** ** The settlement closure *)

Lemma settle_None (nowTime : Time) (inv : Investment.t) (db : DB) :
  settles db inv = false -> settle nowTime inv db = None.
Proof.
  unfold settles, settle. tx_unfold.
  destruct (First (fun u => User.ID u =? Investment.UserID inv) (users db));
    [|reflexivity].
  destruct (First (fun c => Category.ID c =? Investment.CategoryID inv)
                  (categories db)); [|reflexivity].
  destruct (First (fun p => Product.ID p =? Investment.ProductID inv)
                  (products db)); [discriminate|reflexivity].
Qed.

Lemma Updates_Updates {A : Type} (q : A -> bool) (f g : A -> A)
  (t : list A) :
  (forall r, q (f r) = q r) ->
  Updates q g (Updates q f t) = Updates q (fun r => g (f r)) t.
Proof.
  intros Hq. unfold Updates. rewrite map_map. apply map_ext.
  intros r. destruct (q r) eqn:E.
  - rewrite Hq, E. reflexivity.
  - rewrite E. reflexivity.
Qed.

Lemma Updates_id {A : Type} (q : A -> bool) (t : list A) :
  Updates q (fun r => r) t = t.
Proof.
  unfold Updates. rewrite <- (map_id t) at 2. apply map_ext.
  intros r. destruct (q r); reflexivity.
Qed.

(** The rows a settlement leaves alone, and the shape of what it writes. *)
Lemma settle_Some (nowTime : Time) (inv : Investment.t) (db : DB) :
  settles db inv = true ->
  exists db',
    settle nowTime inv db = Some (tt, db')
    /\ categories db' = categories db
    /\ products db' = products db
    /\ payments db' = payments db
    /\ withdrawals db' = withdrawals db
    /\ investments db'
       = Updates (fun r => Investment.ID r =? Investment.ID inv)
           (settlementUpdates
              (Investment.TotalPaid inv + 1)
              (round3 (Investment.TotalReturned inv
                       + Investment.DailyProfit inv))
              nowTime (nowTime + 24 * Hour)
              (Investment.Duration inv <=? Investment.TotalPaid inv + 1))
           (investments db)
    /\ (exists (q : User.t -> bool) (f : User.t -> User.t),
          (forall r, User.ID (f r) = User.ID r)
          /\ users db' = Updates q f (users db))
    /\ (exists added,
          transactions db' = transactions db ++ added
          /\ Forall (fun t => Transaction.TransactionType t = "return")
                    added).
Proof.
  unfold settles, settle. tx_unfold.
  destruct (First (fun u => User.ID u =? Investment.UserID inv) (users db))
    as [user|]; [|discriminate].
  destruct (First (fun c => Category.ID c =? Investment.CategoryID inv)
                  (categories db)) as [category|]; [|discriminate].
  destruct (First (fun p => Product.ID p =? Investment.ProductID inv)
                  (products db)) as [product|]; [|discriminate].
  intros _.
  destruct (Category.Profit category);
    destruct (Investment.Duration inv <=? Investment.TotalPaid inv + 1);
    cbn [ProfitType_eqb andb]; cbv beta iota;
    (eexists; split; [reflexivity|]); db_simpl;
    (split; [reflexivity|]); (split; [reflexivity|]);
    (split; [reflexivity|]); (split; [reflexivity|]);
    (split; [reflexivity|]);
    (split;
     [ first
         [ exists (fun _ => false), (fun r => r); split;
           [reflexivity | symmetry; apply Updates_id]
         | rewrite Updates_Updates by reflexivity; eexists _, _; split;
           [|reflexivity]; intros; reflexivity
         | eexists _, _; split; [|reflexivity]; intros; reflexivity ]
     | first
         [ exists []; split; [symmetry; apply app_nil_r | constructor]
         | rewrite <- ?app_assoc; eexists; split;
           [reflexivity | repeat constructor] ] ]).
Qed.

Lemma settles_stable (db db' : DB) (q : User.t -> bool) (f : User.t -> User.t)
  (s : Investment.t) :
  (forall r, User.ID (f r) = User.ID r) ->
  users db' = Updates q f (users db) ->
  categories db' = categories db ->
  products db' = products db ->
  settles db' s = settles db s.
Proof.
  intros Hf Hu Hc Hp. unfold settles. rewrite Hu, Hc, Hp.
  rewrite First_Updates by (intros r; rewrite Hf; reflexivity).
  destruct (First (fun u => User.ID u =? Investment.UserID s) (users db));
    reflexivity.
Qed.

(** A pass over investments none of which can be settled does nothing. *)
Lemma settle_all_idle (clock : nat -> Time) (due : list Investment.t) :
  forall (i : nat) (n : Z) (db : DB),
    (forall s, In s due -> settles db s = false) ->
    settle_all clock i due n db = (n, db).
Proof.
  induction due as [|inv rest IH]; intros i n db Hall; [reflexivity|].
  cbn [settle_all]. unfold db_Transaction.
  rewrite (settle_None (clock i) inv db) by (apply Hall; left; reflexivity).
  apply IH. intros s Hs. apply Hall. right. exact Hs.
Qed.

Lemma settlementUpdates_next (paid : Z) (returned : Money)
  (nowTime nextTime : Time) (completes : bool) (r : Investment.t) :
  Investment.NextReturnAt
    (settlementUpdates paid returned nowTime nextTime completes r)
  = Some nextTime.
Proof. unfold settlementUpdates. destruct completes; reflexivity. Qed.

(** What a pass leaves in the investments table: each row is either as it
    was, and then no due investment of its primary key could be settled, or
    its next return lies after [now]. *)
Lemma settle_all_rows (clock : nat -> Time) (now : Time) :
  (forall i, now <= clock i) ->
  forall (due : list Investment.t) (i : nat) (n : Z) (db : DB),
  exists n' db' G,
    settle_all clock i due n db = (n', db')
    /\ (forall s, settles db' s = settles db s)
    /\ investments db' = map G (investments db)
    /\ (forall r,
          (G r = r
           /\ forall s, In s due -> Investment.ID s = Investment.ID r ->
                        settles db s = false)
          \/ (exists t, Investment.NextReturnAt (G r) = Some t /\ now < t)).
Proof.
  intros Hclock. induction due as [|inv rest IH]; intros i n db.
  - exists n, db, (fun r => r). cbn [settle_all].
    split; [reflexivity|]. split; [reflexivity|].
    split; [symmetry; apply map_id|].
    intros r. left. split; [reflexivity|]. intros s [].
  - cbn [settle_all]. unfold db_Transaction.
    destruct (settles db inv) eqn:Hs.
    + destruct (settle_Some (clock i) inv db Hs)
        as [db1 [Hrun [Hc [Hp [_ [_ [Hi [[q [f [Hf Hu]]] _]]]]]]]].
      rewrite Hrun.
      destruct (IH (S i) (n + 1) db1) as [n' [db' [G [Hall [Hst [Hm HG]]]]]].
      set (F := settlementUpdates (Investment.TotalPaid inv + 1)
                  (round3 (Investment.TotalReturned inv
                           + Investment.DailyProfit inv))
                  (clock i) (clock i + 24 * Hour)
                  (Investment.Duration inv <=? Investment.TotalPaid inv + 1))
        in *.
      exists n', db',
        (fun r => G (if Investment.ID r =? Investment.ID inv then F r else r)).
      split; [exact Hall|]. split.
      { intros s. rewrite Hst.
        apply (settles_stable db db1 q f s Hf Hu Hc Hp). }
      split.
      { rewrite Hm, Hi. unfold Updates. rewrite map_map. reflexivity. }
      intros r. destruct (Investment.ID r =? Investment.ID inv) eqn:E.
      * right. destruct (HG (F r)) as [[HGr _] | Hlater]; [|exact Hlater].
        rewrite HGr. exists (clock i + 24 * Hour). split.
        -- apply settlementUpdates_next.
        -- specialize (Hclock i). unfold Hour. lia.
      * destruct (HG r) as [[HGr Hrest] | Hlater]; [|right; exact Hlater].
        left. split; [exact HGr|]. intros s [Hs'|Hs'] Hid.
        -- subst s. rewrite Hid, Z.eqb_refl in E. discriminate.
        -- rewrite <- (settles_stable db db1 q f s Hf Hu Hc Hp).
           apply Hrest; assumption.
    + rewrite (settle_None (clock i) inv db Hs).
      destruct (IH (S i) n db) as [n' [db' [G [Hall [Hst [Hm HG]]]]]].
      exists n', db', G. split; [exact Hall|]. split; [exact Hst|].
      split; [exact Hm|].
      intros r. destruct (HG r) as [[HGr Hrest] | Hlater]; [|right; exact Hlater].
      left. split; [exact HGr|]. intros s [Hs'|Hs'] Hid.
      * subst s. exact Hs.
      * apply Hrest; assumption.
Qed.

(** C1.  Two runs of the scheduler with no time elapsed between them (the
    same reading [now] for both scans; the readings inside the first run's
    closures are not earlier than [now]): the second run leaves the whole
    database as the first run left it, so no totalPaid, totalReturned or
    balance changes a second time, and it reports that it processed
    nothing. *)
Theorem settlement_rerun_changes_nothing :
  forall (env : Env) (key : string) (now : Time) (clock1 clock2 : nat -> Time)
         (db : DB),
    (forall i, now <= clock1 i) ->
    let '(resp1, db1) := CronDailyReturnsHandler env key now clock1 db in
    let '(resp2, db2) := CronDailyReturnsHandler env key now clock2 db1 in
    db2 = db1
    /\ investments db2 = investments db1
    /\ users db2 = users db1
    /\ (Code resp1 = StatusOK -> Data resp2 = Processed 0).
Proof.
  intros env key now clock1 clock2 db Hclock.
  unfold CronDailyReturnsHandler.
  destruct ((key =? "")%string || negb (key =? CRON_KEY env)%string) eqn:Hkey.
  { repeat split. cbn. discriminate. }
  destruct (settle_all_rows clock1 now Hclock
              (filter (is_due now) (investments db)) 0%nat 0 db)
    as [n1 [db1 [G [Hrun [Hst [Hm HG]]]]]].
  rewrite Hrun.
  rewrite (settle_all_idle clock2 (filter (is_due now) (investments db1))
             0%nat 0 db1).
  { repeat split. }
  intros s Hs. apply filter_In in Hs. destruct Hs as [Hin Hdue].
  rewrite Hm in Hin. apply in_map_iff in Hin. destruct Hin as [r [Hr Hin]].
  rewrite Hst.
  destruct (HG r) as [[HGr Hnone] | [t [Ht Hlater]]].
  - rewrite HGr in Hr. subst s. apply Hnone; [|reflexivity].
    apply filter_In. split; assumption.
  - subst s. unfold is_due in Hdue. rewrite Ht in Hdue.
    apply andb_prop in Hdue. destruct Hdue as [Hdue _].
    apply andb_prop in Hdue. destruct Hdue as [_ Hdue].
    apply Z.leb_le in Hdue. lia.
Qed.

(** ** Locked categories *)

Lemma round3_nonneg (x : Z) : 0 <= x -> round3 x = x.
Proof.
  intros Hx. unfold round3. rewrite Z.quot_div_nonneg by lia.
  symmetry. apply (Z.div_unique (2 * x + 1) 2 x 1); lia.
Qed.

Lemma NextID_after (ids : list Z) (n : Z) : n < NextID (ids ++ [n]).
Proof.
  unfold NextID. induction ids as [|x ids IH]; cbn [app fold_right]; lia.
Qed.

(** One settlement of an investment whose category is locked. *)
Lemma settle_locked (nowTime : Time) (inv : Investment.t) (db : DB)
  (category : Category.t) :
  settles db inv = true ->
  First (fun c => Category.ID c =? Investment.CategoryID inv) (categories db)
  = Some category ->
  Category.Profit category = locked ->
  exists db',
    settle nowTime inv db = Some (tt, db')
    /\ if Investment.Duration inv <=? Investment.TotalPaid inv + 1 then
         exists profit principal,
           transactions db' = transactions db ++ [profit; principal]
           /\ Transaction.Amount profit
              = round3 (Investment.DailyProfit inv * Investment.Duration inv)
           /\ Transaction.Amount principal = Investment.Amount inv
           /\ Transaction.ID profit < Transaction.ID principal
           /\ Forall (fun t => Transaction.UserID t = Investment.UserID inv
                               /\ Transaction.TransactionFlow t = debit
                               /\ Transaction.TransactionType t = "return"
                               /\ Transaction.Status t = Status.Success)
                     [profit; principal]
           /\ exists user,
                First (fun u => User.ID u =? Investment.UserID inv) (users db)
                = Some user
                /\ users db'
                   = Updates (fun u => User.ID u =? Investment.UserID inv)
                       (User.set_Balance
                          (round3 (round3 (User.Balance user
                                           + Transaction.Amount profit)
                                   + Investment.Amount inv)))
                       (users db)
       else transactions db' = transactions db /\ users db' = users db.
Proof.
  unfold settles, settle. tx_unfold.
  destruct (First (fun u => User.ID u =? Investment.UserID inv) (users db))
    as [user|] eqn:Hu; [|discriminate].
  destruct (First_some _ _ _ Hu) as [_ Hid]. apply Z.eqb_eq in Hid.
  intros Hs Hc Hl. rewrite Hc in *. rewrite Hl.
  destruct (First (fun p => Product.ID p =? Investment.ProductID inv)
                  (products db)) as [product|]; [|discriminate].
  destruct (Investment.Duration inv <=? Investment.TotalPaid inv + 1);
    cbn [ProfitType_eqb andb]; cbv beta iota;
    (eexists; split; [reflexivity|]); db_simpl.
  - rewrite <- app_assoc. cbn [app].
    eexists _, _. split; [reflexivity|].
    split; [reflexivity|]. split; [reflexivity|]. split.
    { cbn [Transaction.ID Transaction.set_ID]. rewrite map_app.
      cbn [map Transaction.ID Transaction.set_ID]. apply NextID_after. }
    split; [repeat constructor|].
    exists user. split; [reflexivity|].
    rewrite Hid, Updates_Updates by reflexivity. reflexivity.
  - split; reflexivity.
Qed.


Lemma settlementUpdates_ID (paid : Z) (returned : Money)
  (nowTime nextTime : Time) (completes : bool) (r : Investment.t) :
  Investment.ID (settlementUpdates paid returned nowTime nextTime completes r)
  = Investment.ID r.
Proof. unfold settlementUpdates. destruct completes; reflexivity. Qed.

Lemma settle_succeeds_settles (nowTime : Time) (inv : Investment.t)
  (db db' : DB) (u : unit) :
  settle nowTime inv db = Some (u, db') -> settles db inv = true.
Proof.
  intros H. destruct (settles db inv) eqn:E; [reflexivity|].
  rewrite (settle_None nowTime inv db E) in H. discriminate.
Qed.

(** C3.  An investment of a locked category with periods left, settled at
    the successive [times]: there are at most as many settlements as
    periods left; while periods remain no ledger row is written and no
    balance changes; the settlement that reaches the duration writes
    exactly two ledger rows, one of the whole profit
    dailyProfit x duration and a separate one of the principal, completes
    the investment and credits the investor: the investor's balance, and no
    other column of the users, changes, to the balance plus the profit plus
    the principal. *)
Theorem locked_profit_paid_once_at_completion :
  forall (times : list Time) (id : Z) (db db' : DB) (inv : Investment.t)
         (category : Category.t),
    First (fun r => Investment.ID r =? id) (investments db) = Some inv ->
    First (fun c => Category.ID c =? Investment.CategoryID inv)
          (categories db) = Some category ->
    Category.Profit category = locked ->
    Investment.TotalPaid inv < Investment.Duration inv ->
    settle_passes times id db = Some db' ->
    let left := Investment.Duration inv - Investment.TotalPaid inv in
    let passes := Z.of_nat (List.length times) in
    passes <= left
    /\ (passes < left ->
        transactions db' = transactions db /\ users db' = users db)
    /\ (passes = left ->
        exists profit principal inv',
          transactions db' = transactions db ++ [profit; principal]
          /\ Transaction.Amount profit
             = round3 (Investment.DailyProfit inv * Investment.Duration inv)
          /\ (0 <= Investment.DailyProfit inv * Investment.Duration inv ->
              Transaction.Amount profit
              = Investment.DailyProfit inv * Investment.Duration inv)
          /\ Transaction.Amount principal = Investment.Amount inv
          /\ Transaction.ID profit < Transaction.ID principal
          /\ Forall (fun t => Transaction.UserID t = Investment.UserID inv
                              /\ Transaction.TransactionFlow t = debit
                              /\ Transaction.TransactionType t = "return"
                              /\ Transaction.Status t = Status.Success)
                    [profit; principal]
          /\ First (fun r => Investment.ID r =? id) (investments db')
             = Some inv'
          /\ Investment.Status inv' = InvStatus.Completed
          /\ Investment.TotalPaid inv' = Investment.Duration inv
          /\ exists user,
               First (fun u => User.ID u =? Investment.UserID inv) (users db)
               = Some user
               /\ users db'
                  = Updates (fun u => User.ID u =? Investment.UserID inv)
                      (User.set_Balance
                         (round3 (round3 (User.Balance user
                                          + Transaction.Amount profit)
                                  + Investment.Amount inv)))
                      (users db)
               /\ (0 <= User.Balance user ->
                   0 <= Investment.DailyProfit inv * Investment.Duration inv ->
                   0 <= Investment.Amount inv ->
                   users db'
                   = Updates (fun u => User.ID u =? Investment.UserID inv)
                       (User.set_Balance
                          (User.Balance user
                           + Investment.DailyProfit inv
                             * Investment.Duration inv
                           + Investment.Amount inv))
                       (users db))).
Proof.
  induction times as [|now later IH];
    intros id db db' inv category Hrow Hcat Hlocked Hleft Hrun left passes.
  - cbn in Hrun. inversion Hrun; subst db'. subst left passes. cbn.
    split; [lia|]. split; [split; reflexivity|]. intros; lia.
  - cbn [settle_passes] in Hrun. rewrite Hrow in Hrun.
    destruct (is_due now inv) eqn:Hdue; [|discriminate].
    destruct (settle now inv db) as [[u db1]|] eqn:Hsettle; [|discriminate].
    pose proof (settle_succeeds_settles now inv db db1 u Hsettle) as Hs.
    destruct (settle_locked now inv db category Hs Hcat Hlocked)
      as [dbl [Hrunl Hledger]].
    destruct (settle_Some now inv db Hs)
      as [dbs [Hruns [Hc [_ [_ [_ [Hi _]]]]]]].
    rewrite Hsettle in Hrunl, Hruns.
    inversion Hrunl; subst dbl. inversion Hruns; subst dbs.
    clear Hrunl Hruns.
    assert (Hidinv : Investment.ID inv = id).
    { apply First_some in Hrow. destruct Hrow as [_ E].
      apply Z.eqb_eq in E. exact E. }
    assert (Hrow1 :
      First (fun r => Investment.ID r =? id) (investments db1)
      = Some (settlementUpdates (Investment.TotalPaid inv + 1)
                (round3 (Investment.TotalReturned inv
                         + Investment.DailyProfit inv))
                now (now + 24 * Hour)
                (Investment.Duration inv <=? Investment.TotalPaid inv + 1)
                inv)).
    { rewrite Hi, First_Updates
        by (intros r; rewrite settlementUpdates_ID; reflexivity).
      rewrite Hrow. cbn [option_map]. rewrite Z.eqb_refl. reflexivity. }
    subst left passes. cbn [List.length]. rewrite Nat2Z.inj_succ.
    destruct (Investment.Duration inv <=? Investment.TotalPaid inv + 1)
      eqn:Hcomp.
    + apply Z.leb_le in Hcomp.
      destruct later as [|now' later].
      2: { cbn [settle_passes] in Hrun. rewrite Hrow1 in Hrun.
           cbn in Hrun. discriminate. }
      cbn in Hrun. inversion Hrun; subst db'. cbn [List.length Z.of_nat].
      split; [lia|]. split; [intros; lia|]. intros _.
      destruct Hledger
        as [profit [principal [Ht [Hp [Hq [Hlt [Hall [user [Hu Hus]]]]]]]]].
      exists profit, principal. eexists.
      split; [exact Ht|]. split; [exact Hp|]. split.
      { intros Hpos. rewrite Hp. apply round3_nonneg. exact Hpos. }
      split; [exact Hq|]. split; [exact Hlt|]. split; [exact Hall|].
      split; [exact Hrow1|]. cbn [Investment.Status Investment.TotalPaid
                                  settlementUpdates Investment.set_Status
                                  Investment.set_Returns Investment.set_Totals].
      split; [reflexivity|]. split; [lia|].
      exists user. split; [exact Hu|]. split; [exact Hus|].
      intros Hb Hpos Ha. rewrite Hus, Hp.
      rewrite (round3_nonneg _ Hpos).
      rewrite (round3_nonneg
                 (User.Balance user
                  + Investment.DailyProfit inv * Investment.Duration inv))
        by lia.
      rewrite round3_nonneg by lia. reflexivity.
    + apply Z.leb_gt in Hcomp. destruct Hledger as [Ht Hu].
      assert (Hcat1 :
        First (fun c => Category.ID c
                        =? Investment.CategoryID
                             (settlementUpdates (Investment.TotalPaid inv + 1)
                                (round3 (Investment.TotalReturned inv
                                         + Investment.DailyProfit inv))
                                now (now + 24 * Hour) false inv))
              (categories db1) = Some category).
      { rewrite Hc. exact Hcat. }
      specialize (IH id db1 db' _ category Hrow1 Hcat1 Hlocked).
      cbn in IH. specialize (IH ltac:(lia) Hrun).
      destruct IH as [Hle [Hlt Heq]].
      split; [lia|]. split.
      * intros Hless. rewrite <- Ht, <- Hu. apply Hlt. lia.
      * intros Hsame. rewrite <- Ht, <- Hu. apply Heq. lia.
Qed.


(** ** The counters of an investment *)

Lemma NoDup_map_unique {A B : Type} (f : A -> B) (l : list A) (a b : A) :
  NoDup (map f l) -> In a l -> In b l -> f a = f b -> a = b.
Proof.
  induction l as [|x l IH]; intros Hnd Ha Hb Hf; [contradiction|].
  cbn [map] in Hnd. inversion Hnd as [|y ys Hnotin Hnd']; subst.
  destruct Ha as [Ha|Ha], Hb as [Hb|Hb].
  - congruence.
  - subst x. exfalso. apply Hnotin. rewrite Hf. apply in_map. exact Hb.
  - subst x. exfalso. apply Hnotin. rewrite <- Hf. apply in_map. exact Ha.
  - apply IH; assumption.
Qed.

Lemma NoDup_map_filter {Row Key : Type} (key : Row -> Key)
  (keep : Row -> bool) (rows : list Row) :
  NoDup (map key rows) -> NoDup (map key (filter keep rows)).
Proof.
  induction rows as [|r rows IH]; intros Hnd; [constructor|].
  cbn [map] in Hnd. inversion Hnd as [|y ys Hnotin Hnd']; subst.
  cbn [filter]. destruct (keep r); [|apply IH; exact Hnd'].
  cbn [map]. constructor; [|apply IH; exact Hnd'].
  intros Hin. apply Hnotin. apply in_map_iff in Hin.
  destruct Hin as [z [Hz Hin]]. apply filter_In in Hin.
  rewrite <- Hz. apply in_map. apply Hin.
Qed.

Lemma NextID_fresh (ids : list Z) (x : Z) : In x ids -> x < NextID ids.
Proof.
  unfold NextID. induction ids as [|y ids IH]; intros Hin; [contradiction|].
  cbn [fold_right]. destruct Hin as [->|Hin]; [lia|].
  specialize (IH Hin). lia.
Qed.

Lemma Forall_Updates {A : Type} (P : A -> Prop) (q : A -> bool)
  (f : A -> A) (t : list A) :
  Forall P t -> (forall r, In r t -> q r = true -> P (f r)) ->
  Forall P (Updates q f t).
Proof.
  intros Hall Hf. apply Forall_forall. intros x Hx.
  apply In_Updates in Hx. destruct Hx as [r [Hr ->]].
  destruct (q r) eqn:E; [apply Hf; assumption|].
  rewrite Forall_forall in Hall. apply Hall. exact Hr.
Qed.

Lemma is_due_facts (now : Time) (r : Investment.t) :
  is_due now r = true ->
  Investment.Status r = InvStatus.Running
  /\ Investment.TotalPaid r < Investment.Duration r.
Proof.
  unfold is_due. intros H.
  apply andb_prop in H. destruct H as [H Hlt].
  apply andb_prop in H. destruct H as [Hst _].
  apply InvStatus_eqb_eq in Hst. apply Z.ltb_lt in Hlt. split; assumption.
Qed.

Lemma settlement_keeps_counters (now nowTime : Time) (inv : Investment.t) :
  is_due now inv = true -> paid_within_duration inv ->
  paid_within_duration
    (settlementUpdates (Investment.TotalPaid inv + 1)
       (round3 (Investment.TotalReturned inv + Investment.DailyProfit inv))
       nowTime (nowTime + 24 * Hour)
       (Investment.Duration inv <=? Investment.TotalPaid inv + 1) inv).
Proof.
  intros Hdue [[Hlo _] _]. apply is_due_facts in Hdue.
  destruct Hdue as [Hrun Hlt]. unfold settlementUpdates, paid_within_duration.
  destruct (Investment.Duration inv <=? Investment.TotalPaid inv + 1) eqn:E;
    cbn.
  - apply Z.leb_le in E. split; [lia|]. intros _. lia.
  - apply Z.leb_gt in E. split; [lia|]. rewrite Hrun. discriminate.
Qed.

(** A scheduler pass over a snapshot of due rows keeps the counters within
    the durations. *)
Lemma settle_all_keeps_counters (clock : nat -> Time) (now : Time) :
  forall (due : list Investment.t) (i : nat) (n : Z) (db : DB),
    Forall paid_within_duration (investments db) ->
    NoDup (map Investment.ID due) ->
    (forall s, In s due -> is_due now s = true /\ paid_within_duration s) ->
    (forall s r, In s due -> In r (investments db) ->
                 Investment.ID r = Investment.ID s -> r = s) ->
    Forall paid_within_duration
           (investments (snd (settle_all clock i due n db)))
    /\ map Investment.ID (investments (snd (settle_all clock i due n db)))
       = map Investment.ID (investments db)
    /\ products (snd (settle_all clock i due n db)) = products db.
Proof.
  induction due as [|inv rest IH]; intros i n db Hok Hnd Hdue Hsame.
  - cbn. repeat split. exact Hok.
  - cbn [map] in Hnd. inversion Hnd as [|y ys Hnotin Hnd']; subst.
    cbn [settle_all]. unfold db_Transaction.
    destruct (settles db inv) eqn:Hs.
    + destruct (settle_Some (clock i) inv db Hs)
        as [db1 [Hrun [_ [Hp [_ [_ [Hi _]]]]]]].
      rewrite Hrun.
      assert (Hok1 : Forall paid_within_duration (investments db1)).
      { rewrite Hi. apply Forall_Updates; [exact Hok|].
        intros r Hr Hq. apply Z.eqb_eq in Hq.
        assert (r = inv) by (apply Hsame; [left; reflexivity|exact Hr|exact Hq]).
        subst r. destruct (Hdue inv (or_introl eq_refl)) as [Hd Hi0].
        apply (settlement_keeps_counters now); assumption. }
      assert (Hids : map Investment.ID (investments db1)
                     = map Investment.ID (investments db)).
      { rewrite Hi. apply map_Updates. intros r.
        apply settlementUpdates_ID. }
      destruct (IH (S i) (n + 1) db1 Hok1 Hnd') as [H1 [H2 H3]].
      * intros s Hs'. apply Hdue. right. exact Hs'.
      * intros s r Hs' Hr Hid. rewrite Hi in Hr. apply In_Updates in Hr.
        destruct Hr as [r0 [Hr0 ->]].
        destruct (Investment.ID r0 =? Investment.ID inv) eqn:E.
        -- exfalso. apply Hnotin. apply Z.eqb_eq in E.
           rewrite settlementUpdates_ID in Hid. rewrite <- E, Hid.
           apply in_map. exact Hs'.
        -- apply Hsame; [right; exact Hs' | exact Hr0 | exact Hid].
      * split; [exact H1|]. split; [rewrite H2; exact Hids|].
        rewrite H3. exact Hp.
    + rewrite (settle_None (clock i) inv db Hs).
      apply IH; [exact Hok | exact Hnd' | |].
      * intros s Hs'. apply Hdue. right. exact Hs'.
      * intros s r Hs' Hr Hid. apply Hsame; [right; exact Hs'|exact Hr|exact Hid].
Qed.

Lemma settlement_well_formed (env : Env) (key : string) (now : Time)
  (clock : nat -> Time) (db : DB) :
  well_formed db ->
  well_formed (snd (CronDailyReturnsHandler env key now clock db)).
Proof.
  intros [Hok [Hnd Hprod]]. unfold CronDailyReturnsHandler.
  destruct ((key =? "")%string || negb (key =? CRON_KEY env)%string).
  { cbn. repeat split; assumption. }
  destruct (settle_all_keeps_counters clock now
              (filter (is_due now) (investments db)) 0%nat 0 db)
    as [H1 [H2 H3]].
  - exact Hok.
  - apply NoDup_map_filter. exact Hnd.
  - intros s Hs. apply filter_In in Hs. destruct Hs as [Hin Hd].
    split; [exact Hd|]. rewrite Forall_forall in Hok. apply Hok. exact Hin.
  - intros s r Hs Hr Hid. apply filter_In in Hs. destruct Hs as [Hin _].
    apply (NoDup_map_unique Investment.ID (investments db)); assumption.
  - destruct (settle_all clock 0 (filter (is_due now) (investments db)) 0 db)
      as [n db'] eqn:E.
    cbn [snd] in *. unfold well_formed.
    rewrite H2, H3. repeat split; assumption.
Qed.


(** Rewriting rows without touching their counters, and not to Completed,
    keeps a table well formed. *)
Lemma status_change_well_formed (db db' : DB) (q : Investment.t -> bool)
  (f : Investment.t -> Investment.t) :
  (forall r, Investment.ID (f r) = Investment.ID r
             /\ Investment.TotalPaid (f r) = Investment.TotalPaid r
             /\ Investment.Duration (f r) = Investment.Duration r
             /\ Investment.Status (f r) <> InvStatus.Completed) ->
  investments db' = Updates q f (investments db) ->
  products db' = products db ->
  well_formed db -> well_formed db'.
Proof.
  intros Hf Hi Hp [Hok [Hnd Hprod]]. unfold well_formed.
  rewrite Hi, Hp. split; [|split].
  - apply Forall_Updates; [exact Hok|]. intros r Hr _.
    rewrite Forall_forall in Hok. destruct (Hok r Hr) as [Hb _].
    destruct (Hf r) as [_ [H1 [H2 H3]]]. unfold paid_within_duration.
    rewrite H1, H2. split; [exact Hb | intros; contradiction].
  - rewrite map_Updates; [exact Hnd|]. intros r. apply Hf.
  - exact Hprod.
Qed.

Lemma same_tables_well_formed (db db' : DB) :
  investments db' = investments db -> products db' = products db ->
  well_formed db -> well_formed db'.
Proof. intros Hi Hp H. unfold well_formed. rewrite Hi, Hp. exact H. Qed.

Lemma payment_webhook_well_formed (now : Time)
  (payload : option KytaCallback) (db : DB) :
  well_formed db -> well_formed (snd (KytaWebhookHandler now payload db)).
Proof.
  intros Hwf. unfold KytaWebhookHandler.
  destruct payload as [payload|]; [|exact Hwf].
  destruct (TrimSpace (cb_ReferenceID payload) =? "")%string; [exact Hwf|].
  destruct (First _ (payments db)) as [payment|]; [|exact Hwf].
  set (dbp := with_payments _ db).
  assert (Hwfp : well_formed dbp) by exact Hwf.
  destruct (First _ (investments dbp)) as [inv|]; [|exact Hwfp].
  destruct (negb _); [exact Hwfp|].
  destruct (isPaid _).
  - destruct (confirmPayment_frame (now + 24 * Hour) inv dbp)
      as [db' [Hc [_ [Hp [_ [_ Hi]]]]]].
    unfold db_Transaction. rewrite Hc. cbn [snd].
    refine (status_change_well_formed dbp db' _ _ _ Hi Hp Hwfp).
    intros r. repeat split. cbn. discriminate.
  - destruct (cancelPayment_frame inv dbp)
      as [db' [Hc [_ [Hp [_ [_ [_ Hi]]]]]]].
    unfold db_Transaction. rewrite Hc. cbn [snd].
    refine (status_change_well_formed dbp db' _ _ _ Hi Hp Hwfp).
    intros r. repeat split. cbn. discriminate.
Qed.

Lemma payout_webhook_frame (payload : option PayoutCallback) (db : DB) :
  investments (snd (KytaPayoutWebhookHandler payload db)) = investments db
  /\ products (snd (KytaPayoutWebhookHandler payload db)) = products db.
Proof.
  unfold KytaPayoutWebhookHandler, db_Transaction, revertToPending.
  tx_unfold. split_matches; split; reflexivity.
Qed.

Lemma reject_frame (id : option Z) (db : DB) :
  investments (snd (RejectWithdrawal id db)) = investments db
  /\ products (snd (RejectWithdrawal id db)) = products db.
Proof.
  unfold RejectWithdrawal, db_Transaction, markRejected.
  tx_unfold. split_matches; split; reflexivity.
Qed.

Lemma approve_frame (env : Env) (gw : Gateway) (id : option Z) (db : DB) :
  investments (snd (fst (ApproveWithdrawal env gw id db))) = investments db
  /\ products (snd (fst (ApproveWithdrawal env gw id db))) = products db.
Proof.
  unfold ApproveWithdrawal, db_Transaction, markApproved.
  tx_unfold. split_matches; split; reflexivity.
Qed.


(** ** Purchase *)

(** Case analysis as [split_matches], keeping the equations and leaving the
    database transaction for the caller. *)
Ltac outside_transaction scrutinee :=
  lazymatch scrutinee with
  | context [@db_Transaction] => fail
  | _ => idtac
  end.

Ltac split_handler :=
  repeat match goal with
         | |- context [match ?scrutinee with _ => _ end] =>
             innermost scrutinee; outside_transaction scrutinee;
             destruct scrutinee eqn:?; cbv beta iota
         end.

Lemma Updates_app {A : Type} (q : A -> bool) (f : A -> A) (a b : list A) :
  Updates q f (a ++ b) = Updates q f a ++ Updates q f b.
Proof. unfold Updates. apply map_app. Qed.

(** The three rows a purchase writes. *)
Lemma persistPurchase_frame (now : Time) (method channel referenceID : string)
  (payResp : KytaPaymentResponse) (product : Product.t) (uid : Z)
  (inv : Investment.t) (db : DB) :
  exists db' payment trx,
    persistPurchase now method channel referenceID payResp product uid inv db
    = Some (Investment.set_ID (NextID (map Investment.ID (investments db)))
                              inv, db')
    /\ investments db'
       = investments db
         ++ [Investment.set_ID (NextID (map Investment.ID (investments db)))
                               inv]
    /\ payments db' = payments db ++ [payment]
    /\ Payment.Status payment = "Pending"
    /\ transactions db' = transactions db ++ [trx]
    /\ Transaction.TransactionFlow trx = credit
    /\ Transaction.Status trx = Status.Pending
    /\ products db' = products db
    /\ users db' = users db.
Proof.
  assert (Hfresh : forall code,
    Updates (fun p => Payment.ID p =? NextID (map Payment.ID (payments db)))
            (Payment.set_PaymentCode (Some code)) (payments db)
    = payments db).
  { intros code. apply Updates_none. intros r Hr. apply Z.eqb_neq.
    pose proof (NextID_fresh (map Payment.ID (payments db)) (Payment.ID r)
                  (in_map Payment.ID _ _ Hr)). lia. }
  unfold persistPurchase. tx_unfold. db_simpl.
  set (pc := if (method =? "QRIS")%string then _ else _).
  destruct pc as [code|]; [destruct (negb (code =? "")%string)|];
    cbv beta iota; db_simpl;
    (eexists _, _, _; split; [reflexivity|]); db_simpl;
    (split; [reflexivity|]);
    (split; [first [reflexivity
                   | rewrite Updates_app, Hfresh; reflexivity]|]);
    repeat split; cbn; rewrite ?Z.eqb_refl; reflexivity.
Qed.

Lemma NoDup_snoc {A : Type} (l : list A) (x : A) :
  NoDup l -> ~ In x l -> NoDup (l ++ [x]).
Proof.
  induction l as [|y l IH]; intros Hnd Hx; cbn [app].
  - constructor; [intros [] | constructor].
  - inversion Hnd as [|z zs Hy Hnd']; subst. constructor.
    + intros Hin. apply in_app_or in Hin. destruct Hin as [Hin|[Hin|[]]].
      * contradiction.
      * subst. apply Hx. left. reflexivity.
    + apply IH; [exact Hnd'|]. intros Hin. apply Hx. right. exact Hin.
Qed.

Lemma purchase_well_formed (env : Env) (gw : Gateway) (now : Time)
  (req : option CreateInvestmentRequest) (auth : Z * bool) (db : DB) :
  well_formed db ->
  well_formed (snd (fst (CreateInvestmentHandler env gw now req auth db))).
Proof.
  intros Hwf. unfold CreateInvestmentHandler.
  split_handler; try exact Hwf.
  all: match goal with
  | |- context [db_Transaction (persistPurchase ?a ?b ?c ?d ?e ?f ?g ?h) _] =>
      destruct (persistPurchase_frame a b c d e f g h db)
        as [db' [payment [trx [Hrun [Hi [_ [_ [_ [_ [_ [Hp _]]]]]]]]]]]
  end.
  all: unfold db_Transaction; rewrite Hrun; cbn [fst snd].
  all: destruct Hwf as [Hok [Hnd Hprod]]; unfold well_formed.
  all: rewrite Hi, Hp; split; [|split; [|exact Hprod]].
  all: try (rewrite map_app; cbn [map Investment.ID Investment.set_ID];
            apply NoDup_snoc; [exact Hnd|]; intros Hin;
            apply NextID_fresh in Hin; lia).
  all: apply Forall_app; split; [exact Hok|]; constructor; [|constructor].
  all: unfold paid_within_duration; cbn.
  all: match goal with
    | H : First _ (products _) = Some ?p |- _ =>
        apply First_some in H; destruct H as [Hin _];
        rewrite Forall_forall in Hprod; specialize (Hprod p Hin)
    end.
  all: split; [lia | discriminate].
Qed.

Lemma step_well_formed (db db' : DB) :
  step db db' -> well_formed db -> well_formed db'.
Proof.
  intros Hstep Hwf. destruct Hstep.
  - apply purchase_well_formed. exact Hwf.
  - apply payment_webhook_well_formed. exact Hwf.
  - apply settlement_well_formed. exact Hwf.
  - destruct (approve_frame env gw id db) as [Hi Hp].
    apply (same_tables_well_formed db _ Hi Hp Hwf).
  - destruct (reject_frame id db) as [Hi Hp].
    apply (same_tables_well_formed db _ Hi Hp Hwf).
  - destruct (payout_webhook_frame payload db) as [Hi Hp].
    apply (same_tables_well_formed db _ Hi Hp Hwf).
Qed.

(** C4.  In every state reached from a well-formed database by serving
    requests (purchases, payment callbacks, scheduler runs, withdrawal
    approvals and rejections, payout callbacks, on any inputs), every
    investment has 0 <= totalPaid <= duration, and a Completed investment
    has totalPaid = duration. *)
Theorem total_paid_within_duration :
  forall (db0 db : DB),
    well_formed db0 -> reachable db0 db ->
    forall inv, In inv (investments db) ->
      0 <= Investment.TotalPaid inv <= Investment.Duration inv
      /\ (Investment.Status inv = InvStatus.Completed ->
          Investment.TotalPaid inv = Investment.Duration inv).
Proof.
  intros db0 db Hwf Hreach.
  assert (Hdb : well_formed db).
  { induction Hreach as [|db db' _ IH Hstep]; [exact Hwf|].
    apply (step_well_formed db db' Hstep IH). }
  destruct Hdb as [Hok _]. rewrite Forall_forall in Hok.
  intros inv Hin. apply (Hok inv Hin).
Qed.


(** ** float64 arithmetic

    One rounding to nearest moves a number by at most 2^-53 of itself.
    This section derives that from the definitions of package SpecFloat,
    for the operations round3 and the referral bonus are made of, and
    concludes that round3 in float64 returns the hundredths the exact model
    takes. *)

(** *** The value of a float64 *)

Lemma pow2_pos (e : Z) : (0 < pow2 e)%Q.
Proof. apply Qpower_0_lt. reflexivity. Qed.

Lemma pow2_add (a b : Z) : (pow2 (a + b) == pow2 a * pow2 b)%Q.
Proof. apply Qpower_plus. discriminate. Qed.

Lemma pow2_Z (n : Z) : 0 <= n -> (pow2 n == inject_Z (2 ^ n))%Q.
Proof. intros H. unfold pow2. rewrite Zpower_Qpower by exact H. reflexivity. Qed.

Lemma pow2_succ (e : Z) : (pow2 (e + 1) == 2 * pow2 e)%Q.
Proof. rewrite pow2_add. change (pow2 1) with 2%Q. ring. Qed.

Lemma pow2_pred (e : Z) : (pow2 (e - 1) == (1 # 2) * pow2 e)%Q.
Proof.
  pose proof (pow2_succ (e - 1)) as H.
  replace (e - 1 + 1) with e in H by lia. lra.
Qed.

(** *** Shifting with a rounding and a sticky bit *)

Lemma located_ext (x y : Q) (rec : shr_record) :
  (x == y)%Q -> located x rec -> located y rec.
Proof.
  unfold located. intros E. destruct (shr_r rec), (shr_s rec); intros H; lra.
Qed.

Lemma inject_Z_xO (p : positive) :
  (inject_Z (Z.pos p~0) == 2 * inject_Z (Z.pos p))%Q.
Proof. rewrite Pos2Z.inj_xO, inject_Z_mult. reflexivity. Qed.

Lemma inject_Z_xI (p : positive) :
  (inject_Z (Z.pos p~1) == 2 * inject_Z (Z.pos p) + 1)%Q.
Proof. rewrite Pos2Z.inj_xI, inject_Z_plus, inject_Z_mult. reflexivity. Qed.

Lemma located_shr_1 (x : Q) (rec : shr_record) :
  0 <= shr_m rec -> located x rec ->
  located (x * (1 # 2)) (shr_1 rec) /\ 0 <= shr_m (shr_1 rec).
Proof.
  destruct rec as [m r s]. cbn [shr_m]. intros Hm H.
  destruct m as [|p|p]; [| |lia].
  - destruct r, s; unfold located in *;
      cbn [shr_1 shr_m shr_r shr_s orb] in *;
      change (inject_Z 0) with 0%Q in *; (split; [lra | lia]).
  - destruct p as [p|p|]; unfold located in *;
      [ pose proof (inject_Z_xI p) as E
      | pose proof (inject_Z_xO p) as E
      | idtac ];
      destruct r, s; cbn [shr_1 shr_m shr_r shr_s orb] in *;
      change (inject_Z 0) with 0%Q in *; change (inject_Z 1) with 1%Q in *;
      (split; [lra | lia]).
Qed.

Lemma located_shr (p : positive) :
  forall (x : Q) (rec : shr_record),
    0 <= shr_m rec -> located x rec ->
    located (x * pow2 (- Z.pos p)) (SpecFloat.iter_pos shr_1 p rec)
    /\ 0 <= shr_m (SpecFloat.iter_pos shr_1 p rec).
Proof.
  induction p as [p IH|p IH|]; intros x rec Hm H; cbn [SpecFloat.iter_pos].
  - destruct (located_shr_1 x rec Hm H) as [H1 Hm1].
    destruct (IH _ _ Hm1 H1) as [H2 Hm2].
    destruct (IH _ _ Hm2 H2) as [H3 Hm3].
    split; [|exact Hm3].
    refine (located_ext _ _ _ _ H3).
    replace (- Z.pos p~1) with (- 1 + (- Z.pos p + - Z.pos p)) by lia.
    rewrite !pow2_add. change (pow2 (-1)) with (1 # 2)%Q. ring.
  - destruct (IH _ _ Hm H) as [H2 Hm2].
    destruct (IH _ _ Hm2 H2) as [H3 Hm3].
    split; [|exact Hm3].
    refine (located_ext _ _ _ _ H3).
    replace (- Z.pos p~0) with (- Z.pos p + - Z.pos p) by lia.
    rewrite !pow2_add. ring.
  - destruct (located_shr_1 x rec Hm H) as [H1 Hm1].
    split; [|exact Hm1].
    refine (located_ext _ _ _ _ H1). reflexivity.
Qed.

(** *** Rounding to nearest *)

Lemma round_nearest_even_near (x : Q) (rec : shr_record) :
  located x rec ->
  let m1 := round_nearest_even (shr_m rec) (loc_of_shr_record rec) in
  (shr_m rec <= m1 <= shr_m rec + 1)
  /\ (inject_Z m1 - x <= 1 # 2)%Q /\ (x - inject_Z m1 <= 1 # 2)%Q
  /\ (inject_Z (shr_m rec) <= x)%Q /\ (x < inject_Z (shr_m rec) + 1)%Q.
Proof.
  destruct rec as [m r s]. unfold located. cbn [shr_m shr_r shr_s].
  intros H. pose proof (inject_Z_plus m 1) as E.
  change (inject_Z 1) with 1%Q in E.
  destruct r, s; cbn [loc_of_shr_record round_nearest_even];
    try destruct (Z.even m); cbv zeta;
    rewrite ?E; (split; [lia|]); repeat split; lra.
Qed.

Lemma located_of_loc (m : Z) (l : location) :
  loc_of_shr_record (shr_record_of_loc m l) = l
  /\ shr_m (shr_record_of_loc m l) = m.
Proof. destruct l as [|[]]; split; reflexivity. Qed.

(** *** The number of bits *)

Lemma digits2_pos_spec (p : positive) :
  2 ^ (Z.pos (digits2_pos p) - 1) <= Z.pos p < 2 ^ Z.pos (digits2_pos p).
Proof.
  induction p as [p IH|p IH|]; cbn [digits2_pos].
  - rewrite Pos2Z.inj_succ.
    replace (Z.succ (Z.pos (digits2_pos p)) - 1)
      with (Z.succ (Z.pos (digits2_pos p) - 1)) by lia.
    rewrite !Z.pow_succ_r by lia. lia.
  - rewrite Pos2Z.inj_succ.
    replace (Z.succ (Z.pos (digits2_pos p)) - 1)
      with (Z.succ (Z.pos (digits2_pos p) - 1)) by lia.
    rewrite !Z.pow_succ_r by lia. lia.
  - cbn. lia.
Qed.

Lemma digits2_pos_unique (p : positive) (k : Z) :
  2 ^ (k - 1) <= Z.pos p < 2 ^ k -> Z.pos (digits2_pos p) = k.
Proof.
  intros [Hlo Hhi]. pose proof (digits2_pos_spec p) as [Dlo Dhi].
  assert (Hk : 0 < k).
  { destruct (Z_lt_le_dec 0 k) as [H|H]; [exact H|].
    assert (2 ^ k <= 2 ^ 0) by (apply Z.pow_le_mono_r; lia).
    change (2 ^ 0) with 1 in *. lia. }
  destruct (Z_lt_le_dec (Z.pos (digits2_pos p)) k) as [Hlt|Hge].
  - assert (2 ^ Z.pos (digits2_pos p) <= 2 ^ (k - 1))
      by (apply Z.pow_le_mono_r; lia). lia.
  - destruct (Z_lt_le_dec k (Z.pos (digits2_pos p))) as [Hgt|Hle]; [|lia].
    assert (2 ^ k <= 2 ^ (Z.pos (digits2_pos p) - 1))
      by (apply Z.pow_le_mono_r; lia). lia.
Qed.

(** *** binary_round_aux *)

Lemma Zdigits2_unique (m k : Z) :
  2 ^ (k - 1) <= m < 2 ^ k -> 0 < m -> Zdigits2 m = k.
Proof.
  intros H Hm. destruct m as [|p|p]; [lia| |lia].
  cbn [Zdigits2]. apply digits2_pos_unique. exact H.
Qed.

Lemma Zdigits2_spec (m : Z) :
  0 < m -> 2 ^ (Zdigits2 m - 1) <= m < 2 ^ Zdigits2 m.
Proof.
  intros Hm. destruct m as [|p|p]; [lia| |lia].
  cbn [Zdigits2]. apply digits2_pos_spec.
Qed.

Lemma scale_le (a b p : Q) : (0 < p -> a <= b -> a * p <= b * p)%Q.
Proof. intros Hp H. apply Qmult_le_compat_r; [exact H | lra]. Qed.

Lemma scale_lt (a b p : Q) : (0 < p -> a < b -> a * p < b * p)%Q.
Proof. intros Hp H. apply Qmult_lt_compat_r; assumption. Qed.

(** The first shift of binary_round_aux: the mantissa is brought to 53
    bits. *)
Lemma shr_to_53 (mx ex : Z) (lx : location) (X : Q) (d : Z) :
  0 < mx ->
  located X (shr_record_of_loc mx lx) ->
  53 <= d ->
  exists rec1,
    shr (shr_record_of_loc mx lx) ex (d - 53) = (rec1, ex + (d - 53))
    /\ located (X * pow2 (- (d - 53))) rec1
    /\ 0 <= shr_m rec1.
Proof.
  intros Hmx Hloc Hd.
  assert (Hm0 : 0 <= shr_m (shr_record_of_loc mx lx)).
  { rewrite (proj2 (located_of_loc mx lx)). lia. }
  destruct (d - 53) as [|p|p] eqn:E; [| |lia].
  - exists (shr_record_of_loc mx lx). cbn [shr]. rewrite Z.add_0_r.
    split; [reflexivity|]. split; [|exact Hm0].
    refine (located_ext _ _ _ _ Hloc). change (pow2 (- 0)) with 1%Q. ring.
  - destruct (located_shr p X _ Hm0 Hloc) as [H1 H2].
    eexists. cbn [shr]. split; [reflexivity|]. split; assumption.
Qed.

Lemma fexp_normal (e : Z) : -1074 <= e - 53 -> fexp 53 1024 e = e - 53.
Proof.
  intros H. unfold fexp, emin. apply Z.max_l. lia.
Qed.

(** binary_round_aux on a mantissa of at least 53 bits, away from the
    subnormal numbers and from overflow: the result is a float64 of 53 bits
    within half a unit in the last place of the number rounded. *)
Lemma binary_round_aux_spec (sx : bool) (mx ex : Z) (lx : location) (X : Q)
  (d : Z) :
  0 < mx ->
  located X (shr_record_of_loc mx lx) ->
  Zdigits2 mx = d -> 53 <= d ->
  -1074 <= ex + d - 53 -> ex + d <= 1023 ->
  exists m e,
    binary_round_aux 53 1024 sx mx ex lx = S754_finite sx m e
    /\ 2 ^ 52 <= Z.pos m < 2 ^ 53
    /\ ex + d - 53 <= e <= ex + d - 52
    /\ (F2Q (Z.pos m) e - X * pow2 ex <= pow2 (ex + d - 54))%Q
    /\ (X * pow2 ex - F2Q (Z.pos m) e <= pow2 (ex + d - 54))%Q
    /\ (pow2 (ex + d - 1) <= X * pow2 ex)%Q
    /\ (X * pow2 ex < pow2 (ex + d))%Q.
Proof.
  intros Hmx Hloc Hdig Hd Hlow Hhigh.
  (* the number rounded, between two powers of two *)
  pose proof (Zdigits2_spec mx Hmx) as [Dlo Dhi]. rewrite Hdig in Dlo, Dhi.
  pose proof (round_nearest_even_near X _ Hloc) as [_ [_ [_ [Xlo Xhi]]]].
  rewrite (proj2 (located_of_loc mx lx)) in Xlo, Xhi.
  assert (XL : (pow2 (d - 1) <= X)%Q).
  { rewrite pow2_Z by lia. apply Qle_trans with (inject_Z mx); [|exact Xlo].
    rewrite <- Zle_Qle. exact Dlo. }
  assert (XH : (X < pow2 d)%Q).
  { rewrite pow2_Z by lia.
    apply Qlt_le_trans with (inject_Z mx + 1)%Q; [exact Xhi|].
    change 1%Q with (inject_Z 1). rewrite <- inject_Z_plus, <- Zle_Qle. lia. }
  (* the first shift *)
  destruct (shr_to_53 mx ex lx X d Hmx Hloc Hd) as [rec1 [Hshr [Hloc1 Hm1]]].
  set (Y := (X * pow2 (- (d - 53)))%Q) in *.
  assert (YL : (pow2 52 <= Y)%Q).
  { unfold Y. replace 52 with ((d - 1) + - (d - 53)) by lia.
    rewrite pow2_add. apply scale_le; [apply pow2_pos | exact XL]. }
  assert (YH : (Y < pow2 53)%Q).
  { unfold Y. replace 53 with (d + - (d - 53)) at 2 by lia.
    rewrite pow2_add. apply scale_lt; [apply pow2_pos | exact XH]. }
  pose proof (round_nearest_even_near Y rec1 Hloc1)
    as [Hm1' [Hup [Hdown [Ylo Yhi]]]].
  cbv zeta in Hm1', Hup, Hdown.
  set (m1 := round_nearest_even (shr_m rec1) (loc_of_shr_record rec1)) in *.
  assert (M1 : 2 ^ 52 <= m1 <= 2 ^ 53).
  { rewrite (pow2_Z 52) in YL by lia. rewrite (pow2_Z 53) in YH by lia.
    assert (A : (inject_Z (shr_m rec1) < inject_Z (2 ^ 53))%Q) by lra.
    assert (B : (inject_Z (2 ^ 52) < inject_Z (shr_m rec1 + 1))%Q).
    { rewrite inject_Z_plus. change (inject_Z 1) with 1%Q. lra. }
    rewrite <- Zlt_Qlt in A, B. lia. }
  (* the exact number in terms of Y *)
  assert (EX : (X * pow2 ex == Y * pow2 (ex + (d - 53)))%Q).
  { unfold Y. rewrite <- Qmult_assoc, <- pow2_add.
    replace (- (d - 53) + (ex + (d - 53))) with ex by lia. reflexivity. }
  assert (HALF : (pow2 (ex + d - 54) == (1 # 2) * pow2 (ex + (d - 53)))%Q).
  { replace (ex + d - 54) with (ex + (d - 53) - 1) by lia. apply pow2_pred. }
  pose proof (pow2_pos (ex + (d - 53))) as PP.
  assert (RL : (pow2 (ex + d - 1) <= X * pow2 ex)%Q).
  { replace (ex + d - 1) with ((d - 1) + ex) by lia.
    rewrite (pow2_add (d - 1) ex). apply scale_le; [apply pow2_pos | exact XL]. }
  assert (RH : (X * pow2 ex < pow2 (ex + d))%Q).
  { replace (ex + d) with (d + ex) by lia.
    rewrite (pow2_add d ex). apply scale_lt; [apply pow2_pos | exact XH]. }
  unfold binary_round_aux, shr_fexp.
  rewrite Hdig, fexp_normal by lia.
  replace (d + ex - 53 - ex) with (d - 53) by lia.
  rewrite Hshr. fold m1.
  destruct (Z.eq_dec m1 (2 ^ 53)) as [Hcarry|Hno].
  - (* the rounding carried into the 54th bit *)
    rewrite Hcarry.
    replace (Zdigits2 (2 ^ 53)) with 54 by reflexivity.
    rewrite fexp_normal by lia.
    replace (54 + (ex + (d - 53)) - 53 - (ex + (d - 53))) with 1 by lia.
    cbn [shr_record_of_loc shr SpecFloat.iter_pos shr_1 shr_m].
    change (2 ^ 53) with (Z.pos (4503599627370496~0)).
    cbn [shr_1 shr_m].
    replace (ex + (d - 53) + 1 <=? 1024 - 53) with true
      by (symmetry; apply Z.leb_le; lia).
    eexists _, _. split; [reflexivity|].
    split; [cbn; lia|]. split; [lia|].
    assert (V : (F2Q (Z.pos 4503599627370496) (ex + (d - 53) + 1)
                 == inject_Z m1 * pow2 (ex + (d - 53)))%Q).
    { unfold F2Q. rewrite pow2_succ, Hcarry.
      change (inject_Z (2 ^ 53)) with (2 * inject_Z (Z.pos 4503599627370496))%Q.
      ring. }
    rewrite V, EX, HALF.
    split; [|split; [|split]].
    + nra.
    + nra.
    + rewrite <- EX. exact RL.
    + rewrite <- EX. exact RH.
  - (* no carry *)
    assert (Hd1 : Zdigits2 m1 = 53) by (apply Zdigits2_unique; lia).
    rewrite Hd1, fexp_normal by lia.
    replace (53 + (ex + (d - 53)) - 53 - (ex + (d - 53))) with 0 by lia.
    cbn [shr]. rewrite (proj2 (located_of_loc m1 loc_Exact)).
    destruct m1 as [|m|m] eqn:Em; [lia| |lia].
    replace (ex + (d - 53) <=? 1024 - 53) with true
      by (symmetry; apply Z.leb_le; lia).
    exists m, (ex + (d - 53)). split; [reflexivity|].
    split; [lia|]. split; [lia|].
    unfold F2Q. rewrite EX, HALF.
    split; [|split; [|split]].
    + nra.
    + nra.
    + rewrite <- EX. exact RL.
    + rewrite <- EX. exact RH.
Qed.

(** *** Relative error of one rounding *)

Lemma pow2_le (a b : Z) : a <= b -> (pow2 a <= pow2 b)%Q.
Proof.
  intros H. replace b with ((b - a) + a) by lia. rewrite pow2_add.
  rewrite <- (Qmult_1_l (pow2 a)) at 1.
  apply scale_le; [apply pow2_pos|].
  rewrite pow2_Z by lia. change 1%Q with (inject_Z 1). rewrite <- Zle_Qle.
  assert (2 ^ 0 <= 2 ^ (b - a)) by (apply Z.pow_le_mono_r; lia).
  change (2 ^ 0) with 1 in *. lia.
Qed.

Lemma pow2_lt_inv (a b : Z) : (pow2 a < pow2 b)%Q -> a < b.
Proof.
  intros H. destruct (Z_lt_le_dec a b) as [Hlt|Hge]; [exact Hlt|].
  pose proof (pow2_le b a Hge). lra.
Qed.

Lemma round_rel (mx ex : Z) (lx : location) (X V : Q) :
  0 < mx ->
  located X (shr_record_of_loc mx lx) ->
  53 <= Zdigits2 mx ->
  (V == X * pow2 ex)%Q ->
  working_range V ->
  exists F,
    canonical (binary_round_aux 53 1024 false mx ex lx) F
    /\ (F - V <= unit_roundoff * V)%Q
    /\ (V - F <= unit_roundoff * V)%Q.
Proof.
  intros Hmx Hloc Hd HV [Vlo Vhi].
  set (d := Zdigits2 mx) in *.
  (* the magnitude of V fixes ex + d *)
  pose proof (Zdigits2_spec mx Hmx) as [Dlo Dhi]. fold d in Dlo, Dhi.
  pose proof (round_nearest_even_near X _ Hloc) as [_ [_ [_ [Xlo Xhi]]]].
  rewrite (proj2 (located_of_loc mx lx)) in Xlo, Xhi.
  assert (RL : (pow2 (ex + d - 1) <= V)%Q).
  { rewrite HV. replace (ex + d - 1) with ((d - 1) + ex) by lia.
    rewrite (pow2_add (d - 1) ex). apply scale_le; [apply pow2_pos|].
    rewrite pow2_Z by lia. apply Qle_trans with (inject_Z mx); [|exact Xlo].
    rewrite <- Zle_Qle. exact Dlo. }
  assert (RH : (V < pow2 (ex + d))%Q).
  { rewrite HV. replace (ex + d) with (d + ex) by lia.
    rewrite (pow2_add d ex). apply scale_lt; [apply pow2_pos|].
    rewrite pow2_Z by lia.
    apply Qlt_le_trans with (inject_Z mx + 1)%Q; [exact Xhi|].
    change 1%Q with (inject_Z 1). rewrite <- inject_Z_plus, <- Zle_Qle. lia. }
  assert (E1 : -10 < ex + d).
  { apply pow2_lt_inv. apply Qle_lt_trans with V; [|exact RH].
    change (pow2 (-10)) with (1 # 1024)%Q. exact Vlo. }
  assert (E2 : ex + d - 1 < 61).
  { apply pow2_lt_inv. apply Qle_lt_trans with V; [exact RL|].
    apply Qle_lt_trans with 1152921504606846976%Q; [exact Vhi|].
    rewrite pow2_Z by lia.
    change (inject_Z 1152921504606846976 < inject_Z (2 ^ 61))%Q.
    rewrite <- Zlt_Qlt. reflexivity. }
  destruct (binary_round_aux_spec false mx ex lx X d Hmx Hloc eq_refl Hd)
    as [m [e [Hres [Hm [He [Hup [Hdown [Hlo Hhi]]]]]]]]; [lia|lia|].
  exists (F2Q (Z.pos m) e). split.
  - exists m, e. split; [exact Hres|]. split; [exact Hm|].
    split; [lia|reflexivity].
  - assert (U : (pow2 (ex + d - 54) == unit_roundoff * pow2 (ex + d - 1))%Q).
    { replace (ex + d - 54) with (-53 + (ex + d - 1)) by lia.
      rewrite pow2_add. reflexivity. }
    rewrite <- HV in Hup, Hdown, Hlo. rewrite U in Hup, Hdown.
    assert (UP : (0 < unit_roundoff)%Q) by reflexivity.
    assert (UV : (unit_roundoff * pow2 (ex + d - 1) <= unit_roundoff * V)%Q).
    { rewrite !(Qmult_comm unit_roundoff). apply scale_le; assumption. }
    split; lra.
Qed.

Lemma canonical_exponent (m : positive) (e lo hi : Z) :
  2 ^ 52 <= Z.pos m < 2 ^ 53 ->
  (pow2 lo <= F2Q (Z.pos m) e)%Q -> (F2Q (Z.pos m) e <= pow2 hi)%Q ->
  lo - 53 < e /\ e + 52 <= hi.
Proof.
  intros [Hlo Hhi] Flo Fhi. unfold F2Q in *.
  pose proof (pow2_pos e) as Pe. split.
  - assert (H : lo < 53 + e); [|lia].
    apply pow2_lt_inv. apply Qle_lt_trans with (1 := Flo).
    rewrite (pow2_add 53 e). apply scale_lt; [exact Pe|].
    rewrite pow2_Z by lia. rewrite <- Zlt_Qlt. exact Hhi.
  - destruct (Z_lt_le_dec hi (e + 52)) as [H|H]; [exfalso|exact H].
    assert (A : (pow2 (hi + 1) <= pow2 (52 + e))%Q) by (apply pow2_le; lia).
    rewrite (pow2_add 52 e) in A. rewrite pow2_succ in A.
    assert (B : (pow2 52 * pow2 e <= inject_Z (Z.pos m) * pow2 e)%Q).
    { apply scale_le; [exact Pe|]. rewrite pow2_Z by lia.
      rewrite <- Zle_Qle. exact Hlo. }
    pose proof (pow2_pos hi). lra.
Qed.

(** *** The operations *)

Lemma binary_round_aux_exact (sx : bool) (m : positive) (e : Z) :
  2 ^ 52 <= Z.pos m < 2 ^ 53 -> -1074 <= e <= 971 ->
  binary_round_aux 53 1024 sx (Z.pos m) e loc_Exact = S754_finite sx m e.
Proof.
  intros Hm He.
  assert (Hd : Zdigits2 (Z.pos m) = 53) by (apply Zdigits2_unique; lia).
  unfold binary_round_aux, shr_fexp. rewrite Hd, fexp_normal by lia.
  replace (53 + e - 53 - e) with 0 by lia.
  cbn [shr shr_record_of_loc shr_m loc_of_shr_record round_nearest_even].
  rewrite Hd, fexp_normal by lia.
  replace (53 + e - 53 - e) with 0 by lia.
  cbn [shr shr_record_of_loc shr_m].
  replace (e <=? 1024 - 53) with true by (symmetry; apply Z.leb_le; lia).
  reflexivity.
Qed.

Lemma iter_xO (p n : positive) :
  Z.pos (Pos.iter xO p n) = Z.pos p * 2 ^ Z.pos n.
Proof.
  induction n as [|n IH] using Pos.peano_ind.
  - cbn [Pos.iter]. lia.
  - rewrite Pos.iter_succ, Pos2Z.inj_succ, Z.pow_succ_r by lia.
    rewrite Pos2Z.inj_xO, IH. lia.
Qed.

Lemma shl_align_spec (mx : positive) (ex ex' : Z) :
  ex' <= ex ->
  snd (shl_align mx ex ex') = ex'
  /\ Z.pos (fst (shl_align mx ex ex')) = Z.pos mx * 2 ^ (ex - ex').
Proof.
  intros H. unfold shl_align. destruct (ex' - ex) as [|n|n] eqn:E.
  - replace (ex - ex') with 0 by lia. cbn [fst snd]. split; lia.
  - lia.
  - cbn [fst snd]. split; [reflexivity|].
    rewrite iter_xO. replace (ex - ex') with (Z.pos n) by lia. reflexivity.
Qed.

(** Every integer amount below 2^53 is a float64. *)
Lemma float64_of_Z_spec (a : Z) :
  0 < a < 2 ^ 53 -> canonical (float64_of_Z a) (inject_Z a).
Proof.
  intros [Ha Hb]. destruct a as [|p|p]; [lia| |lia].
  unfold float64_of_Z, binary_normalize, binary_round.
  pose proof (digits2_pos_spec p) as [Dlo Dhi].
  set (d := Z.pos (digits2_pos p)) in *.
  assert (Hd : d <= 53).
  { destruct (Z_lt_le_dec 53 d) as [H|H]; [|exact H].
    assert (2 ^ 53 <= 2 ^ (d - 1)) by (apply Z.pow_le_mono_r; lia). lia. }
  assert (Hd0 : 0 < d) by (unfold d; lia).
  unfold fexp, emin. replace (Z.max (d + 0 - 53) (3 - 1024 - 53)) with (d - 53)
    by lia.
  destruct (shl_align_spec p 0 (d - 53)) as [S1 S2]; [lia|].
  destruct (shl_align p 0 (d - 53)) as [mz ez]. cbn [fst snd] in S1, S2.
  subst ez. replace (0 - (d - 53)) with (53 - d) in S2 by lia.
  assert (P : 2 ^ (d - 1) * 2 ^ (53 - d) = 2 ^ 52).
  { rewrite <- Z.pow_add_r by lia. f_equal. lia. }
  assert (P' : 2 ^ d * 2 ^ (53 - d) = 2 ^ 53).
  { rewrite <- Z.pow_add_r by lia. f_equal. lia. }
  assert (P0 : 0 < 2 ^ (53 - d)) by (apply Z.pow_pos_nonneg; lia).
  assert (Hmz : 2 ^ 52 <= Z.pos mz < 2 ^ 53) by (rewrite S2; nia).
  rewrite binary_round_aux_exact by lia.
  exists mz, (d - 53). split; [reflexivity|]. split; [exact Hmz|].
  split; [lia|].
  unfold F2Q. rewrite S2, inject_Z_mult, <- pow2_Z by lia.
  rewrite <- Qmult_assoc, <- pow2_add.
  replace (53 - d + (d - 53)) with 0 by lia.
  change (pow2 0) with 1%Q. ring.
Qed.

(** One multiplication rounds once. *)
Lemma fmul_spec (x y : float64) (Fx Fy : Q) :
  canonical x Fx -> canonical y Fy -> working_range (Fx * Fy) ->
  exists F,
    canonical (fmul x y) F
    /\ (F - Fx * Fy <= unit_roundoff * (Fx * Fy))%Q
    /\ (Fx * Fy - F <= unit_roundoff * (Fx * Fy))%Q.
Proof.
  intros [mx [ex [-> [Hmx [Hex EFx]]]]] [my [ey [-> [Hmy [Hey EFy]]]]] HV.
  unfold fmul, SFmul. cbn [xorb].
  apply round_rel with (X := inject_Z (Z.pos (mx * my))).
  - lia.
  - reflexivity.
  - pose proof (Zdigits2_spec (Z.pos (mx * my)) ltac:(lia)) as [_ Dhi].
    assert (H : 104 < Zdigits2 (Z.pos (mx * my))); [|lia].
    apply (Z.pow_lt_mono_r_iff 2); [lia| |].
    + destruct (Zdigits2 (Z.pos (mx * my))) eqn:E; try lia.
      cbn in Dhi. lia.
    + rewrite Pos2Z.inj_mul in *.
      change (2 ^ 104) with (2 ^ 52 * 2 ^ 52). nia.
  - rewrite EFx, EFy. unfold F2Q.
    rewrite Pos2Z.inj_mul, inject_Z_mult, pow2_add. ring.
  - exact HV.
Qed.

(** The float64 of 100 and what a division by it computes. *)
Lemma float64_of_100 :
  float64_of_Z 100 = S754_finite false 7036874417766400 (-46).
Proof. reflexivity. Qed.

Lemma fdiv_100_spec (x : float64) (Fx : Q) :
  canonical x Fx -> working_range (Fx * (1 # 100)) ->
  exists F,
    canonical (fdiv x (float64_of_Z 100)) F
    /\ (F - Fx * (1 # 100) <= unit_roundoff * (Fx * (1 # 100)))%Q
    /\ (Fx * (1 # 100) - F <= unit_roundoff * (Fx * (1 # 100)))%Q.
Proof.
  intros [m [e [-> [Hm [He EF]]]]] HV.
  assert (Hd : Zdigits2 (Z.pos m) = 53) by (apply Zdigits2_unique; lia).
  assert (Hexp : -60 < e).
  { destruct HV as [Vlo _]. rewrite EF in Vlo.
    destruct (canonical_exponent m e (-7) (e + 53) Hm) as [H _]; [| |lia].
    - change (pow2 (-7)) with (1 # 128)%Q. lra.
    - unfold F2Q. rewrite (Z.add_comm e 53), (pow2_add 53 e).
      apply scale_le; [apply pow2_pos|]. rewrite pow2_Z by lia.
      rewrite <- Zle_Qle. lia. }
  rewrite float64_of_100. unfold fdiv, SFdiv, SFdiv_core_binary. cbn [xorb].
  rewrite Hd. change (Zdigits2 (Z.pos 7036874417766400)) with 53.
  rewrite fexp_normal by lia.
  replace (Z.min (53 + e - (53 + -46) - 53) (e - -46)) with (e - 7) by lia.
  replace (e - -46 - (e - 7)) with 53 by lia.
  rewrite Z.shiftl_mul_pow2 by lia.
  pose proof (Z_div_mod (Z.pos m * 2 ^ 53) (Z.pos 7036874417766400) eq_refl)
    as DM.
  destruct (Z.div_eucl (Z.pos m * 2 ^ 53) (Z.pos 7036874417766400))
    as [q r]. destruct DM as [DM Hr].
  assert (Hq : 2 ^ 52 <= q).
  { change (2 ^ 53) with 9007199254740992 in *.
    change (2 ^ 52) with 4503599627370496 in *. lia. }
  assert (QR : (inject_Z (Z.pos m) * inject_Z (2 ^ 53)
                == 7036874417766400 * inject_Z q + inject_Z r)%Q).
  { rewrite <- inject_Z_mult, DM, inject_Z_plus, inject_Z_mult. reflexivity. }
  apply round_rel
    with (X := (inject_Z (Z.pos m) * inject_Z (2 ^ 53)
                * (1 # 7036874417766400))%Q).
  - lia.
  - unfold new_location. change (Z.even (Z.pos 7036874417766400)) with true.
    cbv iota. unfold new_location_even.
    assert (R0 : (0 <= inject_Z r)%Q)
      by (change 0%Q with (inject_Z 0); rewrite <- Zle_Qle; lia).
    destruct (Z.eqb_spec r 0) as [Hr0|Hr0].
    + subst r. change (inject_Z 0) with 0%Q in QR.
      unfold located. cbn [shr_record_of_loc shr_m shr_r shr_s]. lra.
    + assert (R1 : (0 < inject_Z r)%Q)
        by (change 0%Q with (inject_Z 0); rewrite <- Zlt_Qlt; lia).
      assert (R2 : (inject_Z r < 7036874417766400)%Q).
      { change 7036874417766400%Q with (inject_Z 7036874417766400).
        rewrite <- Zlt_Qlt. lia. }
      destruct (Z.compare_spec (2 * r) (Z.pos 7036874417766400)) as [C|C|C];
        unfold located; cbn [shr_record_of_loc shr_m shr_r shr_s].
      * assert (C' : (2 * inject_Z r == 7036874417766400)%Q).
        { change 2%Q with (inject_Z 2).
          change 7036874417766400%Q with (inject_Z 7036874417766400).
          rewrite <- inject_Z_mult, C. reflexivity. }
        lra.
      * assert (C' : (2 * inject_Z r < 7036874417766400)%Q).
        { change 2%Q with (inject_Z 2).
          change 7036874417766400%Q with (inject_Z 7036874417766400).
          rewrite <- inject_Z_mult, <- Zlt_Qlt. exact C. }
        split; lra.
      * assert (C' : (7036874417766400 < 2 * inject_Z r)%Q).
        { change 2%Q with (inject_Z 2).
          change 7036874417766400%Q with (inject_Z 7036874417766400).
          rewrite <- inject_Z_mult, <- Zlt_Qlt. exact C. }
        split; lra.
  - pose proof (Zdigits2_spec q ltac:(lia)) as [_ Dhi].
    assert (H : 52 < Zdigits2 q); [|lia].
    apply (Z.pow_lt_mono_r_iff 2); [lia| |lia].
    destruct (Zdigits2 q) eqn:E; try lia. cbn in Dhi. lia.
  - rewrite EF. unfold F2Q.
    replace (e - 7) with (e + -7) by lia. rewrite (pow2_add e (-7)).
    change (pow2 (-7)) with (1 # 128)%Q.
    change (inject_Z (2 ^ 53)) with 9007199254740992%Q. field.
  - exact HV.
Qed.

(** One addition of two positive numbers rounds once. *)
Lemma fadd_spec (x y : float64) (Fx Fy : Q) :
  canonical x Fx -> canonical y Fy -> working_range (Fx + Fy) ->
  exists F,
    canonical (fadd x y) F
    /\ (F - (Fx + Fy) <= unit_roundoff * (Fx + Fy))%Q
    /\ (Fx + Fy - F <= unit_roundoff * (Fx + Fy))%Q.
Proof.
  intros [mx [ex [-> [Hmx [Hex EFx]]]]] [my [ey [-> [Hmy [Hey EFy]]]]] HV.
  unfold fadd, SFadd. cbn [cond_Zopp].
  set (ez := Z.min ex ey).
  destruct (shl_align_spec mx ex ez) as [_ Sx]; [unfold ez; lia|].
  destruct (shl_align_spec my ey ez) as [_ Sy]; [unfold ez; lia|].
  set (a := fst (shl_align mx ex ez)) in *.
  set (b := fst (shl_align my ey ez)) in *.
  change (Z.pos a + Z.pos b) with (Z.pos (a + b)).
  unfold binary_normalize, binary_round.
  assert (Px : 0 < 2 ^ (ex - ez)) by (apply Z.pow_pos_nonneg; unfold ez; lia).
  assert (Py : 0 < 2 ^ (ey - ez)) by (apply Z.pow_pos_nonneg; unfold ez; lia).
  assert (Hsum : 2 ^ 52 <= Z.pos (a + b)).
  { rewrite Pos2Z.inj_add, Sx, Sy. nia. }
  pose proof (Zdigits2_spec (Z.pos (a + b)) ltac:(lia)) as [_ Dhi].
  cbn [Zdigits2] in Dhi.
  set (d := Z.pos (digits2_pos (a + b))) in *.
  assert (Hd : 52 < d).
  { apply (Z.pow_lt_mono_r_iff 2); [lia|unfold d; lia|lia]. }
  rewrite fexp_normal by (unfold ez; lia).
  unfold shl_align.
  destruct (d + ez - 53 - ez) as [|n|n] eqn:E; [| |lia].
  - apply round_rel with (X := inject_Z (Z.pos (a + b))).
    + lia.
    + reflexivity.
    + cbn [Zdigits2]. fold d. lia.
    + rewrite EFx, EFy, Pos2Z.inj_add, Sx, Sy. unfold F2Q.
      rewrite inject_Z_plus, !inject_Z_mult, <- !pow2_Z by (unfold ez; lia).
      rewrite Qmult_plus_distr_l, <- !Qmult_assoc, <- !pow2_add.
      replace (ex - ez + ez) with ex by lia.
      replace (ey - ez + ez) with ey by lia. reflexivity.
    + exact HV.
  - apply round_rel with (X := inject_Z (Z.pos (a + b))).
    + lia.
    + reflexivity.
    + cbn [Zdigits2]. fold d. lia.
    + rewrite EFx, EFy, Pos2Z.inj_add, Sx, Sy. unfold F2Q.
      rewrite inject_Z_plus, !inject_Z_mult, <- !pow2_Z by (unfold ez; lia).
      rewrite Qmult_plus_distr_l, <- !Qmult_assoc, <- !pow2_add.
      replace (ex - ez + ez) with ex by lia.
      replace (ey - ez + ez) with ey by lia. reflexivity.
    + exact HV.
Qed.

(** The conversion to int takes the whole part. *)
Lemma int_of_float64_spec (f : float64) (F : Q) :
  canonical f F -> (F <= 1152921504606846976)%Q ->
  (inject_Z (int_of_float64 f) <= F)%Q
  /\ (F < inject_Z (int_of_float64 f) + 1)%Q.
Proof.
  intros [m [e [-> [Hm [He EF]]]]] Hhi. unfold int_of_float64.
  set (whole := if 0 <=? e then Z.pos m * 2 ^ e else Z.pos m / 2 ^ (- e)).
  assert (W : (inject_Z whole <= F)%Q /\ (F < inject_Z whole + 1)%Q).
  { unfold whole. rewrite EF. unfold F2Q.
    destruct (Z.leb_spec 0 e) as [H|H].
    - rewrite inject_Z_mult, <- pow2_Z by lia. split; lra.
    - assert (D : 0 < 2 ^ (- e)) by (apply Z.pow_pos_nonneg; lia).
      pose proof (Z_div_mod (Z.pos m) (2 ^ (- e)) ltac:(lia)) as DM.
      unfold Z.div. destruct (Z.div_eucl (Z.pos m) (2 ^ (- e))) as [q r].
      destruct DM as [DM Hr]. cbn [fst].
      assert (I : (inject_Z (2 ^ (- e)) * pow2 e == 1)%Q).
      { rewrite <- pow2_Z, <- pow2_add by lia.
        replace (- e + e) with 0 by lia. reflexivity. }
      pose proof (pow2_pos e) as Pe.
      rewrite DM, inject_Z_plus, inject_Z_mult.
      assert (R0 : (0 <= inject_Z r * pow2 e)%Q).
      { apply Qmult_le_0_compat; [|lra].
        change 0%Q with (inject_Z 0). rewrite <- Zle_Qle. lia. }
      assert (R1 : (inject_Z r * pow2 e < inject_Z (2 ^ (- e)) * pow2 e)%Q).
      { apply scale_lt; [exact Pe|]. rewrite <- Zlt_Qlt. lia. }
      assert (E : ((inject_Z (2 ^ (- e)) * inject_Z q + inject_Z r) * pow2 e
                   == inject_Z q * (inject_Z (2 ^ (- e)) * pow2 e)
                      + inject_Z r * pow2 e)%Q) by ring.
      rewrite E, I in *. split; lra. }
  destruct W as [W1 W2].
  assert (B : whole < 2 ^ 63).
  { rewrite Zlt_Qlt. apply Qle_lt_trans with (1 := W1).
    apply Qle_lt_trans with (1 := Hhi). reflexivity. }
  replace (2 ^ 63 <=? whole) with false by (symmetry; apply Z.leb_gt; exact B).
  split; assumption.
Qed.

(** *** The constants and round3 *)

Lemma float64_of_thirty_percent :
  canonical (float64_of_decimal 30 100)
    (5404319552844595 # 18014398509481984).
Proof.
  exists 5404319552844595%positive, (-54). split; [reflexivity|].
  split; [cbn; lia|]. split; [lia|]. reflexivity.
Qed.

Lemma float64_of_hundred : canonical (float64_of_Z 100) 100.
Proof. apply (float64_of_Z_spec 100). cbn. lia. Qed.

Lemma float64_of_half : canonical (float64_of_decimal 5 10) (1 # 2).
Proof.
  exists 4503599627370496%positive, (-53). split; [reflexivity|].
  split; [cbn; lia|]. split; [lia|]. reflexivity.
Qed.

(** A decimal(15,2) amount read into a float64. *)
Lemma float64_of_Money_spec (m : Z) :
  0 < m <= 999999999999999 ->
  exists A,
    canonical (float64_of_Money m) A
    /\ (A - inject_Z m * (1 # 100) <= unit_roundoff * (inject_Z m * (1 # 100)))%Q
    /\ (inject_Z m * (1 # 100) - A <= unit_roundoff * (inject_Z m * (1 # 100)))%Q
    /\ (1 <= inject_Z m)%Q /\ (inject_Z m <= 999999999999999)%Q.
Proof.
  intros [Ha Hb].
  assert (Qa1 : (1 <= inject_Z m)%Q).
  { change 1%Q with (inject_Z 1). rewrite <- Zle_Qle. lia. }
  assert (Qa2 : (inject_Z m <= 999999999999999)%Q).
  { change 999999999999999%Q with (inject_Z 999999999999999).
    rewrite <- Zle_Qle. exact Hb. }
  assert (Hr : 0 < m < 2 ^ 53) by (change (2 ^ 53) with 9007199254740992; lia).
  destruct (fdiv_100_spec _ _ (float64_of_Z_spec m Hr)) as [A [CA [A1 A2]]].
  { split; lra. }
  exists A. repeat split; assumption.
Qed.

(** round3 at a float64 [f] of value [F]: the whole part of a number
    within two roundings of 100 F + 1/2. *)
Lemma round3_float64_spec (f : float64) (F : Q) :
  canonical f F ->
  (1 # 1024 <= F * 100)%Q -> (F * 100 <= 576460752303423488)%Q ->
  exists S R,
    (S - F * 100 <= unit_roundoff * (F * 100))%Q
    /\ (F * 100 - S <= unit_roundoff * (F * 100))%Q
    /\ (R - (S + (1 # 2)) <= unit_roundoff * (S + (1 # 2)))%Q
    /\ (S + (1 # 2) - R <= unit_roundoff * (S + (1 # 2)))%Q
    /\ (inject_Z (round3_float64 f) <= R)%Q
    /\ (R < inject_Z (round3_float64 f) + 1)%Q.
Proof.
  intros Cf Flo Fhi.
  destruct (fmul_spec _ _ _ _ Cf float64_of_hundred) as [S [CS [S1 S2]]].
  { split; lra. }
  unfold unit_roundoff in S1, S2.
  destruct (fadd_spec _ _ _ _ CS float64_of_half) as [R [CR [R1 R2]]].
  { split; lra. }
  unfold unit_roundoff in R1, R2.
  destruct (int_of_float64_spec _ _ CR) as [K1 K2]; [lra|].
  exists S, R. unfold unit_roundoff, round3_float64.
  repeat split; assumption.
Qed.

(** Two whole numbers less than 1 apart from each other's successor are
    equal. *)
Lemma whole_part_unique (k n : Z) (R : Q) :
  (inject_Z k <= R)%Q -> (R < inject_Z k + 1)%Q ->
  (inject_Z n <= R)%Q -> (R < inject_Z n + 1)%Q -> k = n.
Proof.
  intros K1 K2 N1 N2.
  assert (A : (inject_Z k < inject_Z (n + 1))%Q).
  { rewrite inject_Z_plus. change (inject_Z 1) with 1%Q. lra. }
  assert (B : (inject_Z n < inject_Z (k + 1))%Q).
  { rewrite inject_Z_plus. change (inject_Z 1) with 1%Q. lra. }
  rewrite <- Zlt_Qlt in A, B. lia.
Qed.

(** round3(amount * 0.30) in float64 is 30% of the amount to the nearest
    hundredth, up to an amount of 1,000,000,000,000.00. *)
Lemma thirty_percent_nearest (a : Z) :
  0 <= a <= 100000000000000 ->
  3 * a - 5
  <= 10 * round3_float64
            (fmul (float64_of_Money a) (float64_of_decimal 30 100))
  <= 3 * a + 5.
Proof.
  intros [Ha Hb]. destruct (Z.eq_dec a 0) as [->|Hnz].
  { change (round3_float64 _) with 0. lia. }
  destruct (float64_of_Money_spec a) as [A [CA [A1 [A2 [Qa1 _]]]]]; [lia|].
  assert (Qa2 : (inject_Z a <= 100000000000000)%Q).
  { change 100000000000000%Q with (inject_Z 100000000000000).
    rewrite <- Zle_Qle. exact Hb. }
  unfold unit_roundoff in A1, A2.
  destruct (fmul_spec _ _ _ _ CA float64_of_thirty_percent) as [P [CP [P1 P2]]].
  { split; lra. }
  unfold unit_roundoff in P1, P2.
  destruct (round3_float64_spec _ _ CP) as [S [R [S1 [S2 [R1 [R2 [K1 K2]]]]]]];
    [lra|lra|].
  unfold unit_roundoff in S1, S2, R1, R2.
  set (k := round3_float64 _) in *.
  assert (U : (inject_Z (10 * k) < inject_Z (3 * a + 6))%Q).
  { rewrite inject_Z_plus, !inject_Z_mult.
    change (inject_Z 10) with 10%Q. change (inject_Z 3) with 3%Q.
    change (inject_Z 6) with 6%Q. lra. }
  assert (L : (inject_Z (3 * a - 6) < inject_Z (10 * k))%Q).
  { unfold Z.sub. rewrite inject_Z_plus, !inject_Z_mult.
    change (inject_Z 10) with 10%Q. change (inject_Z 3) with 3%Q.
    change (inject_Z (- (6))) with (-6)%Q. lra. }
  rewrite <- Zlt_Qlt in U, L. lia.
Qed.

(** round3 gives back a whole number of hundredths, whatever a
    decimal(15,2) column holds. *)
Lemma round3_float64_whole (m : Z) :
  0 <= m <= 999999999999999 ->
  round3_float64 (float64_of_Money m) = m.
Proof.
  intros [Ha Hb]. destruct (Z.eq_dec m 0) as [->|Hnz]; [reflexivity|].
  destruct (float64_of_Money_spec m) as [A [CA [A1 [A2 [Qa1 Qa2]]]]]; [lia|].
  unfold unit_roundoff in A1, A2.
  destruct (round3_float64_spec _ _ CA) as [S [R [S1 [S2 [R1 [R2 [K1 K2]]]]]]];
    [lra|lra|].
  unfold unit_roundoff in S1, S2, R1, R2.
  apply (whole_part_unique _ _ R K1 K2); lra.
Qed.

(** The same after an addition of two amounts. *)
Lemma round3_float64_sum (b x : Z) :
  0 <= b -> 0 <= x -> b + x <= 999999999999999 ->
  round3_float64 (fadd (float64_of_Money b) (float64_of_Money x)) = b + x.
Proof.
  intros Hb0 Hx0 Hsum.
  destruct (Z.eq_dec b 0) as [->|Hb].
  { destruct (Z.eq_dec x 0) as [->|Hx]; [reflexivity|].
    destruct (float64_of_Money_spec x) as [A [[m [e [E _]]] _]]; [lia|].
    rewrite <- (round3_float64_whole x) at 2 by lia.
    rewrite E. reflexivity. }
  destruct (Z.eq_dec x 0) as [->|Hx].
  { destruct (float64_of_Money_spec b) as [A [[m [e [E _]]] _]]; [lia|].
    rewrite Z.add_0_r. rewrite <- (round3_float64_whole b) at 2 by lia.
    rewrite E. reflexivity. }
  destruct (float64_of_Money_spec b) as [A [CA [A1 [A2 [Qa1 Qa2]]]]]; [lia|].
  destruct (float64_of_Money_spec x) as [B [CB [B1 [B2 [Qb1 Qb2]]]]]; [lia|].
  unfold unit_roundoff in A1, A2, B1, B2.
  assert (Qsum : (inject_Z b + inject_Z x <= 999999999999999)%Q).
  { change 999999999999999%Q with (inject_Z 999999999999999).
    rewrite <- inject_Z_plus, <- Zle_Qle. exact Hsum. }
  destruct (fadd_spec _ _ _ _ CA CB) as [T [CT [T1 T2]]].
  { split; lra. }
  unfold unit_roundoff in T1, T2.
  destruct (round3_float64_spec _ _ CT) as [S [R [S1 [S2 [R1 [R2 [K1 K2]]]]]]];
    [lra|lra|].
  unfold unit_roundoff in S1, S2, R1, R2.
  apply (whole_part_unique _ _ R K1 K2);
    rewrite inject_Z_plus; lra.
Qed.

(** The same after a multiplication by a whole number, such as the number
    of periods of an investment. *)
Lemma round3_float64_times (d n : Z) :
  0 <= d -> 0 < n <= 999999999999999 -> d * n <= 999999999999999 ->
  round3_float64 (fmul (float64_of_Money d) (float64_of_Z n)) = d * n.
Proof.
  intros Hd [Hn Hn1] Hprod. destruct (Z.eq_dec d 0) as [->|Hnz].
  { assert (Cn : canonical (float64_of_Z n) (inject_Z n)).
    { apply float64_of_Z_spec.
      change (2 ^ 53) with 9007199254740992. lia. }
    destruct Cn as [m [e [E _]]]. rewrite E. reflexivity. }
  assert (Hd1 : d <= 999999999999999) by nia.
  destruct (float64_of_Money_spec d) as [A [CA [A1 [A2 [Qd1 Qd2]]]]]; [lia|].
  assert (Cn : canonical (float64_of_Z n) (inject_Z n)).
  { apply float64_of_Z_spec. change (2 ^ 53) with 9007199254740992. lia. }
  assert (Qn : (1 <= inject_Z n)%Q).
  { change 1%Q with (inject_Z 1). rewrite <- Zle_Qle. lia. }
  assert (Qp1 : (1 <= inject_Z (d * n))%Q).
  { change 1%Q with (inject_Z 1). rewrite <- Zle_Qle. nia. }
  assert (Qp2 : (inject_Z (d * n) <= 999999999999999)%Q).
  { change 999999999999999%Q with (inject_Z 999999999999999).
    rewrite <- Zle_Qle. exact Hprod. }
  set (W := inject_Z (d * n)) in *.
  assert (V1 : (A * inject_Z n - W * (1 # 100)
                <= unit_roundoff * (W * (1 # 100)))%Q).
  { assert (H : ((A - inject_Z d * (1 # 100)) * inject_Z n
                 <= unit_roundoff * (inject_Z d * (1 # 100)) * inject_Z n)%Q)
      by (apply scale_le; [lra | exact A1]).
    unfold W. rewrite inject_Z_mult.
    assert (E1 : ((A - inject_Z d * (1 # 100)) * inject_Z n
                  == A * inject_Z n - inject_Z d * inject_Z n * (1 # 100))%Q)
      by ring.
    assert (E2 : (unit_roundoff * (inject_Z d * (1 # 100)) * inject_Z n
                  == unit_roundoff * (inject_Z d * inject_Z n * (1 # 100)))%Q)
      by ring.
    rewrite E1, E2 in H. exact H. }
  assert (V2 : (W * (1 # 100) - A * inject_Z n
                <= unit_roundoff * (W * (1 # 100)))%Q).
  { assert (H : ((inject_Z d * (1 # 100) - A) * inject_Z n
                 <= unit_roundoff * (inject_Z d * (1 # 100)) * inject_Z n)%Q)
      by (apply scale_le; [lra | exact A2]).
    unfold W. rewrite inject_Z_mult.
    assert (E1 : ((inject_Z d * (1 # 100) - A) * inject_Z n
                  == inject_Z d * inject_Z n * (1 # 100) - A * inject_Z n)%Q)
      by ring.
    assert (E2 : (unit_roundoff * (inject_Z d * (1 # 100)) * inject_Z n
                  == unit_roundoff * (inject_Z d * inject_Z n * (1 # 100)))%Q)
      by ring.
    rewrite E1, E2 in H. exact H. }
  clear A1 A2.
  set (V := (A * inject_Z n)%Q) in *.
  unfold unit_roundoff in V1, V2.
  destruct (fmul_spec _ _ _ _ CA Cn) as [P [CP [P1 P2]]].
  { fold V. split; lra. }
  fold V in P1, P2. unfold unit_roundoff in P1, P2.
  destruct (round3_float64_spec _ _ CP) as [S [R [S1 [S2 [R1 [R2 [K1 K2]]]]]]];
    [lra|lra|].
  unfold unit_roundoff in S1, S2, R1, R2.
  apply (whole_part_unique _ _ R K1 K2); fold W; lra.
Qed.

(** ** The referral bonus *)

(** The ledger rows a scheduler pass appends are all of type "return". *)
Lemma settle_all_ledger (clock : nat -> Time) :
  forall (due : list Investment.t) (i : nat) (n : Z) (db : DB),
  exists added,
    transactions (snd (settle_all clock i due n db))
    = transactions db ++ added
    /\ Forall (fun t => Transaction.TransactionType t = "return") added.
Proof.
  induction due as [|inv rest IH]; intros i n db.
  - exists []. cbn. split; [symmetry; apply app_nil_r | constructor].
  - cbn [settle_all]. unfold db_Transaction.
    destruct (settles db inv) eqn:Hs.
    + destruct (settle_Some (clock i) inv db Hs)
        as [db1 [Hrun [_ [_ [_ [_ [_ [_ [added1 [Ht Hall]]]]]]]]]].
      rewrite Hrun. destruct (IH (S i) (n + 1) db1) as [added [Ht' Hall']].
      exists (added1 ++ added). rewrite Ht', Ht, app_assoc.
      split; [reflexivity|]. apply Forall_app. split; assumption.
    + rewrite (settle_None (clock i) inv db Hs). apply IH.
Qed.

(** A settlement moves no column of a user but the balance, and only of the
    investor. *)
Lemma settle_users (nowTime : Time) (inv : Investment.t) (db db' : DB) :
  settle nowTime inv db = Some (tt, db') ->
  exists f,
    users db'
    = Updates (fun u => User.ID u =? Investment.UserID inv) f (users db)
    /\ forall u, User.set_Balance 0 (f u) = User.set_Balance 0 u.
Proof.
  unfold settle. tx_unfold.
  destruct (First (fun u => User.ID u =? Investment.UserID inv) (users db))
    as [user|] eqn:Hu; [|discriminate].
  destruct (First_some _ _ _ Hu) as [_ Hid]. apply Z.eqb_eq in Hid.
  destruct (First (fun c => Category.ID c =? Investment.CategoryID inv)
                  (categories db)) as [category|]; [|discriminate].
  destruct (First (fun p => Product.ID p =? Investment.ProductID inv)
                  (products db)) as [product|]; [|discriminate].
  destruct (Category.Profit category);
    destruct (Investment.Duration inv <=? Investment.TotalPaid inv + 1);
    cbn [ProfitType_eqb andb]; cbv beta iota;
    intros H; inversion H; subst db'; clear H; db_simpl; rewrite ?Hid;
    first
      [ exists (fun r => r); split;
        [symmetry; apply Updates_id | reflexivity]
      | rewrite Updates_Updates by reflexivity; eexists; split;
        [reflexivity | intros u; reflexivity]
      | eexists; split; [reflexivity | intros u; reflexivity] ].
Qed.

Lemma settle_all_users (clock : nat -> Time) :
  forall (due : list Investment.t) (i : nat) (n : Z) (db : DB),
    map (User.set_Balance 0) (users (snd (settle_all clock i due n db)))
    = map (User.set_Balance 0) (users db)
    /\ forall u,
         In u (users db) ->
         (forall inv, In inv due -> Investment.UserID inv <> User.ID u) ->
         In u (users (snd (settle_all clock i due n db))).
Proof.
  induction due as [|inv rest IH]; intros i n db.
  - cbn. split; [reflexivity | intros u Hu _; exact Hu].
  - cbn [settle_all]. unfold db_Transaction.
    destruct (settle (clock i) inv db) as [[[] db1]|] eqn:Hrun.
    + destruct (settle_users _ _ _ _ Hrun) as [f [Hus Hf]].
      destruct (IH (S i) (n + 1) db1) as [Hcols Hframe].
      split.
      * rewrite Hcols, Hus. unfold Updates. rewrite map_map.
        apply map_ext. intros u. destruct (User.ID u =? _); [apply Hf|].
        reflexivity.
      * intros u Hu Hother. apply Hframe.
        -- rewrite Hus. unfold Updates. apply in_map_iff. exists u.
           split; [|exact Hu].
           destruct (User.ID u =? Investment.UserID inv) eqn:E;
             [|reflexivity].
           apply Z.eqb_eq in E. exfalso.
           apply (Hother inv); [left; reflexivity | symmetry; exact E].
        -- intros inv' Hin. apply Hother. right. exact Hin.
    + destruct (IH (S i) n db) as [Hcols Hframe].
      split; [exact Hcols|].
      intros u Hu Hother. apply Hframe; [exact Hu|].
      intros inv' Hin. apply Hother. right. exact Hin.
Qed.

(** C5 (as the code has it).  (1) When the payment of a pending investment
    is confirmed and the investor's referrer exists, the referrer's balance
    grows by round3(amount * 0.30), the product and the rounding computed
    in float64 as the source computes them; a debit ledger row of type
    "team" records the same amount, and the referrer's spin tickets grow by
    one (from unset to 1) exactly when the amount is at least 100000.
    (2) A callback that is not answered "OK" (the investment is not
    pending, or the payment failed) changes no user and adds no ledger row.
    (3) A scheduler run appends only ledger rows of type "return", moves no
    column of a user but the balance (so no spin ticket), and leaves alone
    every user who owns no due investment: a referrer receives nothing from
    the settlement of an investment of someone else.
    (4) For an amount of at most 1,000,000,000,000.00 the bonus of (1) is
    30% of the amount to the nearest hundredth: it is within half a
    hundredth of 30%, and it is 30% exactly when the amount is a multiple
    of 0.10, which is when 30% of it is a whole number of hundredths. *)
Theorem referral_bonus_at_confirmation_only :
  (forall (now : Time) (payload : KytaCallback) (db : DB)
          (payment : Payment.t) (inv : Investment.t)
          (investor : User.t) (rid : Z) (referrer : User.t),
      TrimSpace (cb_ReferenceID payload) <> "" ->
      isPaid (ToUpper (TrimSpace (cb_Status payload))) = true ->
      First (fun p => (Payment.OrderID p
                       =? TrimSpace (cb_ReferenceID payload))%string)
            (payments db) = Some payment ->
      First (fun r => Investment.ID r =? Payment.InvestmentID payment)
            (investments db) = Some inv ->
      Investment.Status inv = InvStatus.Pending ->
      First (fun u => User.ID u =? Investment.UserID inv) (users db)
      = Some investor ->
      User.ReffBy investor = Some rid ->
      First (fun u => User.ID u =? rid) (users db) = Some referrer ->
      exists db' referrer' trx,
        KytaWebhookHandler now (Some payload) db
        = (mkResp StatusOK true "OK" NoData, db')
        /\ First (fun u => User.ID u =? rid) (users db') = Some referrer'
        /\ User.Balance referrer'
           = User.Balance referrer
             + round3_float64
                 (fmul (float64_of_Money (Investment.Amount inv))
                       (float64_of_decimal 30 100))
        /\ User.SpinTicket referrer'
           = (if rp 100000 <=? Investment.Amount inv
              then Some (match User.SpinTicket referrer with
                         | Some n => n + 1
                         | None => 1
                         end)
              else User.SpinTicket referrer)
        /\ transactions db'
           = Updates (fun t => (Transaction.OrderID t
                                =? Investment.OrderID inv)%string)
                     (Transaction.set_Status Status.Success)
                     (transactions db)
             ++ [trx]
        /\ Transaction.UserID trx = rid
        /\ Transaction.Amount trx
           = round3_float64
               (fmul (float64_of_Money (Investment.Amount inv))
                     (float64_of_decimal 30 100))
        /\ Transaction.TransactionFlow trx = debit
        /\ Transaction.TransactionType trx = "team"
        /\ Transaction.Status trx = Status.Success)
  /\ (forall (now : Time) (payload : option KytaCallback) (db : DB),
        Message (fst (KytaWebhookHandler now payload db)) <> "OK" ->
        users (snd (KytaWebhookHandler now payload db)) = users db
        /\ List.length (transactions (snd (KytaWebhookHandler now payload db)))
           = List.length (transactions db))
  /\ (forall (env : Env) (key : string) (now : Time) (clock : nat -> Time)
             (db : DB),
        (exists added,
            transactions (snd (CronDailyReturnsHandler env key now clock db))
            = transactions db ++ added
            /\ Forall (fun t => Transaction.TransactionType t = "return")
                      added)
        /\ map (User.set_Balance 0)
               (users (snd (CronDailyReturnsHandler env key now clock db)))
           = map (User.set_Balance 0) (users db)
        /\ (forall u,
              In u (users db) ->
              (forall inv, In inv (investments db) -> is_due now inv = true ->
                           Investment.UserID inv <> User.ID u) ->
              In u (users (snd (CronDailyReturnsHandler env key now clock
                                                        db)))))
  /\ (forall amount : Money,
        0 <= amount <= rp 1000000000000 ->
        30 * amount - 50
        <= 100 * round3_float64
                   (fmul (float64_of_Money amount)
                         (float64_of_decimal 30 100))
        <= 30 * amount + 50
        /\ (amount mod 10 = 0 ->
            100 * round3_float64
                    (fmul (float64_of_Money amount)
                          (float64_of_decimal 30 100))
            = 30 * amount)).
Proof.
  split; [|split; [|split]].
  - intros now payload db payment inv investor rid referrer
           Href Hpaid Hpay Hinv Hpending Hinvestor Hreff Hreferrer.
    destruct (webhook_paths now payload db payment Href Hpay)
      as [resp [db' [Hrun [_ Hcase]]]].
    rewrite Hinv, Hpending, Hpaid in Hcase. cbn [InvStatus.eqb] in Hcase.
    destruct Hcase as [-> Hconfirm].
    match type of Hconfirm with
    | confirmPayment ?next inv ?dbp = _ =>
        destruct (confirmPayment_referral next inv dbp investor rid referrer
                    Hinvestor Hreff Hreferrer)
          as [db'' [Hc [referrer' [Hf [Hb [Hsp [trx Htrx]]]]]]]
    end.
    rewrite Hconfirm in Hc. inversion Hc; subst db''.
    exists db', referrer', trx.
    split; [exact Hrun|]. split; [exact Hf|]. split; [exact Hb|].
    split; [exact Hsp|]. exact Htrx.
  - intros now payload db. unfold KytaWebhookHandler.
    destruct payload as [payload|]; [|split; reflexivity].
    destruct (TrimSpace (cb_ReferenceID payload) =? "")%string;
      [split; reflexivity|].
    destruct (First _ (payments db)) as [payment|]; [|split; reflexivity].
    set (dbp := with_payments _ db).
    destruct (First _ (investments dbp)) as [inv|]; [|split; reflexivity].
    destruct (negb _); [split; reflexivity|].
    destruct (isPaid _).
    + destruct (db_Transaction _ dbp). cbn. intros H. contradiction.
    + destruct (cancelPayment_frame inv dbp) as [db' [Hc _]].
      unfold db_Transaction. rewrite Hc. intros _.
      unfold cancelPayment in Hc. revert Hc. tx_unfold. intros Hc.
      inversion Hc; subst db'. cbn. split; [reflexivity|].
      unfold Updates. apply length_map.
  - intros env key now clock db. unfold CronDailyReturnsHandler.
    destruct ((key =? "")%string || negb (key =? CRON_KEY env)%string).
    + cbn. split; [|split; [reflexivity | intros u Hu _; exact Hu]].
      exists []. split; [symmetry; apply app_nil_r | constructor].
    + destruct (settle_all_ledger clock
                  (filter (is_due now) (investments db)) 0%nat 0 db)
        as [added [Ht Hall]].
      destruct (settle_all_users clock
                  (filter (is_due now) (investments db)) 0%nat 0 db)
        as [Hcols Hframe].
      destruct (settle_all clock 0 (filter (is_due now) (investments db)) 0 db)
        as [processed db'].
      cbn [snd] in *.
      split; [exists added; exact (conj Ht Hall)|].
      split; [exact Hcols|].
      intros u Hu Hother. apply Hframe; [exact Hu|].
      intros inv Hin. apply filter_In in Hin. destruct Hin as [Hin Hdue].
      apply Hother; assumption.
  - intros amount Hrange. unfold rp in Hrange.
    pose proof (thirty_percent_nearest amount ltac:(lia)) as Hnear.
    split; [lia|]. intros Hten.
    pose proof (Z.div_mod amount 10 ltac:(lia)). lia.
Qed.


(** ** Gateway failures *)

Lemma token_helper_calls (gw : Gateway) (base id secret tok msg : string)
  (err : option GoError) (calls : list GatewayCall) :
  getKytaAccessTokenSafe gw base id secret = ((tok, msg, err), calls) ->
  (calls = [] /\ failed err = true)
  \/ (exists url credentials,
        calls = [PostAccessToken url credentials]
        /\ call_failed gw (PostAccessToken url credentials) = failed err).
Proof.
  unfold getKytaAccessTokenSafe. destruct (negb (NewRequest_ok _)); intros H.
  - left. inversion H. split; reflexivity.
  - right. inversion H as [[Hr Hc]]. eexists _, _. split; [reflexivity|].
    unfold call_failed. rewrite Hr. reflexivity.
Qed.

Lemma qris_helper_calls (gw : Gateway) (base tok ref : string) (amount : Z)
  (n s f msg : string) (payResp : option KytaPaymentResponse)
  (err : option GoError) (calls : list GatewayCall) :
  createKytaQRISSafe gw base tok ref amount n s f = ((payResp, msg, err), calls) ->
  (calls = [] /\ failed err = true)
  \/ (exists call, calls = [call] /\ call_failed gw call = failed err).
Proof.
  unfold createKytaQRISSafe. destruct (negb (NewRequest_ok _)); intros H.
  - left. inversion H. split; reflexivity.
  - right. inversion H as [[Hr Hc]]. eexists. split; [reflexivity|].
    unfold call_failed. rewrite Hr. reflexivity.
Qed.

Lemma va_helper_calls (gw : Gateway) (base tok ref : string) (amount : Z)
  (bank n s f msg : string) (payResp : option KytaPaymentResponse)
  (err : option GoError) (calls : list GatewayCall) :
  createKytaVASafe gw base tok ref amount bank n s f
  = ((payResp, msg, err), calls) ->
  (calls = [] /\ failed err = true)
  \/ (exists call, calls = [call] /\ call_failed gw call = failed err).
Proof.
  unfold createKytaVASafe. destruct (negb (NewRequest_ok _)); intros H.
  - left. inversion H. split; reflexivity.
  - right. inversion H as [[Hr Hc]]. eexists. split; [reflexivity|].
    unfold call_failed. rewrite Hr. reflexivity.
Qed.

Ltac helper_facts :=
  repeat match goal with
         | H : getKytaAccessTokenSafe _ _ _ _ = _ |- _ =>
             apply token_helper_calls in H;
             destruct H as [[-> ?]|[? [? [-> ?]]]]
         | H : createKytaQRISSafe _ _ _ _ _ _ _ _ = _ |- _ =>
             apply qris_helper_calls in H;
             destruct H as [[-> ?]|[? [-> ?]]]
         | H : createKytaVASafe _ _ _ _ _ _ _ _ _ = _ |- _ =>
             apply va_helper_calls in H;
             destruct H as [[-> ?]|[? [-> ?]]]
         end;
  cbn [failed] in *; try discriminate.

Ltac no_failed_call :=
  let call := fresh "call" in
  let Hin := fresh "Hin" in
  let Hf := fresh "Hf" in
  intros [call [Hin Hf]]; cbn [In app] in Hin;
  repeat match goal with
         | H : _ \/ _ |- _ => destruct H
         | H : False |- _ => contradiction
         end;
  subst; try congruence.

(** C6.  A purchase request, on any input: when a gateway call it made
    failed, the answer is the 400 gateway error and the database is as it
    was; whenever the answer is not 201 the database is as it was; and a
    201 answer means exactly two calls were made, the access token and the
    charge, both read as successes, before one investment (Pending), one
    payment (Pending) and one ledger row (credit, Pending) were added. *)
Theorem purchase_persists_only_after_gateway_success :
  forall (env : Env) (gw : Gateway) (now : Time)
         (req : option CreateInvestmentRequest) (auth : Z * bool) (db : DB),
    let '(resp, db', calls) :=
      CreateInvestmentHandler env gw now req auth db in
    ((exists call, In call calls /\ call_failed gw call = true) ->
     Code resp = StatusBadRequest /\ Success resp = false /\ db' = db)
    /\ (Code resp <> StatusCreated -> db' = db)
    /\ (Code resp = StatusCreated ->
        exists token charge inv payment trx,
          calls = [token; charge]
          /\ call_failed gw token = false
          /\ call_failed gw charge = false
          /\ investments db' = investments db ++ [inv]
          /\ Investment.Status inv = InvStatus.Pending
          /\ payments db' = payments db ++ [payment]
          /\ Payment.Status payment = "Pending"
          /\ transactions db' = transactions db ++ [trx]
          /\ Transaction.TransactionFlow trx = credit
          /\ Transaction.Status trx = Status.Pending).
Proof.
  intros env gw now req auth db. unfold CreateInvestmentHandler.
  split_handler.
  all: try match goal with
    | |- context [db_Transaction (persistPurchase ?a ?b ?c ?d ?e ?f ?g ?h) _] =>
        destruct (persistPurchase_frame a b c d e f g h db)
          as [db' [payment [trx [Hrun Hrows]]]];
        unfold db_Transaction; rewrite Hrun; cbv beta iota
    end.
  all: helper_facts.
  all: (split; [|split]).
  all: try (intros _; reflexivity).
  all: try (cbv [Code gatewayFailure StatusCreated StatusBadRequest
                 StatusUnauthorized StatusInternalServerError];
            let H := fresh in intros H; discriminate H).
  all: try (no_failed_call; repeat split; fail).
  all: try (let H := fresh in intros H; exfalso; apply H; reflexivity).
  all: intros _; destruct Hrows as [Hi [Hp [Hps [Ht [Hf [Hs _]]]]]].
  all: eexists _, _, _, payment, trx; cbn [app].
  all: repeat (split; [first [reflexivity | eassumption]|]); exact Hs.
Qed.

(** ** Validation *)

(** Turn the propositions of a premise into the boolean tests of the
    handler. *)
Ltac to_tests :=
  repeat match goal with
         | H : _ /\ _ |- _ => destruct H
         | H : _ \/ _ |- _ => destruct H
         | H : exists _, _ |- _ => destruct H
         | H : Some _ = Some _ |- _ => inversion H; subst; clear H
         | H : ?a <> _ |- _ =>
             lazymatch type of a with
             | string => apply String.eqb_neq in H
             end
         | H : ?a = _ |- _ =>
             lazymatch type of a with
             | string => apply String.eqb_eq in H
             end
         | H : _ < _ |- _ => apply Z.ltb_lt in H
         | H : _ <= _ |- _ => apply Z.leb_le in H
         end.

(** Close a leaf of the handler whose tests contradict the premise. *)
Ltac refute :=
  to_tests;
  repeat match goal with
         | H : ?b = _, H' : context [?b] |- _ =>
             lazymatch b with
             | true => fail
             | false => fail
             | _ => rewrite H in H'; cbn [andb orb negb] in H'
             end
         end;
  congruence.

(** C7 (as the code has it).  A decoded, authenticated purchase request.
    (1) When the method or the bank channel is invalid, the product is not
    an active product, the user's VIP level is below the product's, or the
    purchase limit is reached, the answer is a 400, nothing is written and
    no gateway call is made.  (2) When the amount is above the QRIS maximum
    or below the bank-transfer minimum, the request is refused, nothing is
    written and no charge is requested: the only call the handler may have
    made is the access-token request, which comes before the amount
    checks.  (3) The refusal by an amount check comes after exactly one
    call, the access-token request, which the gateway answered with a
    token: the handler answers 400 with one of the two amount messages only
    for a product found whose amount is out of the bound of the method,
    the database is as it was, and the calls made are that one request. *)
Theorem purchase_validation_rejects_without_writes :
  forall (env : Env) (gw : Gateway) (now : Time)
         (req : CreateInvestmentRequest) (uid : Z) (db : DB),
    uid <> 0 ->
    let method := ToUpper (TrimSpace (rq_PaymentMethod req)) in
    let channel := ToUpper (TrimSpace (rq_PaymentChannel req)) in
    let found :=
      First (fun p => (Product.ID p =? rq_ProductID req)
                      && Activity_eqb (Product.Status p) Active)
            (products db) in
    let '(resp, db', calls) :=
      CreateInvestmentHandler env gw now (Some req) (uid, true) db in
    (((method <> "QRIS" /\ method <> "BANK")
      \/ (method = "BANK" /\ allowedBank channel = false)
      \/ found = None
      \/ (exists product category user,
            found = Some product
            /\ First (fun c => Category.ID c =? Product.CategoryID product)
                     (categories db) = Some category
            /\ First (fun u => User.ID u =? uid) (users db) = Some user
            /\ (match User.Level user with Some l => l | None => 0 end
                < uint (Product.RequiredVIP product)
                \/ (0 < Product.PurchaseLimit product
                    /\ Product.PurchaseLimit product
                       <= Count (counts_as_purchase uid (Product.ID product))
                                (investments db))))) ->
     Code resp = StatusBadRequest /\ Success resp = false
     /\ db' = db /\ calls = [])
    /\ ((exists product,
           found = Some product
           /\ ((method = "QRIS" /\ rp 10000000 < Product.Amount product)
               \/ (method = "BANK" /\ Product.Amount product < rp 10000))) ->
        Success resp = false /\ db' = db
        /\ forall call, In call calls ->
             exists url credentials, call = PostAccessToken url credentials)
    /\ (refusedByAmount resp = true ->
        Code resp = StatusBadRequest /\ db' = db
        /\ exists product url credentials,
             found = Some product
             /\ ((method = "QRIS" /\ rp 10000000 < Product.Amount product)
                 \/ (method = "BANK" /\ Product.Amount product < rp 10000))
             /\ calls = [PostAccessToken url credentials]
             /\ call_failed gw (PostAccessToken url credentials) = false).
Proof.
  intros env gw now req uid db Huid. cbv zeta.
  apply Z.eqb_neq in Huid.
  unfold CreateInvestmentHandler. rewrite Huid. cbn [negb orb].
  split_handler.
  all: try match goal with
    | |- context [db_Transaction (persistPurchase ?a ?b ?c ?d ?e ?f ?g ?h) _] =>
        destruct (persistPurchase_frame a b c d e f g h db)
          as [db' [payment [trx [Hrun Hrows]]]];
        unfold db_Transaction; rewrite Hrun; cbv beta iota
    end.
  all: helper_facts.
  all: (split; [|split]).
  all: try match goal with
           | |- refusedByAmount _ = true -> _ =>
               let Hm := fresh "Hm" in
               intros Hm; vm_compute in Hm; discriminate Hm
           end.
  all: try (intros _; repeat split; fail).
  all: try (intros _; split; [reflexivity|]; split; [reflexivity|];
            let call := fresh "call" in
            let Hin := fresh "Hin" in
            intros call Hin; cbn [In app] in Hin;
            first [ contradiction
                  | destruct Hin as [<-|[]]; eexists _, _; reflexivity ]).
  all: try (let H := fresh "Hpremise" in intros H; exfalso; refute; fail).
  all: intros _; split; [reflexivity|]; split; [reflexivity|].
  all: eexists _, _, _; split; [reflexivity|].
  all: match goal with
       | H : ((_ =? _)%string && _) = true |- _ =>
           apply andb_prop in H; destruct H as [Hmethod Hamount]
       end.
  all: apply String.eqb_eq in Hmethod.
  all: apply Z.ltb_lt in Hamount.
  all: split; [first [left; split; assumption | right; split; assumption]|].
  all: split; [reflexivity | assumption].
Qed.


(** ** Masking of the payout destination *)

(** The listing and the payout resolve the same destination. *)
Lemma listing_and_payout_agree :
  forall (db : DB) (withdrawal : Withdrawal.t) (row : WithdrawalWithDetails)
         (ba : BankAccount.t),
    joinDetails db withdrawal = Some row ->
    First (fun a => BankAccount.ID a =? Withdrawal.BankAccountID withdrawal)
          (bank_accounts db) = Some ba ->
    let ps := loadPaymentSettings db in
    let bank := First (fun b => Bank.ID b =? BankAccount.BankID ba)
                      (banks db) in
    let shown := maskedResponse ps row in
    let '(bankCode, accountNumber, accountName) :=
      payoutDestination ps withdrawal ba bank in
    let masks :=
      negb (IsUserInWishlist ps (Withdrawal.UserID withdrawal))
      && negb (PaymentSettings.ID ps =? 0)
      && (PaymentSettings.WithdrawAmount ps <=? Withdrawal.Amount withdrawal) in
    wr_AccountNumber shown = accountNumber
    /\ wr_AccountName shown = accountName
    /\ accountName = BankAccount.AccountName ba
    /\ (masks = true ->
        wr_BankName shown = PaymentSettings.BankName ps
        /\ bankCode = PaymentSettings.BankCode ps
        /\ accountNumber = PaymentSettings.AccountNumber ps)
    /\ (masks = false ->
        exists b, bank = Some b
                  /\ wr_BankName shown = Bank.Name b
                  /\ bankCode = Bank.Code b
                  /\ accountNumber = BankAccount.AccountNumber ba).
Proof.
  intros db withdrawal row ba Hrow Hba. cbv zeta.
  unfold joinDetails in Hrow. rewrite Hba in Hrow.
  destruct (First (fun u => User.ID u =? Withdrawal.UserID withdrawal)
                  (users db)) as [u|]; [|discriminate].
  destruct (First (fun b => Bank.ID b =? BankAccount.BankID ba) (banks db))
    as [b|]; [|discriminate].
  inversion Hrow; subst row; clear Hrow.
  unfold maskedResponse, payoutDestination.
  cbn [wd_Withdrawal wd_AccountName wd_AccountNumber wd_BankName].
  destruct (IsUserInWishlist (loadPaymentSettings db)
                             (Withdrawal.UserID withdrawal));
    destruct (PaymentSettings.ID (loadPaymentSettings db) =? 0);
    destruct (PaymentSettings.WithdrawAmount (loadPaymentSettings db)
              <=? Withdrawal.Amount withdrawal);
    cbn; repeat split; try discriminate;
    intros _; exists b; repeat split.
Qed.


(** The payout request of an approval carries the resolved destination. *)
Lemma approve_sends_resolved_destination (env : Env) (gw : Gateway)
  (id : Z) (db : DB) :
  forall url token reference amount description code number name notify,
    In (PostPayout url token reference amount description code number name
                   notify)
       (snd (ApproveWithdrawal env gw (Some id) db)) ->
    exists withdrawal ba,
      First (fun w => Withdrawal.ID w =? id) (withdrawals db)
      = Some withdrawal
      /\ First (fun a => BankAccount.ID a
                         =? Withdrawal.BankAccountID withdrawal)
               (bank_accounts db) = Some ba
      /\ payoutDestination (loadPaymentSettings db) withdrawal ba
           (First (fun b => Bank.ID b =? BankAccount.BankID ba) (banks db))
         = (code, number, name)
      /\ reference = Withdrawal.OrderID withdrawal
      /\ amount = int64 (Withdrawal.FinalAmount withdrawal).
Proof.
  intros url token reference amount description code number name notify.
  unfold ApproveWithdrawal.
  destruct (First (fun w => Withdrawal.ID w =? id) (withdrawals db))
    as [withdrawal|] eqn:Hw; [|intros []].
  destruct (negb _); [intros []|].
  destruct (First (fun _ => true) (settings db)) as [setting|]; [|intros []].
  destruct (negb (Setting.AutoWithdraw setting)).
  { destruct (db_Transaction _ db). intros []. }
  destruct (First _ (bank_accounts db)) as [ba|] eqn:Hba; [|intros []].
  destruct (payoutDestination _ withdrawal ba _) as [[bankCode accNumber] accName]
    eqn:Hdest.
  split_handler;
    try match goal with
        | |- context [db_Transaction ?c ?d] => destruct (db_Transaction c d)
        end;
    cbn [snd In]; intros Hin;
    repeat match goal with
           | H : _ \/ _ |- _ => destruct H
           | H : False |- _ => contradiction
           | H : PostAccessToken _ _ = PostPayout _ _ _ _ _ _ _ _ _ |- _ =>
               discriminate H
           | H : PostPayout _ _ _ _ _ _ _ _ _ = PostPayout _ _ _ _ _ _ _ _ _
             |- _ => inversion H; subst; clear H
           end;
    exists withdrawal, ba; repeat split; first [reflexivity | assumption].
Qed.

(** C9 (as the code has it).  (1) A withdrawal, its joined listing row and
    its bank account: the listing and the payout mask under the same test
    (settings row present, user not on the exemption list, amount at least
    the threshold).  When the test holds both put the house's account
    number and the house's bank (its name in the listing, its code in the
    payout) in place of the user's, and both keep the user's own account
    name; otherwise both show the user's bank, number and name.  The
    account number and the account name of the listing are those of the
    payout.  (2) The payout request an approval sends carries that resolved
    destination. *)
Theorem masking_same_for_listing_and_payout :
  (forall (db : DB) (withdrawal : Withdrawal.t) (row : WithdrawalWithDetails)
          (ba : BankAccount.t),
      joinDetails db withdrawal = Some row ->
      First (fun a => BankAccount.ID a =? Withdrawal.BankAccountID withdrawal)
            (bank_accounts db) = Some ba ->
      let ps := loadPaymentSettings db in
      let bank := First (fun b => Bank.ID b =? BankAccount.BankID ba)
                        (banks db) in
      let shown := maskedResponse ps row in
      let '(bankCode, accountNumber, accountName) :=
        payoutDestination ps withdrawal ba bank in
      let masks :=
        negb (IsUserInWishlist ps (Withdrawal.UserID withdrawal))
        && negb (PaymentSettings.ID ps =? 0)
        && (PaymentSettings.WithdrawAmount ps
            <=? Withdrawal.Amount withdrawal) in
      wr_AccountNumber shown = accountNumber
      /\ wr_AccountName shown = accountName
      /\ accountName = BankAccount.AccountName ba
      /\ (masks = true ->
          wr_BankName shown = PaymentSettings.BankName ps
          /\ bankCode = PaymentSettings.BankCode ps
          /\ accountNumber = PaymentSettings.AccountNumber ps)
      /\ (masks = false ->
          exists b, bank = Some b
                    /\ wr_BankName shown = Bank.Name b
                    /\ bankCode = Bank.Code b
                    /\ accountNumber = BankAccount.AccountNumber ba))
  /\ (forall (env : Env) (gw : Gateway) (id : Z) (db : DB)
             (url token reference : string) (amount : Z)
             (description code number name notify : string),
        In (PostPayout url token reference amount description code number
                       name notify)
           (snd (ApproveWithdrawal env gw (Some id) db)) ->
        exists withdrawal ba,
          First (fun w => Withdrawal.ID w =? id) (withdrawals db)
          = Some withdrawal
          /\ First (fun a => BankAccount.ID a
                             =? Withdrawal.BankAccountID withdrawal)
                   (bank_accounts db) = Some ba
          /\ payoutDestination (loadPaymentSettings db) withdrawal ba
               (First (fun b => Bank.ID b =? BankAccount.BankID ba) (banks db))
             = (code, number, name)).
Proof.
  split.
  - exact listing_and_payout_agree.
  - intros env gw id db url token reference amount description code number
           name notify Hin.
    destruct (approve_sends_resolved_destination env gw id db _ _ _ _ _ _ _ _ _
                Hin) as [withdrawal [ba [Hw [Hba [Hdest _]]]]].
    exists withdrawal, ba. repeat split; assumption.
Qed.

(** * Further properties *)

(** ** Withdrawals: rejection *)

Lemma Withdrawal_eqb_Pending (s : Status.t) :
  Status.eqb s Status.Pending = true <-> s = Status.Pending.
Proof. destruct s; simpl; split; intros H; congruence. Qed.

(** X1.  Rejecting a pending withdrawal whose user exists: the withdrawal and the
    ledger rows of its order id become Failed, the user gets the whole
    amount back (the gross amount, charge included), and nothing else
    changes. *)
Theorem reject_refunds_whole_amount :
  forall (id : Z) (db : DB) (withdrawal : Withdrawal.t) (user : User.t),
    First (fun w => Withdrawal.ID w =? id) (withdrawals db) = Some withdrawal ->
    Withdrawal.Status withdrawal = Status.Pending ->
    First (fun u => User.ID u =? Withdrawal.UserID withdrawal) (users db)
    = Some user ->
    exists db',
      RejectWithdrawal (Some id) db
      = (mkResp StatusOK true "Penarikan berhasil ditolak"
                (IdStatus (Withdrawal.ID withdrawal) Status.Failed), db')
      /\ First (fun w => Withdrawal.ID w =? id) (withdrawals db')
         = Some (Withdrawal.set_Status Status.Failed withdrawal)
      /\ First (fun u => User.ID u =? Withdrawal.UserID withdrawal) (users db')
         = Some (User.set_Balance
                   (User.Balance user + Withdrawal.Amount withdrawal) user)
      /\ transactions db'
         = Updates (fun t => (Transaction.OrderID t
                              =? Withdrawal.OrderID withdrawal)%string)
                   (Transaction.set_Status Status.Failed) (transactions db)
      /\ investments db' = investments db
      /\ payments db' = payments db.
Proof.
  intros id db withdrawal user Hw Hpending Hu.
  unfold RejectWithdrawal. rewrite Hw, Hpending. cbn [Status.eqb negb].
  unfold db_Transaction, markRejected. tx_unfold. db_simpl. rewrite Hu.
  eexists. split; [reflexivity|]. db_simpl. cbn [withdrawals].
  destruct (First_some _ _ _ Hw) as [_ Hid]. apply Z.eqb_eq in Hid.
  destruct (First_some _ _ _ Hu) as [_ Huid].
  repeat split.
  - apply (First_Save Withdrawal.ID _ _ withdrawal);
      [exact Hw | reflexivity | simpl; rewrite Hid; apply Z.eqb_refl].
  - apply (First_Save User.ID _ _ user);
      [exact Hu | reflexivity | exact Huid].
Qed.

(** X2.  Rejecting a pending withdrawal whose user row is missing: the answer is
    a 500 and the whole rejection is rolled back; the withdrawal stays
    Pending. *)
Theorem reject_without_user_rolls_back :
  forall (id : Z) (db : DB) (withdrawal : Withdrawal.t),
    First (fun w => Withdrawal.ID w =? id) (withdrawals db) = Some withdrawal ->
    Withdrawal.Status withdrawal = Status.Pending ->
    First (fun u => User.ID u =? Withdrawal.UserID withdrawal) (users db)
    = None ->
    RejectWithdrawal (Some id) db
    = (serverError "Gagal mengambil data pengguna", db).
Proof.
  intros id db withdrawal Hw Hpending Hu.
  unfold RejectWithdrawal. rewrite Hw, Hpending. cbn [Status.eqb negb].
  unfold db_Transaction, markRejected. tx_unfold. db_simpl. rewrite Hu.
  reflexivity.
Qed.

(** ** Withdrawals: approval *)

(** The outcomes of an approval. *)
Lemma approve_outcome :
  forall (env : Env) (gw : Gateway) (id : option Z) (db : DB),
    let '(resp, db', calls) := ApproveWithdrawal env gw id db in
    (Code resp <> StatusOK -> db' = db)
    /\ (List.length calls <= 2)%nat
    /\ (Code resp = StatusOK ->
        exists wid withdrawal setting,
          id = Some wid
          /\ First (fun w => Withdrawal.ID w =? wid) (withdrawals db)
             = Some withdrawal
          /\ Withdrawal.Status withdrawal = Status.Pending
          /\ First (fun _ => true) (settings db) = Some setting
          /\ withdrawals db'
             = Save Withdrawal.ID
                    (Withdrawal.set_Status Status.Success withdrawal)
                    (withdrawals db)
          /\ transactions db'
             = Updates (fun t => (Transaction.OrderID t
                                  =? Withdrawal.OrderID withdrawal)%string)
                       (Transaction.set_Status Status.Success)
                       (transactions db)
          /\ users db' = users db
          /\ if Setting.AutoWithdraw setting
             then exists url credentials payoutURL token description
                         code number name,
                 calls = [PostAccessToken url credentials;
                          PostPayout payoutURL token
                            (Withdrawal.OrderID withdrawal)
                            (int64 (Withdrawal.FinalAmount withdrawal))
                            description code number name
                            (CALLBACK_WITHDRAW env)]
             else calls = []).
Proof.
  intros env gw id db. unfold ApproveWithdrawal.
  unfold db_Transaction, markApproved. tx_unfold.
  split_handler.
  all: cbn [Code serverError StatusOK StatusNotFound
            StatusInternalServerError List.length].
  all: (split; [first [intros _; reflexivity | intros H; exfalso; apply H;
                                               reflexivity]|]).
  all: (split; [lia|]).
  all: try (intros H; discriminate H).
  all: intros _.
  all: match goal with
       | Hs : negb (Status.eqb (Withdrawal.Status ?w) Status.Pending) = false
         |- _ =>
           apply negb_false_iff in Hs; apply Withdrawal_eqb_Pending in Hs
       end.
  all: eexists _, _, _.
  all: db_simpl; cbn [withdrawals].
  all: (split; [reflexivity|]).
  all: (split; [eassumption|]).
  all: (split; [assumption|]).
  all: (split; [first [eassumption | reflexivity]|]).
  all: (split; [reflexivity|]); (split; [reflexivity|]);
       (split; [reflexivity|]).
  all: match goal with
       | H : negb (Setting.AutoWithdraw ?s) = _ |- _ =>
           destruct (Setting.AutoWithdraw s); try discriminate H
       end.
  all: first [reflexivity | eexists _, _, _, _, _, _, _, _; reflexivity].
Qed.

(** X3.  An approval writes only when it answers 200: every refusal and every
    gateway failure leaves the database as it was.  A 200 means the
    withdrawal was Pending and is now Success with the ledger rows of its
    order id; with auto_withdraw off no request was sent, with auto_withdraw
    on exactly the token request and one payout request were sent, the
    payout for the whole rupiah of the final amount (the amount less the
    charge) under the withdrawal's order id.  No approval sends more than
    two requests. *)
Theorem approve_writes_only_on_success :
  forall (env : Env) (gw : Gateway) (id : option Z) (db : DB),
    let '(resp, db', calls) := ApproveWithdrawal env gw id db in
    (Code resp <> StatusOK -> db' = db)
    /\ (List.length calls <= 2)%nat
    /\ (Code resp = StatusOK ->
        exists wid withdrawal setting,
          id = Some wid
          /\ First (fun w => Withdrawal.ID w =? wid) (withdrawals db)
             = Some withdrawal
          /\ Withdrawal.Status withdrawal = Status.Pending
          /\ First (fun _ => true) (settings db) = Some setting
          /\ withdrawals db'
             = Save Withdrawal.ID
                    (Withdrawal.set_Status Status.Success withdrawal)
                    (withdrawals db)
          /\ transactions db'
             = Updates (fun t => (Transaction.OrderID t
                                  =? Withdrawal.OrderID withdrawal)%string)
                       (Transaction.set_Status Status.Success)
                       (transactions db)
          /\ users db' = users db
          /\ if Setting.AutoWithdraw setting
             then exists url credentials payoutURL token description
                         code number name,
                 calls = [PostAccessToken url credentials;
                          PostPayout payoutURL token
                            (Withdrawal.OrderID withdrawal)
                            (int64 (Withdrawal.FinalAmount withdrawal))
                            description code number name
                            (CALLBACK_WITHDRAW env)]
             else calls = []).
Proof. exact approve_outcome. Qed.

Lemma reopened_row (w : Withdrawal.t) :
  Withdrawal.Status w = Status.Pending ->
  Withdrawal.set_Status Status.Pending
    (Withdrawal.set_Status Status.Success w) = w.
Proof. destruct w; cbn. intros ->. reflexivity. Qed.

(** The row an approved withdrawal is looked up as afterwards. *)
Lemma approve_ok_row (env : Env) (gw : Gateway) (id : Z) (db db' : DB)
  (resp : APIResponse) (calls : list GatewayCall) :
  ApproveWithdrawal env gw (Some id) db = (resp, db', calls) ->
  Code resp = StatusOK ->
  exists withdrawal,
    First (fun w => Withdrawal.ID w =? id) (withdrawals db) = Some withdrawal
    /\ Withdrawal.Status withdrawal = Status.Pending
    /\ withdrawals db'
       = Save Withdrawal.ID (Withdrawal.set_Status Status.Success withdrawal)
              (withdrawals db)
    /\ First (fun w => Withdrawal.ID w =? id) (withdrawals db')
       = Some (Withdrawal.set_Status Status.Success withdrawal)
    /\ users db' = users db.
Proof.
  intros Hrun Hok.
  pose proof (approve_outcome env gw (Some id) db) as H.
  rewrite Hrun in H. destruct H as [_ [_ H]].
  destruct (H Hok) as [wid [withdrawal [setting [Hid [Hw [Hp [_ [Hws [_ [Hu _]]]]]]]]]].
  inversion Hid; subst wid.
  exists withdrawal. repeat split; try assumption.
  rewrite Hws.
  destruct (First_some _ _ _ Hw) as [_ Heq]. apply Z.eqb_eq in Heq.
  apply (First_Save Withdrawal.ID _ _ withdrawal);
    [exact Hw | reflexivity | simpl; rewrite Heq; apply Z.eqb_refl].
Qed.

(** X4.  An approved withdrawal is closed: a second approval sends no request
    (no second payout) and a rejection refunds nothing; both are refused
    and change nothing. *)
Theorem approved_withdrawal_is_final :
  forall (env : Env) (gw : Gateway) (id : Z) (db db' : DB)
         (resp : APIResponse) (calls : list GatewayCall),
    ApproveWithdrawal env gw (Some id) db = (resp, db', calls) ->
    Code resp = StatusOK ->
    (forall env' gw',
        ApproveWithdrawal env' gw' (Some id) db'
        = (serverError
             "Hanya penarikan dengan status Pending yang dapat disetujui",
           db', []))
    /\ RejectWithdrawal (Some id) db'
       = (serverError
            "Hanya penarikan dengan status Pending yang dapat ditolak", db').
Proof.
  intros env gw id db db' resp calls Hrun Hok.
  destruct (approve_ok_row env gw id db db' resp calls Hrun Hok)
    as [withdrawal [_ [_ [_ [Hrow _]]]]].
  split.
  - intros env' gw'. unfold ApproveWithdrawal. rewrite Hrow. reflexivity.
  - unfold RejectWithdrawal. rewrite Hrow. reflexivity.
Qed.

(** X5.  A rejected withdrawal is closed: it cannot be approved (no payout of a
    refunded withdrawal) nor rejected again (no second refund). *)
Theorem rejected_withdrawal_is_final :
  forall (id : Z) (db db' : DB) (resp : APIResponse),
    RejectWithdrawal (Some id) db = (resp, db') ->
    Code resp = StatusOK ->
    (forall env gw,
        ApproveWithdrawal env gw (Some id) db'
        = (serverError
             "Hanya penarikan dengan status Pending yang dapat disetujui",
           db', []))
    /\ RejectWithdrawal (Some id) db'
       = (serverError
            "Hanya penarikan dengan status Pending yang dapat ditolak", db').
Proof.
  intros id db db' resp Hrun Hok.
  assert (Hrow : exists withdrawal,
             First (fun w => Withdrawal.ID w =? id) (withdrawals db')
             = Some (Withdrawal.set_Status Status.Failed withdrawal)).
  { revert Hrun. unfold RejectWithdrawal.
    destruct (First (fun w => Withdrawal.ID w =? id) (withdrawals db))
      as [withdrawal|] eqn:Hw.
    2: { intros H. inversion H; subst. discriminate Hok. }
    destruct (negb (Status.eqb (Withdrawal.Status withdrawal) Status.Pending)).
    { intros H. inversion H; subst. discriminate Hok. }
    unfold db_Transaction, markRejected. tx_unfold. db_simpl.
    destruct (First (fun u => User.ID u =? Withdrawal.UserID withdrawal)
                    (users db)) as [user|].
    2: { intros H. inversion H; subst. discriminate Hok. }
    intros H. inversion H; subst. exists withdrawal. db_simpl.
    cbn [withdrawals].
    destruct (First_some _ _ _ Hw) as [_ Heq]. apply Z.eqb_eq in Heq.
    apply (First_Save Withdrawal.ID _ _ withdrawal);
      [exact Hw | reflexivity | simpl; rewrite Heq; apply Z.eqb_refl]. }
  destruct Hrow as [withdrawal Hrow].
  split.
  - intros env gw. unfold ApproveWithdrawal. rewrite Hrow. reflexivity.
  - unfold RejectWithdrawal. rewrite Hrow. reflexivity.
Qed.

(** X6.  A failed payout reopens the withdrawal: after an approval, a payout
    callback for its order id with a status other than Success puts back
    the very row that was approved, Pending again, so it can be approved
    or rejected anew; the user's balance is not touched by either step. *)
Theorem failed_payout_reopens_withdrawal :
  forall (env : Env) (gw : Gateway) (id : Z) (db db1 : DB)
         (resp : APIResponse) (calls : list GatewayCall)
         (withdrawal : Withdrawal.t) (payload : PayoutCallback),
    ApproveWithdrawal env gw (Some id) db = (resp, db1, calls) ->
    Code resp = StatusOK ->
    First (fun w => Withdrawal.ID w =? id) (withdrawals db) = Some withdrawal ->
    First (fun w => (Withdrawal.OrderID w =? Withdrawal.OrderID withdrawal)%string)
          (withdrawals db) = Some withdrawal ->
    pc_ReferenceID payload = Withdrawal.OrderID withdrawal ->
    pc_ReferenceID payload <> "" ->
    pc_Status payload <> "Success" ->
    exists resp2 db2,
      KytaPayoutWebhookHandler (Some payload) db1 = (resp2, db2)
      /\ Code resp2 = StatusOK
      /\ First (fun w => Withdrawal.ID w =? id) (withdrawals db2)
         = Some withdrawal
      /\ Withdrawal.Status withdrawal = Status.Pending
      /\ users db2 = users db
      /\ (forall t, In t (transactions db2) ->
                    Transaction.OrderID t = Withdrawal.OrderID withdrawal ->
                    Transaction.Status t = Status.Pending).
Proof.
  intros env gw id db db1 resp calls withdrawal payload
         Hrun Hok Hw Hfirst Href Hne Hst.
  destruct (approve_ok_row env gw id db db1 resp calls Hrun Hok)
    as [w [Hw' [Hpending [Hws [Hrow Hu]]]]].
  rewrite Hw in Hw'. inversion Hw'; subst w. clear Hw'.
  destruct (First_some _ _ _ Hw) as [_ Heq]. apply Z.eqb_eq in Heq.
  assert (Hbyorder :
    First (fun w => (Withdrawal.OrderID w =? pc_ReferenceID payload)%string)
          (withdrawals db1)
    = Some (Withdrawal.set_Status Status.Success withdrawal)).
  { rewrite Href, Hws.
    apply (First_Save Withdrawal.ID _ _ withdrawal);
      [exact Hfirst | reflexivity | simpl; apply String.eqb_refl]. }
  apply String.eqb_neq in Hne. apply String.eqb_neq in Hst.
  unfold KytaPayoutWebhookHandler. rewrite Hne, Hst, Hbyorder.
  unfold db_Transaction, revertToPending. tx_unfold.
  eexists _, _. split; [reflexivity|]. db_simpl. cbn [withdrawals].
  split; [reflexivity|]. split.
  { rewrite (First_Save Withdrawal.ID _ _
               (Withdrawal.set_Status Status.Success withdrawal)
               _ Hrow);
      [ | reflexivity | simpl; rewrite Heq; apply Z.eqb_refl].
    f_equal. apply reopened_row. exact Hpending. }
  split; [exact Hpending|]. split; [exact Hu|].
  intros t Ht Ho. apply In_Updates in Ht. destruct Ht as [r [_ ->]].
  destruct (Transaction.OrderID r =? _)%string eqn:E.
  - reflexivity.
  - exfalso. apply String.eqb_neq in E. apply E. exact Ho.
Qed.

(** ** The purchase webhook, further *)

(** X7.  A failure callback for a pending investment cancels it: the investment
    becomes Cancelled, the ledger rows of its order id Failed, no user is
    touched.  The cancellation is final: any later callback for the same
    order id, a success included, is answered "Ignored" and activates
    nothing. *)
Theorem failed_payment_cancels_for_good :
  forall (now1 now2 : Time) (first second : KytaCallback) (db : DB)
         (payment : Payment.t) (inv : Investment.t),
    TrimSpace (cb_ReferenceID first) <> "" ->
    TrimSpace (cb_ReferenceID second) = TrimSpace (cb_ReferenceID first) ->
    isPaid (ToUpper (TrimSpace (cb_Status first))) = false ->
    First (fun p => (Payment.OrderID p
                     =? TrimSpace (cb_ReferenceID first))%string)
          (payments db) = Some payment ->
    First (fun r => Investment.ID r =? Payment.InvestmentID payment)
          (investments db) = Some inv ->
    Investment.Status inv = InvStatus.Pending ->
    exists db1 db2,
      KytaWebhookHandler now1 (Some first) db
      = (mkResp StatusOK true "Failed updated" NoData, db1)
      /\ investments db1
         = Updates (fun r => Investment.ID r =? Investment.ID inv)
                   (Investment.set_Status InvStatus.Cancelled)
                   (investments db)
      /\ transactions db1
         = Updates (fun t => (Transaction.OrderID t
                              =? Investment.OrderID inv)%string)
                   (Transaction.set_Status Status.Failed) (transactions db)
      /\ users db1 = users db
      /\ KytaWebhookHandler now2 (Some second) db1
         = (mkResp StatusOK true "Ignored" NoData, db2)
      /\ users db2 = users db
      /\ investments db2 = investments db1
      /\ transactions db2 = transactions db1.
Proof.
  intros now1 now2 first second db payment inv
         Href Hsame Hpaid Hpay Hinv Hpending.
  destruct (webhook_paths now1 first db payment Href Hpay)
    as [resp [db1 [Hrun1 [Hp1 Hcase1]]]].
  rewrite Hinv, Hpending, Hpaid in Hcase1. cbn [InvStatus.eqb] in Hcase1.
  rewrite Hpaid in Hp1.
  destruct Hcase1 as [-> Hcancel].
  set (dbp := with_payments
                (Updates (fun p => Payment.ID p =? Payment.ID payment)
                   (recordOutcome (TrimSpace (cb_ID first)) false)) db) in *.
  assert (Hdb1 : investments db1
                 = Updates (fun r => Investment.ID r =? Investment.ID inv)
                     (Investment.set_Status InvStatus.Cancelled)
                     (investments db)
                 /\ transactions db1
                    = Updates (fun t => (Transaction.OrderID t
                                         =? Investment.OrderID inv)%string)
                        (Transaction.set_Status Status.Failed)
                        (transactions db)
                 /\ users db1 = users db).
  { revert Hcancel. unfold cancelPayment. tx_unfold. intros H.
    inversion H; subst db1. repeat split. }
  destruct Hdb1 as [Hinvs [Htrx Husers]].
  assert (Hinv1 :
    First (fun r => Investment.ID r =? Payment.InvestmentID payment)
          (investments db1)
    = Some (Investment.set_Status InvStatus.Cancelled inv)).
  { rewrite Hinvs. rewrite First_Updates by (intros; reflexivity).
    rewrite Hinv. cbn [option_map]. rewrite Z.eqb_refl. reflexivity. }
  set (payment1 := recordOutcome (TrimSpace (cb_ID first)) false payment).
  assert (Hpay1 :
    First (fun p => (Payment.OrderID p
                     =? TrimSpace (cb_ReferenceID second))%string)
          (payments db1) = Some payment1).
  { rewrite Hsame, Hp1. apply webhook_payment_after. exact Hpay. }
  assert (Href2 : TrimSpace (cb_ReferenceID second) <> "").
  { rewrite Hsame. exact Href. }
  assert (Hkey : Payment.InvestmentID payment1 = Payment.InvestmentID payment).
  { apply recordOutcome_keys. }
  rewrite <- Hkey in Hinv1.
  destruct (webhook_not_pending now2 second db1 payment1
              (Investment.set_Status InvStatus.Cancelled inv)
              Href2 Hpay1 Hinv1)
    as [db2 [Hrun2 [Hi2 [Ht2 Hu2]]]].
  { cbn. discriminate. }
  exists db1, db2. repeat split; try assumption.
  rewrite Hu2. exact Husers.
Qed.

(** X8.  Confirming a payment recomputes the investor's VIP level: for an
    investment of a locked category the amount is added to total_invest_vip
    and the level becomes calculateVIPLevel of the new total, whatever the
    level was; for any other category neither the VIP total nor the level
    changes.  total_invest grows by the amount in both cases. *)
Theorem confirmation_recomputes_vip_level :
  forall (now : Time) (payload : KytaCallback) (db : DB)
         (payment : Payment.t) (inv : Investment.t) (investor : User.t),
    TrimSpace (cb_ReferenceID payload) <> "" ->
    isPaid (ToUpper (TrimSpace (cb_Status payload))) = true ->
    First (fun p => (Payment.OrderID p
                     =? TrimSpace (cb_ReferenceID payload))%string)
          (payments db) = Some payment ->
    First (fun r => Investment.ID r =? Payment.InvestmentID payment)
          (investments db) = Some inv ->
    Investment.Status inv = InvStatus.Pending ->
    First (fun u => User.ID u =? Investment.UserID inv) (users db)
    = Some investor ->
    exists db' investor',
      KytaWebhookHandler now (Some payload) db
      = (mkResp StatusOK true "OK" NoData, db')
      /\ First (fun u => User.ID u =? Investment.UserID inv) (users db')
         = Some investor'
      /\ User.TotalInvest investor'
         = User.TotalInvest investor + Investment.Amount inv
      /\ User.TotalInvestVIP investor'
         = (if inLockedCategory db inv
            then User.TotalInvestVIP investor + Investment.Amount inv
            else User.TotalInvestVIP investor)
      /\ User.Level investor'
         = (if inLockedCategory db inv
            then Some (calculateVIPLevel
                         (User.TotalInvestVIP investor
                          + Investment.Amount inv))
            else User.Level investor).
Proof.
  intros now payload db payment inv investor
         Href Hpaid Hpay Hinv Hpending Hinvestor.
  destruct (webhook_paths now payload db payment Href Hpay)
    as [resp [db' [Hrun [_ Hcase]]]].
  rewrite Hinv, Hpending, Hpaid in Hcase. cbn [InvStatus.eqb] in Hcase.
  destruct Hcase as [-> Hconfirm].
  match type of Hconfirm with
  | confirmPayment ?next inv ?dbp = _ =>
      destruct (confirmPayment_investor next inv dbp investor Hinvestor)
        as [db'' [Hc [investor' [Hf [Ht [Hv Hl]]]]]]
  end.
  rewrite Hconfirm in Hc. inversion Hc; subst db''.
  exists db', investor'. repeat split; assumption.
Qed.

(** X9.  The error paths of the purchase webhook.  Without a decoded body, with
    an empty reference id or with an order id that has no payment row, the
    answer is an error and the database is as it was.  With a payment row
    whose investment is missing the answer is 404, and yet the payment row
    has been rewritten; nothing else has. *)
Theorem webhook_error_paths :
  forall (now : Time) (payload : option KytaCallback) (db : DB),
    let '(resp, db') := KytaWebhookHandler now payload db in
    (forall p, payload = Some p ->
               TrimSpace (cb_ReferenceID p) <> "" ->
               First (fun r => (Payment.OrderID r
                                =? TrimSpace (cb_ReferenceID p))%string)
                     (payments db) = None ->
               Code resp = StatusNotFound /\ db' = db)
    /\ ((payload = None
         \/ exists p, payload = Some p /\ TrimSpace (cb_ReferenceID p) = "") ->
        Code resp = StatusBadRequest /\ db' = db)
    /\ (forall p payment,
          payload = Some p ->
          TrimSpace (cb_ReferenceID p) <> "" ->
          First (fun r => (Payment.OrderID r
                           =? TrimSpace (cb_ReferenceID p))%string)
                (payments db) = Some payment ->
          First (fun r => Investment.ID r =? Payment.InvestmentID payment)
                (investments db) = None ->
          Code resp = StatusNotFound
          /\ db' = with_payments
                     (Updates (fun r => Payment.ID r =? Payment.ID payment)
                        (recordOutcome
                           (TrimSpace (cb_ID p))
                           (isPaid (ToUpper (TrimSpace (cb_Status p))))))
                     db).
Proof.
  intros now payload db.
  destruct (KytaWebhookHandler now payload db) as [resp db'] eqn:Hrun.
  split; [|split].
  - intros p -> Href Hnone. apply String.eqb_neq in Href.
    revert Hrun. unfold KytaWebhookHandler. rewrite Href, Hnone.
    intros H. inversion H. split; reflexivity.
  - intros [-> | [p [-> Href]]]; revert Hrun; unfold KytaWebhookHandler.
    + intros H. inversion H. split; reflexivity.
    + rewrite Href. cbn [String.eqb]. intros H. inversion H.
      split; reflexivity.
  - intros p payment -> Href Hpay Hnone.
    destruct (webhook_paths now p db payment Href Hpay)
      as [resp1 [db1 [Hrun1 [_ Hcase]]]].
    rewrite Hnone in Hcase. destruct Hcase as [-> ->].
    rewrite Hrun in Hrun1. inversion Hrun1. split; reflexivity.
Qed.

(** ** The scheduler, further *)

(** X10.  The scheduler's key check: a request whose X-CRON-KEY differs from
    CRON_KEY is refused, and when CRON_KEY is not set every request is
    refused, the one without a key included.  A refusal changes nothing. *)
Theorem scheduler_refuses_without_matching_key :
  forall (env : Env) (key : string) (now : Time) (clock : nat -> Time)
         (db : DB),
    (CRON_KEY env = "" \/ key <> CRON_KEY env) ->
    CronDailyReturnsHandler env key now clock db
    = (mkResp StatusUnauthorized false "Unauthorized" NoData, db).
Proof.
  intros env key now clock db H. unfold CronDailyReturnsHandler.
  assert (E : ((key =? "")%string || negb (key =? CRON_KEY env)%string)
              = true).
  { destruct (key =? "")%string eqn:Hk; [reflexivity|]. cbn [orb].
    apply negb_true_iff. apply String.eqb_neq.
    destruct H as [H | H]; [|exact H].
    rewrite H. apply String.eqb_neq. exact Hk. }
  rewrite E. reflexivity.
Qed.

(** One settlement of an investment of an unlocked category. *)
Lemma settle_unlocked (nowTime : Time) (inv : Investment.t) (db : DB)
  (category : Category.t) (user : User.t) :
  settles db inv = true ->
  First (fun u => User.ID u =? Investment.UserID inv) (users db) = Some user ->
  First (fun c => Category.ID c =? Investment.CategoryID inv) (categories db)
  = Some category ->
  Category.Profit category = unlocked ->
  exists db' profit,
    settle nowTime inv db = Some (tt, db')
    /\ Transaction.Amount profit = Investment.DailyProfit inv
    /\ Transaction.UserID profit = Investment.UserID inv
    /\ Transaction.TransactionFlow profit = debit
    /\ Transaction.TransactionType profit = "return"
    /\ Transaction.Status profit = Status.Success
    /\ let credited :=
         round3 (User.Balance user + Investment.DailyProfit inv) in
       if Investment.Duration inv <=? Investment.TotalPaid inv + 1 then
         exists principal,
           transactions db' = transactions db ++ [profit; principal]
           /\ Transaction.Amount principal = Investment.Amount inv
           /\ Transaction.UserID principal = Investment.UserID inv
           /\ Transaction.TransactionFlow principal = debit
           /\ Transaction.TransactionType principal = "return"
           /\ Transaction.Status principal = Status.Success
           /\ First (fun u => User.ID u =? Investment.UserID inv) (users db')
              = Some (User.set_Balance
                        (round3 (credited + Investment.Amount inv)) user)
       else
         transactions db' = transactions db ++ [profit]
         /\ First (fun u => User.ID u =? Investment.UserID inv) (users db')
            = Some (User.set_Balance credited user).
Proof.
  unfold settles, settle. tx_unfold.
  intros Hs Hu Hc Hl. rewrite Hu, Hc in *. rewrite Hl.
  destruct (First_some _ _ _ Hu) as [_ Hid].
  destruct (First (fun p => Product.ID p =? Investment.ProductID inv)
                  (products db)) as [product|]; [|discriminate].
  destruct (Investment.Duration inv <=? Investment.TotalPaid inv + 1);
    cbn [ProfitType_eqb andb]; cbv beta iota;
    eexists _, (Transaction.set_ID _
                  (Transaction.mk 0 (Investment.UserID inv)
                     (Investment.DailyProfit inv) 0 _ debit "return" _
                     Status.Success));
    (split; [reflexivity|]); db_simpl;
    do 5 (split; [reflexivity|]).
  - eexists (Transaction.set_ID _
               (Transaction.mk 0 (Investment.UserID inv)
                  (Investment.Amount inv) 0 _ debit "return" _
                  Status.Success)).
    rewrite <- app_assoc. cbn [app].
    split; [reflexivity|].
    do 5 (split; [reflexivity|]).
    rewrite !First_Updates by (intros; reflexivity).
    rewrite Hu. cbn [option_map]. rewrite !Z.eqb_refl. db_simpl.
    rewrite ?Z.eqb_refl. reflexivity.
  - split; [reflexivity|].
    rewrite !First_Updates by (intros; reflexivity).
    rewrite Hu. cbn [option_map]. rewrite Z.eqb_refl. reflexivity.
Qed.

(** X11.  An investment of an unlocked category with periods left, settled at the
    successive [times] (amounts and balance not negative): every
    settlement writes one ledger row of the daily profit, the last period
    adds one row of the principal, and the investor's balance has grown by
    exactly the sum of those rows. *)
Theorem unlocked_profit_paid_each_period :
  forall (times : list Time) (id : Z) (db db' : DB) (inv : Investment.t)
         (category : Category.t) (user : User.t),
    First (fun r => Investment.ID r =? id) (investments db) = Some inv ->
    First (fun c => Category.ID c =? Investment.CategoryID inv)
          (categories db) = Some category ->
    Category.Profit category = unlocked ->
    First (fun u => User.ID u =? Investment.UserID inv) (users db)
    = Some user ->
    Investment.TotalPaid inv < Investment.Duration inv ->
    0 <= User.Balance user ->
    0 <= Investment.DailyProfit inv ->
    0 <= Investment.Amount inv ->
    settle_passes times id db = Some db' ->
    let left := Investment.Duration inv - Investment.TotalPaid inv in
    let passes := Z.of_nat (List.length times) in
    passes <= left
    /\ exists user' added,
         First (fun u => User.ID u =? Investment.UserID inv) (users db')
         = Some user'
         /\ transactions db' = transactions db ++ added
         /\ map Transaction.Amount added
            = repeat (Investment.DailyProfit inv) (List.length times)
              ++ (if passes =? left then [Investment.Amount inv] else [])
         /\ Forall (fun t => Transaction.UserID t = Investment.UserID inv
                             /\ Transaction.TransactionFlow t = debit
                             /\ Transaction.TransactionType t = "return"
                             /\ Transaction.Status t = Status.Success)
                   added
         /\ User.Balance user'
            = User.Balance user + passes * Investment.DailyProfit inv
              + (if passes =? left then Investment.Amount inv else 0).
Proof.
  induction times as [|now later IH];
    intros id db db' inv category user Hrow Hcat Hunlocked Huser Hleft
           Hbal Hdaily Hamount Hrun left passes.
  - cbn in Hrun. inversion Hrun; subst db'. subst left passes.
    cbn [List.length Z.of_nat repeat app].
    split; [lia|]. exists user, [].
    assert (E : (0 =? Investment.Duration inv - Investment.TotalPaid inv)
                = false) by (apply Z.eqb_neq; lia).
    rewrite E. split; [exact Huser|]. split; [symmetry; apply app_nil_r|].
    split; [reflexivity|]. split; [constructor | lia].
  - cbn [settle_passes] in Hrun. rewrite Hrow in Hrun.
    destruct (is_due now inv) eqn:Hdue; [|discriminate].
    destruct (settle now inv db) as [[u db1]|] eqn:Hsettle; [|discriminate].
    pose proof (settle_succeeds_settles now inv db db1 u Hsettle) as Hs.
    destruct (settle_unlocked now inv db category user Hs Huser Hcat
                Hunlocked)
      as [dbl [profit [Hrunl [Hpa [Hpu [Hpf [Hpt [Hps Hstep]]]]]]]].
    destruct (settle_Some now inv db Hs)
      as [dbs [Hruns [Hc [_ [_ [_ [Hi _]]]]]]].
    rewrite Hsettle in Hrunl, Hruns.
    inversion Hrunl; subst dbl. inversion Hruns; subst dbs.
    clear Hrunl Hruns.
    assert (Hrow1 :
      First (fun r => Investment.ID r =? id) (investments db1)
      = Some (settlementUpdates (Investment.TotalPaid inv + 1)
                (round3 (Investment.TotalReturned inv
                         + Investment.DailyProfit inv))
                now (now + 24 * Hour)
                (Investment.Duration inv <=? Investment.TotalPaid inv + 1)
                inv)).
    { rewrite Hi, First_Updates
        by (intros r; rewrite settlementUpdates_ID; reflexivity).
      rewrite Hrow. cbn [option_map].
      destruct (First_some _ _ _ Hrow) as [_ E]. apply Z.eqb_eq in E.
      rewrite E, Z.eqb_refl. reflexivity. }
    subst left passes. cbn [List.length]. rewrite Nat2Z.inj_succ.
    cbv zeta in Hstep.
    rewrite (round3_nonneg (User.Balance user + Investment.DailyProfit inv))
      in Hstep by lia.
    destruct (Investment.Duration inv <=? Investment.TotalPaid inv + 1)
      eqn:Hcomp.
    + apply Z.leb_le in Hcomp.
      destruct later as [|now' later].
      2: { cbn [settle_passes] in Hrun. rewrite Hrow1 in Hrun.
           cbn in Hrun. discriminate. }
      cbn in Hrun. inversion Hrun; subst db'. cbn [List.length Z.of_nat].
      split; [lia|].
      destruct Hstep as [principal [Ht [Hqa [Hqu [Hqf [Hqt [Hqs Hu1]]]]]]].
      rewrite round3_nonneg in Hu1 by lia.
      eexists _, [profit; principal]. split; [exact Hu1|].
      split; [exact Ht|].
      assert (E : (Z.succ 0 =? Investment.Duration inv
                               - Investment.TotalPaid inv) = true)
        by (apply Z.eqb_eq; lia).
      rewrite E. cbn [map repeat app]. rewrite Hpa, Hqa.
      split; [reflexivity|]. split.
      { repeat constructor; assumption. }
      cbn [User.Balance User.set_Balance]. lia.
    + apply Z.leb_gt in Hcomp. destruct Hstep as [Ht Hu1].
      assert (Hcat1 :
        First (fun c => Category.ID c
                        =? Investment.CategoryID
                             (settlementUpdates (Investment.TotalPaid inv + 1)
                                (round3 (Investment.TotalReturned inv
                                         + Investment.DailyProfit inv))
                                now (now + 24 * Hour) false inv))
              (categories db1) = Some category).
      { rewrite Hc. exact Hcat. }
      specialize (IH id db1 db' _ category _ Hrow1 Hcat1 Hunlocked Hu1).
      cbn in IH.
      specialize (IH ltac:(lia) ltac:(lia) Hdaily Hamount Hrun).
      destruct IH as [Hle [user' [added [Hfu [Hta [Hma [Hfa Hba]]]]]]].
      split; [lia|].
      exists user', (profit :: added).
      split; [exact Hfu|]. split.
      { rewrite Hta, Ht, <- app_assoc. reflexivity. }
      assert (E : (Z.succ (Z.of_nat (List.length later))
                   =? Investment.Duration inv - Investment.TotalPaid inv)
                  = (Z.of_nat (List.length later)
                     =? Investment.Duration inv
                        - (Investment.TotalPaid inv + 1))).
      { destruct (Z.eqb_spec (Z.of_nat (List.length later))
                             (Investment.Duration inv
                              - (Investment.TotalPaid inv + 1)));
          [apply Z.eqb_eq | apply Z.eqb_neq]; lia. }
      rewrite E. split.
      { cbn [map repeat app]. rewrite Hpa, Hma. reflexivity. }
      split.
      { constructor; [repeat split; assumption | exact Hfa]. }
      rewrite Hba.
      destruct (Z.of_nat (List.length later)
                =? Investment.Duration inv - (Investment.TotalPaid inv + 1));
        lia.
Qed.

Lemma settlementUpdates_TotalPaid (paid : Z) (returned : Money)
  (nowTime nextTime : Time) (completes : bool) (r : Investment.t) :
  Investment.TotalPaid
    (settlementUpdates paid returned nowTime nextTime completes r) = paid.
Proof. unfold settlementUpdates. destruct completes; reflexivity. Qed.

(** A pass settles each row of its snapshot at most once, and counts the
    rows it settled. *)
Lemma settle_all_once (clock : nat -> Time) :
  forall (due : list Investment.t) (i : nat) (n : Z) (db : DB),
    NoDup (map Investment.ID due) ->
    (forall s r, In s due -> In r (investments db) ->
                 Investment.ID r = Investment.ID s -> r = s) ->
    exists G,
      investments (snd (settle_all clock i due n db))
      = map G (investments db)
      /\ fst (settle_all clock i due n db)
         = n + Z.of_nat (List.length (filter (settles db) due))
      /\ forall r, In r (investments db) ->
           G r = r
           \/ (In r due
               /\ Investment.TotalPaid (G r) = Investment.TotalPaid r + 1
               /\ Investment.ID (G r) = Investment.ID r).
Proof.
  induction due as [|inv rest IH]; intros i n db Hnd Hsame.
  - exists (fun r => r). cbn. split; [symmetry; apply map_id|].
    split; [lia|]. intros r _. left. reflexivity.
  - cbn [map] in Hnd. inversion Hnd as [|y ys Hnotin Hnd']; subst.
    cbn [settle_all filter]. unfold db_Transaction.
    destruct (settles db inv) eqn:Hs.
    + destruct (settle_Some (clock i) inv db Hs)
        as [db1 [Hrun [Hc [Hp [_ [_ [Hi [[q [f [Hf Hu]]] _]]]]]]]].
      rewrite Hrun.
      set (F := settlementUpdates (Investment.TotalPaid inv + 1)
                  (round3 (Investment.TotalReturned inv
                           + Investment.DailyProfit inv))
                  (clock i) (clock i + 24 * Hour)
                  (Investment.Duration inv <=? Investment.TotalPaid inv + 1))
        in *.
      destruct (IH (S i) (n + 1) db1 Hnd') as [G [Hm [Hn HG]]].
      { intros s r Hs' Hr Hid. rewrite Hi in Hr. apply In_Updates in Hr.
        destruct Hr as [r0 [Hr0 ->]].
        destruct (Investment.ID r0 =? Investment.ID inv) eqn:E.
        - exfalso. apply Hnotin. apply Z.eqb_eq in E.
          unfold F in Hid. rewrite settlementUpdates_ID in Hid.
          rewrite <- E, Hid. apply in_map. exact Hs'.
        - apply Hsame; [right; exact Hs' | exact Hr0 | exact Hid]. }
      exists (fun r => G (if Investment.ID r =? Investment.ID inv
                          then F r else r)).
      split.
      { rewrite Hm, Hi. unfold Updates. rewrite map_map. reflexivity. }
      split.
      { rewrite Hn. cbn [List.length]. rewrite Nat2Z.inj_succ.
        rewrite (filter_ext (settles db1) (settles db)
                   (fun s => settles_stable db db1 q f s Hf Hu Hc Hp)).
        lia. }
      intros r Hr. destruct (Investment.ID r =? Investment.ID inv) eqn:E.
      * apply Z.eqb_eq in E.
        assert (r = inv) by (apply Hsame; [left; reflexivity|exact Hr|exact E]).
        subst r. right.
        assert (HF : In (F inv) (investments db1)).
        { rewrite Hi. unfold Updates. apply in_map_iff. exists inv.
          rewrite Z.eqb_refl. split; [reflexivity | exact Hr]. }
        destruct (HG (F inv) HF) as [HGr | [Hin _]].
        -- rewrite HGr. split; [left; reflexivity|]. unfold F.
           rewrite settlementUpdates_TotalPaid, settlementUpdates_ID.
           split; reflexivity.
        -- exfalso. apply Hnotin.
           replace (Investment.ID inv) with (Investment.ID (F inv))
             by (unfold F; apply settlementUpdates_ID).
           apply in_map. exact Hin.
      * assert (Hr1 : In r (investments db1)).
        { rewrite Hi. unfold Updates. apply in_map_iff. exists r.
          rewrite E. split; [reflexivity | exact Hr]. }
        destruct (HG r Hr1) as [HGr | [Hin Hrest]]; [left; exact HGr|].
        right. split; [right; exact Hin | exact Hrest].
    + rewrite (settle_None (clock i) inv db Hs).
      destruct (IH (S i) n db Hnd') as [G [Hm [Hn HG]]].
      { intros s r Hs' Hr Hid.
        apply Hsame; [right; exact Hs' | exact Hr | exact Hid]. }
      exists G. split; [exact Hm|]. split; [exact Hn|].
      intros r Hr. destruct (HG r Hr) as [HGr | [Hin Hrest]];
        [left; exact HGr|].
      right. split; [right; exact Hin | exact Hrest].
Qed.

(** X12.  One run of the scheduler over a table with distinct primary keys: no
    row is added or removed; a row that is not due (not Running, next
    return in the future or unset, or already paid in full) is left exactly
    as it was, so a Pending, Suspended, Cancelled or Completed investment
    earns nothing; a due row is settled at most once, however long it has
    been overdue; and the run reports the number of due rows whose user,
    category and product exist. *)
Theorem scheduler_settles_due_rows_once :
  forall (env : Env) (key : string) (now : Time) (clock : nat -> Time)
         (db : DB),
    NoDup (map Investment.ID (investments db)) ->
    key <> "" -> key = CRON_KEY env ->
    exists G,
      investments (snd (CronDailyReturnsHandler env key now clock db))
      = map G (investments db)
      /\ Data (fst (CronDailyReturnsHandler env key now clock db))
         = Processed
             (Z.of_nat (List.length
                (filter (fun r => is_due now r && settles db r)
                        (investments db))))
      /\ forall r, In r (investments db) ->
           (is_due now r = false -> G r = r)
           /\ (G r = r
               \/ (Investment.TotalPaid (G r) = Investment.TotalPaid r + 1
                   /\ Investment.ID (G r) = Investment.ID r)).
Proof.
  intros env key now clock db Hnd Hkey Heq.
  unfold CronDailyReturnsHandler.
  apply String.eqb_neq in Hkey. rewrite Hkey.
  rewrite <- Heq, String.eqb_refl. cbn [negb orb].
  destruct (settle_all_once clock (filter (is_due now) (investments db))
              0%nat 0 db) as [G [Hm [Hn HG]]].
  - apply NoDup_map_filter. exact Hnd.
  - intros s r Hs Hr Hid. apply filter_In in Hs. destruct Hs as [Hin _].
    apply (NoDup_map_unique Investment.ID (investments db)); assumption.
  - destruct (settle_all clock 0 (filter (is_due now) (investments db)) 0 db)
      as [processed db'].
    cbn [fst snd Data] in *. exists G. split; [exact Hm|]. split.
    + rewrite Hn. cbn [Z.add]. f_equal. f_equal. f_equal.
      clear. induction (investments db) as [|r t IH]; [reflexivity|].
      cbn [filter]. destruct (is_due now r); cbn [andb filter];
        [destruct (settles db r)|]; rewrite IH; reflexivity.
    + intros r Hr. destruct (HG r Hr) as [HGr | [Hin [Hp Hid]]].
      * split; [intros _; exact HGr | left; exact HGr].
      * apply filter_In in Hin. destruct Hin as [_ Hdue]. split.
        -- intros Hnot. rewrite Hnot in Hdue. discriminate.
        -- right. split; assumption.
Qed.

(** ** Purchase, further *)

(** The rows the purchase closure writes. *)
Lemma persistPurchase_rows (now : Time) (method channel referenceID : string)
  (payResp : KytaPaymentResponse) (product : Product.t) (uid : Z)
  (inv : Investment.t) (db : DB) :
  let iid := NextID (map Investment.ID (investments db)) in
  exists db' payment,
    persistPurchase now method channel referenceID payResp product uid inv db
    = Some (Investment.set_ID iid inv, db')
    /\ investments db' = investments db ++ [Investment.set_ID iid inv]
    /\ payments db' = payments db ++ [payment]
    /\ Payment.ID payment = NextID (map Payment.ID (payments db))
    /\ Payment.InvestmentID payment = iid
    /\ Payment.OrderID payment = Investment.OrderID inv
    /\ Payment.ReferenceID payment = Some referenceID
    /\ Payment.PaymentMethod payment = Some (ToUpper method)
    /\ Payment.PaymentChannel payment
       = (if (ToUpper method =? "BANK")%string then Some channel else None)
    /\ Payment.Status payment = "Pending"
    /\ Payment.ExpiredAt payment <> None
    /\ transactions db'
       = transactions db
         ++ [Transaction.mk (NextID (map Transaction.ID (transactions db)))
               uid (Investment.Amount inv) 0 (Investment.OrderID inv) credit
               "investment"
               (Some (String.append "Investasi " (Product.Name product)))
               Status.Pending]
    /\ users db' = users db
    /\ products db' = products db
    /\ categories db' = categories db.
Proof.
  intros iid.
  assert (Hfresh : forall code,
    Updates (fun p => Payment.ID p =? NextID (map Payment.ID (payments db)))
            (Payment.set_PaymentCode (Some code)) (payments db)
    = payments db).
  { intros code. apply Updates_none. intros r Hr. apply Z.eqb_neq.
    pose proof (NextID_fresh (map Payment.ID (payments db)) (Payment.ID r)
                  (in_map Payment.ID _ _ Hr)). lia. }
  unfold persistPurchase. tx_unfold. db_simpl.
  set (pc := if (method =? "QRIS")%string then _ else _).
  set (ex := if negb (TrimSpace (pr_ExpiresAt payResp) =? "")%string
             then _ else _).
  assert (Hex : ex <> None).
  { subst ex.
    destruct (negb (TrimSpace (pr_ExpiresAt payResp) =? "")%string);
      [destruct (parseTimeFlexible _)|]; discriminate. }
  clearbody ex.
  destruct pc as [code|]; [destruct (negb (code =? "")%string)|];
    cbv beta iota; db_simpl;
    (eexists _, _; split; [reflexivity|]); db_simpl;
    (split; [reflexivity|]);
    (split; [first [reflexivity
                   | rewrite Updates_app, Hfresh; cbn [Updates map];
                     cbn [Payment.ID Payment.set_ID]; rewrite Z.eqb_refl;
                     reflexivity]|]);
    cbn [Payment.ID Payment.set_ID Payment.InvestmentID Payment.OrderID
         Payment.ReferenceID Payment.PaymentMethod Payment.PaymentChannel
         Payment.Status Payment.ExpiredAt Payment.set_PaymentCode
         Investment.ID Investment.set_ID Investment.OrderID
         Investment.Amount Transaction.set_ID];
    repeat split; try reflexivity; exact Hex.
Qed.

(** What a purchase answered 201 has written. *)
Lemma purchase_outcome :
  forall (env : Env) (gw : Gateway) (now : Time)
         (req : CreateInvestmentRequest) (auth : Z * bool) (db : DB),
    let '(resp, db', calls) :=
      CreateInvestmentHandler env gw now (Some req) auth db in
    Code resp = StatusCreated ->
    exists product category payment,
      let orderID :=
        GenerateOrderID (fst auth) (List.length (transactions db)) in
      let inv :=
        Investment.mk (NextID (map Investment.ID (investments db)))
          (fst auth) (Product.ID product) (Product.CategoryID product)
          (Product.Amount product) (Product.DailyProfit product)
          (Product.Duration product) 0 0 None None orderID
          InvStatus.Pending in
      First (fun p => (Product.ID p =? rq_ProductID req)
                      && Activity_eqb (Product.Status p) Active)
            (products db) = Some product
      /\ First (fun c => Category.ID c =? Product.CategoryID product)
               (categories db) = Some category
      /\ investments db' = investments db ++ [inv]
      /\ payments db' = payments db ++ [payment]
      /\ Payment.InvestmentID payment = Investment.ID inv
      /\ Payment.OrderID payment = orderID
      /\ Payment.ReferenceID payment = Some orderID
      /\ Payment.Status payment = "Pending"
      /\ Payment.ExpiredAt payment <> None
      /\ ((Payment.PaymentMethod payment = Some "QRIS"
           /\ Payment.PaymentChannel payment = None)
          \/ (Payment.PaymentMethod payment = Some "BANK"
              /\ Payment.PaymentChannel payment
                 = Some (ToUpper (TrimSpace (rq_PaymentChannel req)))))
      /\ transactions db'
         = transactions db
           ++ [Transaction.mk (NextID (map Transaction.ID (transactions db)))
                 (fst auth) (Product.Amount product) 0 orderID credit
                 "investment"
                 (Some (String.append "Investasi " (Product.Name product)))
                 Status.Pending]
      /\ users db' = users db
      /\ Data resp
         = Purchase orderID (Product.Amount product) (Product.Name product)
             (Category.Name category) (Product.CategoryID product)
             (Product.Duration product) (Product.DailyProfit product)
             InvStatus.Pending.
Proof.
  intros env gw now req auth db. unfold CreateInvestmentHandler.
  split_handler.
  all: try match goal with
    | |- context [db_Transaction (persistPurchase ?a ?b ?c ?d ?e ?f ?g ?h) _] =>
        destruct (persistPurchase_rows a b c d e f g h db)
          as [db' [payment [Hrun Hrows]]];
        unfold db_Transaction; rewrite Hrun; cbv beta iota
    end.
  all: try (cbv [Code gatewayFailure StatusCreated StatusBadRequest
                 StatusUnauthorized StatusInternalServerError];
            let H := fresh in intros H; discriminate H).
  all: intros _.
  all: destruct Hrows
         as [Hi [Hp [_ [Hpi [Hpo [Hpr [Hpm [Hpc [Hps [Hpe [Ht [Hu _]]]]]]]]]]]].
  all: subst auth; eexists _, _, payment; cbn [fst].
  all: cbn [Investment.set_ID Investment.ID Investment.UserID
            Investment.ProductID Investment.CategoryID Investment.Amount
            Investment.DailyProfit Investment.Duration Investment.TotalPaid
            Investment.TotalReturned Investment.LastReturnAt
            Investment.NextReturnAt Investment.OrderID Investment.Status
            Data] in *.
  all: try match goal with
         | H : negb false && negb (_ =? "BANK")%string = false |- _ =>
             cbn [negb andb] in H; apply negb_false_iff in H
         end.
  all: repeat match goal with
         | H : (?m =? _)%string = true |- _ =>
             apply String.eqb_eq in H; rewrite H in *
         end.
  all: try change (ToUpper "QRIS") with "QRIS" in *.
  all: try change (ToUpper "BANK") with "BANK" in *.
  all: try change ("QRIS" =? "BANK")%string with false in *.
  all: try change ("BANK" =? "BANK")%string with true in *.
  all: cbv iota in Hpc.
  all: repeat (split; [first [reflexivity | eassumption]|]).
  all: try reflexivity.
  all: (split; [first [left; split; assumption | right; split; assumption]|]).
  all: repeat (split; [first [reflexivity | eassumption]|]).
  all: reflexivity.
Qed.

(** X13.  A purchase answered 201 wrote three rows that belong together: the
    investment copies the product (amount, daily profit, duration) with
    nothing paid yet and no return scheduled; the payment points to the
    investment; investment, payment and ledger row carry the same fresh
    order id, which is also the reference id sent to the gateway and the
    order id of the answer; the payment has an expiry time and stores the
    bank channel for BANK only. *)
Theorem purchase_rows_share_order_id :
  forall (env : Env) (gw : Gateway) (now : Time)
         (req : CreateInvestmentRequest) (auth : Z * bool) (db : DB),
    let '(resp, db', calls) :=
      CreateInvestmentHandler env gw now (Some req) auth db in
    Code resp = StatusCreated ->
    exists product category payment,
      let orderID :=
        GenerateOrderID (fst auth) (List.length (transactions db)) in
      let inv :=
        Investment.mk (NextID (map Investment.ID (investments db)))
          (fst auth) (Product.ID product) (Product.CategoryID product)
          (Product.Amount product) (Product.DailyProfit product)
          (Product.Duration product) 0 0 None None orderID
          InvStatus.Pending in
      First (fun p => (Product.ID p =? rq_ProductID req)
                      && Activity_eqb (Product.Status p) Active)
            (products db) = Some product
      /\ First (fun c => Category.ID c =? Product.CategoryID product)
               (categories db) = Some category
      /\ investments db' = investments db ++ [inv]
      /\ payments db' = payments db ++ [payment]
      /\ Payment.InvestmentID payment = Investment.ID inv
      /\ Payment.OrderID payment = orderID
      /\ Payment.ReferenceID payment = Some orderID
      /\ Payment.Status payment = "Pending"
      /\ Payment.ExpiredAt payment <> None
      /\ ((Payment.PaymentMethod payment = Some "QRIS"
           /\ Payment.PaymentChannel payment = None)
          \/ (Payment.PaymentMethod payment = Some "BANK"
              /\ Payment.PaymentChannel payment
                 = Some (ToUpper (TrimSpace (rq_PaymentChannel req)))))
      /\ transactions db'
         = transactions db
           ++ [Transaction.mk (NextID (map Transaction.ID (transactions db)))
                 (fst auth) (Product.Amount product) 0 orderID credit
                 "investment"
                 (Some (String.append "Investasi " (Product.Name product)))
                 Status.Pending]
      /\ users db' = users db
      /\ Data resp
         = Purchase orderID (Product.Amount product) (Product.Name product)
             (Category.Name category) (Product.CategoryID product)
             (Product.Duration product) (Product.DailyProfit product)
             InvStatus.Pending.
Proof. exact purchase_outcome. Qed.

(** The ledger after the confirming closure: the rows of the order id are
    Success; at most the bonus row is added. *)
Lemma confirmPayment_ledger (next : Time) (inv : Investment.t) (db db' : DB) :
  confirmPayment next inv db = Some (tt, db') ->
  exists added,
    transactions db'
    = Updates (fun t => (Transaction.OrderID t
                         =? Investment.OrderID inv)%string)
              (Transaction.set_Status Status.Success) (transactions db)
      ++ added.
Proof.
  unfold confirmPayment. tx_unfold.
  split_matches; intros E; inversion E; subst db'; db_simpl;
    first [ eexists; reflexivity
          | exists []; symmetry; apply app_nil_r ].
Qed.

Lemma First_app_fresh {A : Type} (p : A -> bool) (l : list A) (x : A) :
  (forall r, In r l -> p r = false) -> p x = true ->
  First p (l ++ [x]) = Some x.
Proof.
  intros Hl Hx. unfold First. induction l as [|r l IH]; cbn.
  - rewrite Hx. reflexivity.
  - rewrite (Hl r (or_introl eq_refl)). apply IH.
    intros r' Hr'. apply Hl. right. exact Hr'.
Qed.

(** X14.  Purchase, then payment.  When the order id generated for the purchase
    is new among the payments (and is what the gateway sends back, not
    empty and without surrounding blanks), a callback that reports the
    payment of that order id activates exactly the investment just
    created: it runs, its first return is due 24 hours after the callback,
    and the ledger row of the purchase is Success. *)
Theorem purchase_then_payment_activates :
  forall (env : Env) (gw : Gateway) (now later : Time)
         (req : CreateInvestmentRequest) (auth : Z * bool) (db db1 : DB)
         (resp : APIResponse) (calls : list GatewayCall)
         (payload : KytaCallback),
    let orderID := GenerateOrderID (fst auth) (List.length (transactions db)) in
    CreateInvestmentHandler env gw now (Some req) auth db
    = (resp, db1, calls) ->
    Code resp = StatusCreated ->
    orderID <> "" ->
    (forall p, In p (payments db) -> Payment.OrderID p <> orderID) ->
    TrimSpace (cb_ReferenceID payload) = orderID ->
    isPaid (ToUpper (TrimSpace (cb_Status payload))) = true ->
    exists db2 inv2 trx2,
      KytaWebhookHandler later (Some payload) db1
      = (mkResp StatusOK true "OK" NoData, db2)
      /\ investments db2 = investments db ++ [inv2]
      /\ Investment.OrderID inv2 = orderID
      /\ Investment.UserID inv2 = fst auth
      /\ Investment.Status inv2 = InvStatus.Running
      /\ Investment.LastReturnAt inv2 = None
      /\ Investment.NextReturnAt inv2 = Some (later + 24 * Hour)
      /\ Investment.TotalPaid inv2 = 0
      /\ In trx2 (transactions db2)
      /\ Transaction.OrderID trx2 = orderID
      /\ Transaction.TransactionType trx2 = "investment"
      /\ Transaction.Status trx2 = Status.Success.
Proof.
  intros env gw now later req auth db db1 resp calls payload orderID
         Hrun Hcreated Hne Hfresh Href Hpaid.
  pose proof (purchase_outcome env gw now req auth db) as H.
  rewrite Hrun in H.
  destruct (H Hcreated)
    as [product [category [payment
         [_ [_ [Hi [Hp [Hpi [Hpo [_ [_ [_ [_ [Ht _]]]]]]]]]]]]]].
  cbv zeta in *. fold orderID in Hi, Hpo, Ht.
  set (inv := Investment.mk (NextID (map Investment.ID (investments db)))
                (fst auth) (Product.ID product) (Product.CategoryID product)
                (Product.Amount product) (Product.DailyProfit product)
                (Product.Duration product) 0 0 None None orderID
                InvStatus.Pending) in *.
  assert (Hpay : First (fun p => (Payment.OrderID p
                                  =? TrimSpace (cb_ReferenceID payload))%string)
                       (payments db1) = Some payment).
  { rewrite Href, Hp. apply First_app_fresh.
    - intros r Hr. apply String.eqb_neq. apply Hfresh. exact Hr.
    - apply String.eqb_eq. exact Hpo. }
  assert (Hold : forall r, In r (investments db) ->
                           (Investment.ID r =? Investment.ID inv) = false).
  { intros r Hr. apply Z.eqb_neq.
    pose proof (NextID_fresh (map Investment.ID (investments db))
                  (Investment.ID r) (in_map Investment.ID _ _ Hr)).
    unfold inv. cbn [Investment.ID]. lia. }
  assert (Hinv : First (fun r => Investment.ID r =? Payment.InvestmentID payment)
                       (investments db1) = Some inv).
  { rewrite Hpi, Hi. apply First_app_fresh; [exact Hold|].
    apply Z.eqb_refl. }
  assert (Href' : TrimSpace (cb_ReferenceID payload) <> "").
  { rewrite Href. exact Hne. }
  destruct (webhook_paths later payload db1 payment Href' Hpay)
    as [resp2 [db2 [Hrun2 [_ Hcase]]]].
  rewrite Hinv, Hpaid in Hcase. cbn [InvStatus.eqb inv Investment.Status] in Hcase.
  destruct Hcase as [-> Hconfirm].
  match type of Hconfirm with
  | confirmPayment ?next inv ?dbp = _ =>
      destruct (confirmPayment_frame next inv dbp)
        as [db2' [Hc [_ [_ [_ [_ Hinvs]]]]]];
      destruct (confirmPayment_ledger next inv dbp db2 Hconfirm)
        as [added Htrx]
  end.
  rewrite Hconfirm in Hc. inversion Hc; subst db2'. clear Hc.
  eexists db2, _, _. split; [exact Hrun2|]. split.
  { rewrite Hinvs. cbn [investments with_payments]. rewrite Hi.
    rewrite Updates_app, (Updates_none _ _ (investments db)) by exact Hold.
    cbn [Updates map]. rewrite Z.eqb_refl. reflexivity. }
  cbn [Investment.OrderID Investment.UserID Investment.Status
       Investment.LastReturnAt Investment.NextReturnAt Investment.TotalPaid
       Investment.set_Returns Investment.set_Status inv].
  do 6 (split; [reflexivity|]).
  split.
  { rewrite Htrx. apply in_or_app. left.
    cbn [transactions with_payments]. rewrite Ht, Updates_app.
    apply in_or_app. right. cbn [Updates map Transaction.OrderID inv
                                 Investment.OrderID].
    rewrite String.eqb_refl. left. reflexivity. }
  cbn. repeat split.
Qed.

(** ** Helpers *)

(** X15.  calculateVIPLevel is monotone: a larger locked total never gives a
    lower level.  The level is between 0 and 5, at least 1 exactly from a
    total of 50000, and 5 exactly from 150000000. *)
Theorem vip_level_monotone :
  forall (a b : Money),
    a <= b ->
    calculateVIPLevel a <= calculateVIPLevel b
    /\ 0 <= calculateVIPLevel a <= 5
    /\ (1 <= calculateVIPLevel a <-> rp 50000 <= a)
    /\ (calculateVIPLevel a = 5 <-> rp 150000000 <= a).
Proof.
  intros a b Hab. unfold calculateVIPLevel, rp.
  repeat match goal with
         | |- context [?x <=? ?y] => destruct (Z.leb_spec x y)
         end; lia.
Qed.

(** X16.  round3 on whole hundredths.  For a float64 that holds an amount
    of a decimal(15,2) column, which is at most 9,999,999,999,999.99,
    round3 computed in float64, int(f*100+0.5), is the amount in
    hundredths.  For the float64 sum of two amounts, and for the float64
    product of an amount and a whole number, it is the sum and the
    product, when they fit the column.  These are the values [round3]
    takes in this development. *)
Theorem round3_whole_hundredths :
  (forall m : Money,
      0 <= m <= 999999999999999 ->
      round3_float64 (float64_of_Money m) = round3 m)
  /\ (forall m x : Money,
        0 <= m -> 0 <= x -> m + x <= 999999999999999 ->
        round3_float64 (fadd (float64_of_Money m) (float64_of_Money x))
        = round3 (m + x))
  /\ (forall (m : Money) (n : Z),
        0 <= m -> 0 < n <= 999999999999999 -> m * n <= 999999999999999 ->
        round3_float64 (fmul (float64_of_Money m) (float64_of_Z n))
        = round3 (m * n)).
Proof.
  split; [|split].
  - intros m Hm. rewrite round3_nonneg by lia.
    apply round3_float64_whole. exact Hm.
  - intros m x Hm Hx Hsum. rewrite round3_nonneg by lia.
    apply round3_float64_sum; assumption.
  - intros m n Hm Hn Hprod. rewrite round3_nonneg by nia.
    apply round3_float64_times; assumption.
Qed.

(** ** Gateway helpers *)

Lemma token_answer_result (gw : Gateway) (call : GatewayCall) :
  let '(token, msg, err) := readTokenAnswer gw call in
  (err = None <-> token <> "") /\ (err = None -> msg = "").
Proof.
  unfold readTokenAnswer.
  destruct (answer_token gw call) as [reason| |code raw [r|]];
    try (split; [split; [discriminate | intros H; exfalso; apply H;
                                         reflexivity]
                | discriminate]).
  - destruct (negb (code =? StatusOK));
      [split; [split; [discriminate | intros H; exfalso; apply H;
                                       reflexivity]
              | discriminate]|].
    destruct (negb (tk_ResponseCode r =? "")%string && _ && _ && _)%bool;
      [split; [split; [discriminate | intros H; exfalso; apply H;
                                       reflexivity]
              | discriminate]|].
    destruct (tk_AccessToken r =? "")%string eqn:E.
    + split; [split; [discriminate | intros H; exfalso; apply H;
                                      reflexivity]
             | discriminate].
    + apply String.eqb_neq in E. split; [split|]; intros; try reflexivity.
      exact E.
  - destruct (negb (code =? StatusOK));
      split; try split; try discriminate; intros H; exfalso; apply H;
      reflexivity.
Qed.

Lemma payment_answer_result (gw : Gateway) (call : GatewayCall)
  (fallback literal : string) :
  let '(resp, msg, err) := readPaymentAnswer gw call fallback literal in
  (err = None <-> resp <> None) /\ (err = None -> msg = "").
Proof.
  unfold readPaymentAnswer.
  destruct (answer_payment gw call) as [reason| |code raw [r|]];
    try (split; [split; [discriminate | intros H; exfalso; apply H;
                                         reflexivity]
                | discriminate]).
  - destruct (negb (code =? StatusOK));
      [split; [split; [discriminate | intros H; exfalso; apply H;
                                       reflexivity]
              | discriminate]|].
    destruct (negb (pr_ResponseCode r =? "")%string && _ && _ && _)%bool;
      [split; [split; [discriminate | intros H; exfalso; apply H;
                                       reflexivity]
              | discriminate]|].
    split; [split|]; intros; try reflexivity. discriminate.
  - destruct (negb (code =? StatusOK));
      split; try split; try discriminate; intros H; exfalso; apply H;
      reflexivity.
Qed.

(** X17.  The gateway helpers return a result exactly when they return no error:
    the token helper never returns an empty token without an error, and
    the two charge helpers return a response exactly when the error is
    nil.  With no error the message is empty and exactly one request was
    sent; no helper ever sends more than one. *)
Theorem gateway_helpers_result_iff_no_error :
  (forall (gw : Gateway) (base id secret : string),
      let '((token, msg, err), calls) :=
        getKytaAccessTokenSafe gw base id secret in
      (err = None <-> token <> "")
      /\ (err = None ->
          msg = ""
          /\ calls = [PostAccessToken
                        (String.append (TrimRightSlash base) "/access-token")
                        (String.append id (String.append ":" secret))])
      /\ (List.length calls <= 1)%nat)
  /\ (forall (gw : Gateway) (base token ref : string) (amount : Z)
             (n s f : string),
        let '((resp, msg, err), calls) :=
          createKytaQRISSafe gw base token ref amount n s f in
        (err = None <-> resp <> None)
        /\ (err = None ->
            msg = ""
            /\ calls = [PostQRIS
                          (String.append (TrimRightSlash base)
                                         "/payments/create/qris")
                          token ref amount n s f])
        /\ (List.length calls <= 1)%nat)
  /\ (forall (gw : Gateway) (base token ref : string) (amount : Z)
             (bank n s f : string),
        let '((resp, msg, err), calls) :=
          createKytaVASafe gw base token ref amount bank n s f in
        (err = None <-> resp <> None)
        /\ (err = None ->
            msg = ""
            /\ calls = [PostVA
                          (String.append (TrimRightSlash base)
                                         "/payments/create/va")
                          token ref amount bank n s f])
        /\ (List.length calls <= 1)%nat).
Proof.
  split; [|split].
  - intros gw base id secret. unfold getKytaAccessTokenSafe.
    destruct (negb (NewRequest_ok _)).
    + split; [|split]; [split|discriminate|cbn; lia];
        [discriminate | intros H; exfalso; apply H; reflexivity].
    + pose proof (token_answer_result gw
                    (PostAccessToken
                       (String.append (TrimRightSlash base) "/access-token")
                       (String.append id (String.append ":" secret)))) as H.
      destruct (readTokenAnswer gw _) as [[token msg] err].
      destruct H as [H1 H2]. split; [exact H1|]. split; [|cbn; lia].
      intros He. split; [apply H2; exact He | reflexivity].
  - intros gw base token ref amount n s f. unfold createKytaQRISSafe.
    destruct (negb (NewRequest_ok _)).
    + split; [|split]; [split|discriminate|cbn; lia];
        [discriminate | intros H; exfalso; apply H; reflexivity].
    + match goal with
      | |- context [readPaymentAnswer gw ?c ?fb ?lit] =>
          pose proof (payment_answer_result gw c fb lit) as H;
          destruct (readPaymentAnswer gw c fb lit) as [[resp msg] err]
      end.
      destruct H as [H1 H2]. split; [exact H1|]. split; [|cbn; lia].
      intros He. split; [apply H2; exact He | reflexivity].
  - intros gw base token ref amount bank n s f. unfold createKytaVASafe.
    destruct (negb (NewRequest_ok _)).
    + split; [|split]; [split|discriminate|cbn; lia];
        [discriminate | intros H; exfalso; apply H; reflexivity].
    + match goal with
      | |- context [readPaymentAnswer gw ?c ?fb ?lit] =>
          pose proof (payment_answer_result gw c fb lit) as H;
          destruct (readPaymentAnswer gw c fb lit) as [[resp msg] err]
      end.
      destruct H as [H1 H2]. split; [exact H1|]. split; [|cbn; lia].
      intros He. split; [apply H2; exact He | reflexivity].
Qed.

Lemma qris_answer_or_error (gw : Gateway) (base token ref : string)
  (amount : Z) (n s f msg : string) (calls : list GatewayCall) :
  createKytaQRISSafe gw base token ref amount n s f
  <> ((None, msg, None), calls).
Proof.
  unfold createKytaQRISSafe.
  destruct (negb (NewRequest_ok _)); intros H; [inversion H|].
  match type of H with
  | (readPaymentAnswer ?g ?c ?fb ?lit, _) = _ =>
      pose proof (payment_answer_result g c fb lit) as R;
      destruct (readPaymentAnswer g c fb lit) as [[resp m] e]
  end.
  inversion H; subst. destruct R as [R _].
  apply (proj1 R eq_refl). reflexivity.
Qed.

Lemma va_answer_or_error (gw : Gateway) (base token ref : string)
  (amount : Z) (bank n s f msg : string) (calls : list GatewayCall) :
  createKytaVASafe gw base token ref amount bank n s f
  <> ((None, msg, None), calls).
Proof.
  unfold createKytaVASafe.
  destruct (negb (NewRequest_ok _)); intros H; [inversion H|].
  match type of H with
  | (readPaymentAnswer ?g ?c ?fb ?lit, _) = _ =>
      pose proof (payment_answer_result g c fb lit) as R;
      destruct (readPaymentAnswer g c fb lit) as [[resp m] e]
  end.
  inversion H; subst. destruct R as [R _].
  apply (proj1 R eq_refl). reflexivity.
Qed.

(** X18.  The purchase handler checks for a charge helper that returned neither a
    response nor an error; the helpers never do, so on no input does the
    handler answer "Gagal mendapatkan jawaban dari layanan pembayaran". *)
Theorem purchase_never_lacks_gateway_answer :
  forall (env : Env) (gw : Gateway) (now : Time)
         (req : option CreateInvestmentRequest) (auth : Z * bool) (db : DB),
    (Message (fst (fst (CreateInvestmentHandler env gw now req auth db)))
     =? "Gagal mendapatkan jawaban dari layanan pembayaran")%string
    = false.
Proof.
  intros env gw now req auth db. apply String.eqb_neq.
  unfold CreateInvestmentHandler.
  split_handler.
  all: try match goal with
    | |- context [db_Transaction (persistPurchase ?a ?b ?c ?d ?e ?f ?g ?h) _] =>
        destruct (db_Transaction (persistPurchase a b c d e f g h) db)
          as [[inv'|] db']
    end.
  all: try match goal with
    | H : createKytaQRISSafe _ _ _ _ _ _ _ _ = (None, _, None, _) |- _ =>
        exfalso; exact (qris_answer_or_error _ _ _ _ _ _ _ _ _ _ H)
    | H : createKytaVASafe _ _ _ _ _ _ _ _ _ = (None, _, None, _) |- _ =>
        exfalso; exact (va_answer_or_error _ _ _ _ _ _ _ _ _ _ _ H)
    end.
  all: cbn [fst Message gatewayFailure String.append]; discriminate.
Qed.

(** ** Read-only handlers *)

Lemma First_unique {A : Type} (p : A -> bool) (l : list A) (x : A) :
  In x l -> p x = true ->
  (forall y, In y l -> p y = true -> y = x) ->
  First p l = Some x.
Proof.
  unfold First. induction l as [|r l IH]; intros Hin Hx Huniq; [contradiction|].
  cbn. destruct (p r) eqn:E.
  - f_equal. apply Huniq; [left; reflexivity | exact E].
  - destruct Hin as [-> | Hin]; [congruence|].
    apply IH; [exact Hin | exact Hx|].
    intros y Hy. apply Huniq. right. exact Hy.
Qed.

Lemma First_none {A : Type} (p : A -> bool) (l : list A) :
  (forall y, In y l -> p y = false) -> First p l = None.
Proof.
  unfold First. induction l as [|r l IH]; intros H; [reflexivity|].
  cbn. rewrite (H r (or_introl eq_refl)). apply IH.
  intros y Hy. apply H. right. exact Hy.
Qed.

(** Parsing the decimal numeral of a number gives the number back. *)
Lemma ParseUint_itoa (n : Z) :
  0 <= n < 2 ^ 64 -> ParseUint (itoa n) = Some n.
Proof.
  intros Hn. unfold ParseUint, itoa.
  destruct n as [|p|p]; [reflexivity| |lia].
  cbn [Z.to_int NilZero.string_of_int].
  rewrite NilZero.usu by apply Unsigned.to_uint_nonnil.
  unfold Z.of_uint. rewrite Unsigned.of_to. cbn [Z.of_N].
  destruct (Z.ltb_spec (Z.pos p) (2 ^ 64)); [reflexivity | lia].
Qed.

(** X19.  GET investments/{id} answers with a row only to its owner: the row it
    returns is a row of the table with the id of the path, owned by the
    authenticated user. *)
Theorem investment_lookup_scoped_to_owner :
  forall (auth : Z * bool) (path : string) (db : DB) (row : Investment.t),
    re_Data (GetInvestmentHandler auth path db) = Some row ->
    In row (investments db)
    /\ Investment.UserID row = fst auth
    /\ fst auth <> 0 /\ snd auth = true
    /\ ParseUint (nth 3 (SplitSlash (TrimSlash path)) "")
       = Some (Investment.ID row)
    /\ Investment.ID row <> 0
    /\ re_Code (GetInvestmentHandler auth path db) = StatusOK.
Proof.
  intros [uid ok] path db row. unfold GetInvestmentHandler.
  destruct ok; cbn [negb orb fst snd]; [|discriminate].
  destruct (uid =? 0) eqn:Hu; [discriminate|]. apply Z.eqb_neq in Hu.
  destruct (4 <=? List.length (SplitSlash (TrimSlash path)))%nat eqn:Hlen.
  2: { cbn. discriminate. }
  destruct (ParseUint (nth 3 (SplitSlash (TrimSlash path)) ""))
    as [id64|]; [|discriminate].
  destruct (id64 =? 0) eqn:Hz; [discriminate|]. apply Z.eqb_neq in Hz.
  destruct (First _ (investments db)) as [r|] eqn:Hf; [|discriminate].
  cbn [re_Data re_Code]. intros H. inversion H; subst r.
  destruct (First_some _ _ _ Hf) as [Hin Hp].
  apply andb_prop in Hp. destruct Hp as [Hid Huid].
  apply Z.eqb_eq in Hid. apply Z.eqb_eq in Huid. subst id64.
  repeat split; assumption.
Qed.

(** X20.  GET investments/{id} with the decimal id of an investment in the fourth
    piece of the path (primary keys distinct): the owner gets the row;
    anyone else gets the 404 that an id without a row gets. *)
Theorem investment_found_by_path :
  forall (uid : Z) (path : string) (db : DB) (id : Z),
    uid <> 0 -> 0 < id < 2 ^ 64 ->
    (4 <= List.length (SplitSlash (TrimSlash path)))%nat ->
    nth 3 (SplitSlash (TrimSlash path)) "" = itoa id ->
    NoDup (map Investment.ID (investments db)) ->
    (forall inv, In inv (investments db) -> Investment.ID inv = id ->
                 Investment.UserID inv = uid ->
                 GetInvestmentHandler (uid, true) path db
                 = mkReply StatusOK true "Successfully" (Some inv))
    /\ ((forall inv, In inv (investments db) -> Investment.ID inv = id ->
                     Investment.UserID inv <> uid) ->
        GetInvestmentHandler (uid, true) path db
        = mkReply StatusNotFound false "Data tidak ditemukan" None).
Proof.
  intros uid path db id Hu Hid Hlen Hpiece Hnd.
  apply Z.eqb_neq in Hu. apply Nat.leb_le in Hlen.
  unfold GetInvestmentHandler. cbn [negb orb]. rewrite Hu, Hlen, Hpiece.
  rewrite ParseUint_itoa by lia.
  assert (Hz : (id =? 0) = false) by (apply Z.eqb_neq; lia).
  rewrite Hz. split.
  - intros inv Hin Hi Ho.
    rewrite (First_unique _ _ inv Hin).
    + reflexivity.
    + rewrite Hi, Ho, !Z.eqb_refl. reflexivity.
    + intros y Hy Hp. apply andb_prop in Hp. destruct Hp as [Hyi _].
      apply Z.eqb_eq in Hyi.
      apply (NoDup_map_unique Investment.ID (investments db));
        [exact Hnd | exact Hy | exact Hin | congruence].
  - intros Hother. rewrite First_none; [reflexivity|].
    intros y Hy. destruct (Investment.ID y =? id) eqn:E; [|reflexivity].
    apply Z.eqb_eq in E. cbn [andb]. apply Z.eqb_neq.
    apply Hother; assumption.
Qed.
(** X21.  The payment details of a purchase.  After a purchase answered 201 with
    an order id new among the payments (product keys distinct), the
    details read at a path that ends in that order id are those of the
    purchase: the product's name and amount, the order id, the payment
    method, status Pending and an expiry time. *)
Theorem payment_details_follow_purchase :
  forall (env : Env) (gw : Gateway) (now : Time)
         (req : CreateInvestmentRequest) (auth : Z * bool) (db db1 : DB)
         (resp : APIResponse) (calls : list GatewayCall) (path : string),
    let orderID := GenerateOrderID (fst auth) (List.length (transactions db)) in
    CreateInvestmentHandler env gw now (Some req) auth db
    = (resp, db1, calls) ->
    Code resp = StatusCreated ->
    (forall p, In p (payments db) -> Payment.OrderID p <> orderID) ->
    NoDup (map Product.ID (products db)) ->
    pathOrderID path = orderID ->
    exists product details,
      First (fun p => (Product.ID p =? rq_ProductID req)
                      && Activity_eqb (Product.Status p) Active)
            (products db) = Some product
      /\ GetPaymentDetailsHandler path db1
         = mkReply StatusOK true "Successfully" (Some details)
      /\ pd_product details = Product.Name product
      /\ pd_order_id details = orderID
      /\ pd_amount details = Product.Amount product
      /\ pd_status details = "Pending"
      /\ pd_expired_at details <> None
      /\ (pd_payment_method details = Some "QRIS"
          \/ pd_payment_method details = Some "BANK").
Proof.
  intros env gw now req auth db db1 resp calls path orderID
         Hrun Hcreated Hfresh Hnd Hpath.
  pose proof (purchase_outcome env gw now req auth db) as H.
  rewrite Hrun in H.
  destruct (H Hcreated)
    as [product [category [payment
         [Hprod [_ [Hi [Hp [Hpi [Hpo [_ [Hps [Hpe [Hpm
           [_ [_ _]]]]]]]]]]]]]]].
  cbv zeta in *. fold orderID in Hi, Hpo.
  set (inv := Investment.mk (NextID (map Investment.ID (investments db)))
                (fst auth) (Product.ID product) (Product.CategoryID product)
                (Product.Amount product) (Product.DailyProfit product)
                (Product.Duration product) 0 0 None None orderID
                InvStatus.Pending) in *.
  assert (Hpay : First (fun p => (Payment.OrderID p =? orderID)%string)
                       (payments db1) = Some payment).
  { rewrite Hp. apply First_app_fresh.
    - intros r Hr. apply String.eqb_neq. apply Hfresh. exact Hr.
    - apply String.eqb_eq. exact Hpo. }
  assert (Hinv : First (fun r => Investment.ID r =? Payment.InvestmentID payment)
                       (investments db1) = Some inv).
  { rewrite Hpi, Hi. apply First_app_fresh; [|apply Z.eqb_refl].
    intros r Hr. apply Z.eqb_neq.
    pose proof (NextID_fresh (map Investment.ID (investments db))
                  (Investment.ID r) (in_map Investment.ID _ _ Hr)).
    unfold inv. cbn [Investment.ID]. lia. }
  assert (Hproducts : products db1 = products db).
  { revert Hrun. unfold CreateInvestmentHandler. split_handler.
    all: try match goal with
      | |- context [db_Transaction (persistPurchase ?a ?b ?c ?d ?e ?f ?g ?h) _] =>
          destruct (persistPurchase_frame a b c d e f g h db)
            as [db' [pay [trx [Hrun' Hrows]]]];
          unfold db_Transaction; rewrite Hrun'; cbv beta iota
      end.
    all: intros E; inversion E; subst; try reflexivity.
    all: apply Hrows. }
  assert (Hproduct : First (fun p => Product.ID p =? Investment.ProductID inv)
                           (products db1) = Some product).
  { rewrite Hproducts. destruct (First_some _ _ _ Hprod) as [Hin _].
    apply (First_unique _ _ product Hin).
    - unfold inv. cbn [Investment.ProductID]. apply Z.eqb_refl.
    - intros y Hy Hpy. apply Z.eqb_eq in Hpy.
      apply (NoDup_map_unique Product.ID (products db));
        [exact Hnd | exact Hy | exact Hin | exact Hpy]. }
  unfold GetPaymentDetailsHandler. rewrite Hpath, Hpay, Hinv, Hproduct.
  eexists product, _. split; [exact Hprod|]. split; [reflexivity|].
  cbn [pd_product pd_order_id pd_amount pd_status pd_expired_at
       pd_payment_method].
  split; [reflexivity|]. split; [exact Hpo|]. split; [reflexivity|].
  split; [exact Hps|]. split; [exact Hpe|].
  destruct Hpm as [[Hm _] | [Hm _]]; [left | right]; exact Hm.
Qed.

Lemma In_insertBy {A : Type} (before : A -> A -> bool) (x y : A)
  (l : list A) :
  In y (insertBy before x l) <-> y = x \/ In y l.
Proof.
  induction l as [|z l IH]; cbn.
  - split; intros [H|H]; auto; contradiction.
  - destruct (before z x); cbn; rewrite ?IH; intuition congruence.
Qed.

Lemma In_OrderBy {A : Type} (before : A -> A -> bool) (y : A) (l : list A) :
  In y (OrderBy before l) <-> In y l.
Proof.
  unfold OrderBy. induction l as [|x l IH]; cbn; [tauto|].
  rewrite In_insertBy, IH. intuition congruence.
Qed.

Lemma length_insertBy {A : Type} (before : A -> A -> bool) (x : A)
  (l : list A) :
  List.length (insertBy before x l) = S (List.length l).
Proof.
  induction l as [|z l IH]; cbn; [reflexivity|].
  destruct (before z x); cbn; [rewrite IH|]; reflexivity.
Qed.

Lemma length_OrderBy {A : Type} (before : A -> A -> bool) (l : list A) :
  List.length (OrderBy before l) = List.length l.
Proof.
  unfold OrderBy. induction l as [|x l IH]; cbn; [reflexivity|].
  rewrite length_insertBy, IH. reflexivity.
Qed.

(** Consecutive pages of one size put end to end give the list back. *)
Lemma pages_tile {A : Type} (size : nat) (xs : list A) :
  (0 < size)%nat ->
  forall pages : nat,
    (List.length xs <= pages * size)%nat ->
    List.concat (map (fun k => firstn size (skipn (k * size) xs)) (seq 0 pages))
    = xs.
Proof.
  intros Hsize pages. revert xs.
  induction pages as [|pages IH]; intros xs Hlen.
  - cbn in *. destruct xs; [reflexivity | cbn in Hlen; lia].
  - cbn [seq map List.concat]. rewrite <- seq_shift, map_map.
    cbn [Nat.mul skipn].
    rewrite (map_ext _ (fun k => firstn size (skipn (k * size) (skipn size xs)))).
    + rewrite IH; [apply firstn_skipn|].
      rewrite length_skipn. cbn [Nat.mul] in Hlen. lia.
    + intros k. rewrite skipn_skipn. f_equal. f_equal. cbn. lia.
Qed.

Lemma In_slice {A : Type} (a b : nat) (l : list A) (x : A) :
  In x (firstn a (skipn b l)) -> In x l.
Proof.
  intros H. rewrite <- (firstn_skipn b l). apply in_or_app. right.
  rewrite <- (firstn_skipn a (skipn b l)). apply in_or_app. left. exact H.
Qed.

Lemma insertBy_sorted (x : Investment.t) (l : list Investment.t) :
  Sorted (fun a b => Investment.ID b <= Investment.ID a) l ->
  Sorted (fun a b => Investment.ID b <= Investment.ID a)
         (insertBy (fun a b => Investment.ID b <? Investment.ID a) x l).
Proof.
  induction l as [|z l IH]; intros Hs; cbn.
  - repeat constructor.
  - inversion Hs as [|? ? Hs' Hhd]; subst.
    destruct (Z.ltb_spec (Investment.ID x) (Investment.ID z)).
    + constructor; [apply IH; exact Hs'|].
      destruct l as [|y l]; cbn.
      * constructor. lia.
      * inversion Hhd; subst.
        destruct (Z.ltb_spec (Investment.ID x) (Investment.ID y));
          constructor; lia.
    + constructor; [exact Hs|]. constructor. lia.
Qed.

(** ORDER BY id DESC gives the rows by descending id. *)
Lemma OrderBy_descending (l : list Investment.t) :
  StronglySorted (fun a b => Investment.ID b <= Investment.ID a)
    (OrderBy (fun a b => Investment.ID b <? Investment.ID a) l).
Proof.
  apply Sorted_StronglySorted.
  - intros a b c Hab Hbc. lia.
  - unfold OrderBy. induction l as [|x l IH]; cbn; [constructor|].
    apply insertBy_sorted. exact IH.
Qed.

Lemma sorted_slice {A : Type} (R : A -> A -> Prop) (a b : nat) (l : list A) :
  StronglySorted R l -> StronglySorted R (firstn a (skipn b l)).
Proof.
  intros H.
  assert (Hs : StronglySorted R (skipn b l)).
  { revert l H. induction b as [|b IH]; intros l H; [exact H|].
    destruct l as [|x l]; [constructor|]. cbn.
    inversion H; subst. apply IH. assumption. }
  revert Hs. generalize (skipn b l). clear. intros l. revert a.
  induction l as [|x l IH]; intros a H.
  - rewrite firstn_nil. constructor.
  - destruct a as [|a]; [constructor|]. cbn.
    inversion H as [|? ? Hs Hall]; subst. constructor; [apply IH; exact Hs|].
    rewrite Forall_forall in *. intros y Hy. apply Hall.
    rewrite <- (firstn_skipn a l). apply in_or_app. left. exact Hy.
Qed.

Lemma int_small (x : Z) : - 2 ^ 63 <= x < 2 ^ 63 -> int x = x.
Proof.
  intros H. unfold int. rewrite Z.mod_small by lia. lia.
Qed.

(** X22.  The pages of the listing.  For a limit of at least 1 (and a table of
    fewer than 2^63 rows), pages 1 to total_pages put end to end are
    exactly the user's matching rows by descending id, each once; a page
    after the last holds no row. *)
Theorem listing_pages_tile :
  forall (uid : Z) (limit : Z) (search : string) (db : DB),
    uid <> 0 -> 1 <= limit ->
    Z.of_nat (List.length (investments db)) < 2 ^ 63 ->
    let rowsOf := fun page =>
      match re_Data (ListInvestmentsHandler (uid, true) page limit search db)
      with
      | Some (rows, _) => rows
      | None => []
      end in
    let total := Count (listed uid (TrimSpace search)) (investments db) in
    let pages := (total + limit - 1) / limit in
    List.concat (map (fun k => rowsOf (Z.of_nat k))
                     (seq 1 (Z.to_nat pages)))
    = OrderBy (fun a b => Investment.ID b <? Investment.ID a)
              (filter (listed uid (TrimSpace search)) (investments db))
    /\ forall page, pages < page -> (page - 1) * limit < 2 ^ 63 ->
                    rowsOf page = [].
Proof.
  intros uid limit search db Hu Hlimit Hsmall rowsOf total pages.
  apply Z.eqb_neq in Hu.
  set (xs := OrderBy (fun a b => Investment.ID b <? Investment.ID a)
               (filter (listed uid (TrimSpace search)) (investments db))).
  assert (Hlen : Z.of_nat (List.length xs) = total).
  { subst xs total. rewrite length_OrderBy. reflexivity. }
  assert (Htotal : 0 <= total < 2 ^ 63).
  { split; [subst total; unfold Count; lia|].
    subst total. unfold Count.
    pose proof (filter_length_le (listed uid (TrimSpace search))
                  (investments db)). lia. }
  assert (Hpages : total <= pages * limit < total + limit).
  { subst pages.
    pose proof (Z.mul_div_le (total + limit - 1) limit ltac:(lia)).
    pose proof (Z.mul_succ_div_gt (total + limit - 1) limit ltac:(lia)).
    lia. }
  assert (Hrows : forall page, 1 <= page -> (page - 1) * limit < 2 ^ 63 ->
            rowsOf page
            = firstn (Z.to_nat limit)
                     (skipn (Z.to_nat (page - 1) * Z.to_nat limit) xs)).
  { intros page Hp Hoff. subst rowsOf. cbv beta.
    unfold ListInvestmentsHandler. cbn [negb orb]. rewrite Hu.
    cbn [re_Data].
    destruct (Z.ltb_spec page 1); [lia|].
    destruct (Z.ltb_spec limit 1); [lia|].
    rewrite int_small by nia.
    rewrite Z2Nat.inj_mul by lia. reflexivity. }
  split.
  - rewrite <- seq_shift, map_map.
    rewrite (map_ext_in _ (fun k => firstn (Z.to_nat limit)
                                      (skipn (k * Z.to_nat limit) xs))).
    + apply pages_tile; [lia|]. nia.
    + intros k Hk. apply in_seq in Hk.
      rewrite Hrows by nia.
      rewrite Nat2Z.inj_succ.
      replace (Z.succ (Z.of_nat k) - 1) with (Z.of_nat k) by lia.
      rewrite Nat2Z.id. reflexivity.
  - intros page Hpage Hoff.
    assert (0 <= pages).
    { subst pages. apply Z.div_pos; lia. }
    rewrite Hrows by lia.
    rewrite skipn_all2; [apply firstn_nil|]. nia.
Qed.

(** X23.  The active investments of a user, grouped by category.  The keys of the
    answer are exactly the names of the Active categories, each present
    even without an investment.  An entry under a key comes from an
    investment of the user that is Running, Completed or Suspended, whose
    product exists and whose category has that name; and every such
    investment whose category is Active is shown under its category's
    name.  Pending and Cancelled investments, and those of a category that
    is not Active (unless it shares its name with an Active one), are not
    shown. *)
Theorem active_listing_keys_and_entries :
  forall (uid : Z) (db : DB),
    uid <> 0 ->
    exists groups,
      GetActiveInvestmentsHandler (uid, true) db
      = mkReply StatusOK true "Successfully" (Some groups)
      /\ (forall name,
            In name (map fst groups)
            <-> exists c, In c (categories db)
                          /\ Category.Status c = Active
                          /\ Category.Name c = name)
      /\ (forall name entries entry,
            In (name, entries) groups -> In entry entries ->
            exists inv,
              In inv (investments db)
              /\ Investment.UserID inv = uid
              /\ isActiveStatus (Investment.Status inv) = true
              /\ groupName db inv = name
              /\ activeEntry db inv = Some entry)
      /\ (forall inv c entry,
            In inv (investments db) ->
            Investment.UserID inv = uid ->
            isActiveStatus (Investment.Status inv) = true ->
            First (fun c => Category.ID c =? Investment.CategoryID inv)
                  (categories db) = Some c ->
            Category.Status c = Active ->
            activeEntry db inv = Some entry ->
            exists entries,
              In (Category.Name c, entries) groups /\ In entry entries).
Proof.
  clear Map_unicode_ToUpper GenerateOrderID NewRequest_ok time_Parse
        IsUserInWishlist LIKE.
  intros uid db Hu. apply Z.eqb_neq in Hu.
  unfold GetActiveInvestmentsHandler. cbn [negb orb]. rewrite Hu.
  eexists. split; [reflexivity|].
  set (cats := OrderBy _ (filter _ (categories db))).
  set (invs := OrderBy activeOrder _).
  assert (Hcats : forall c, In c cats
                            <-> In c (categories db)
                                /\ Category.Status c = Active).
  { intros c. subst cats. rewrite In_OrderBy, filter_In.
    destruct (Category.Status c); cbn; intuition congruence. }
  assert (Hinvs : forall r, In r invs
                            <-> In r (investments db)
                                /\ Investment.UserID r = uid
                                /\ isActiveStatus (Investment.Status r) = true).
  { intros r. subst invs. rewrite In_OrderBy, filter_In, andb_true_iff.
    rewrite Z.eqb_eq. tauto. }
  assert (Hgroup : forall name entry,
            In entry (groupOf db invs name)
            <-> exists inv, In inv invs /\ groupName db inv = name
                            /\ activeEntry db inv = Some entry).
  { intros name entry. unfold groupOf. rewrite in_flat_map. split.
    - intros [inv [Hin He]]. exists inv. split; [exact Hin|].
      destruct (activeEntry db inv) as [e|]; [|contradiction].
      destruct (groupName db inv =? name)%string eqn:E; [|contradiction].
      apply String.eqb_eq in E. destruct He as [-> | []].
      split; [exact E | reflexivity].
    - intros [inv [Hin [Hname He]]]. exists inv. split; [exact Hin|].
      rewrite He. apply String.eqb_eq in Hname. rewrite Hname.
      left. reflexivity. }
  split; [|split].
  - intros name. rewrite map_map. cbn [fst]. rewrite in_map_iff. split.
    + intros [c [Hn Hc]]. apply Hcats in Hc. exists c. tauto.
    + intros [c [Hc [Hs Hn]]]. exists c. split; [exact Hn|].
      apply Hcats. tauto.
  - intros name entries entry Hg He. apply in_map_iff in Hg.
    destruct Hg as [c [Hpair _]]. inversion Hpair; subst.
    apply Hgroup in He. destruct He as [inv [Hin [Hname Hentry]]].
    apply Hinvs in Hin. exists inv. tauto.
  - intros inv c entry Hin Hown Hst Hc Hactive Hentry.
    exists (groupOf db invs (Category.Name c)). split.
    + apply in_map_iff. exists c. split; [reflexivity|].
      apply Hcats. split; [|exact Hactive].
      apply (First_some _ _ _ Hc).
    + apply Hgroup. exists inv. split; [apply Hinvs; tauto|].
      split; [|exact Hentry]. unfold groupName. rewrite Hc. reflexivity.
Qed.

(** X24.  The payout webhook does not look at the withdrawal's status.  After a
    rejection (withdrawal Failed, amount refunded), a payout callback for
    its order id with a status other than Success makes the withdrawal
    Pending again, and the refund stays on the user's balance: the
    withdrawal can then be approved although its amount was given back. *)
Theorem failed_payout_reopens_rejected_withdrawal :
  forall (id : Z) (db db1 : DB) (resp : APIResponse)
         (withdrawal : Withdrawal.t) (user : User.t)
         (payload : PayoutCallback),
    RejectWithdrawal (Some id) db = (resp, db1) ->
    Code resp = StatusOK ->
    First (fun w => Withdrawal.ID w =? id) (withdrawals db) = Some withdrawal ->
    First (fun w => (Withdrawal.OrderID w =? Withdrawal.OrderID withdrawal)%string)
          (withdrawals db) = Some withdrawal ->
    First (fun u => User.ID u =? Withdrawal.UserID withdrawal) (users db)
    = Some user ->
    pc_ReferenceID payload = Withdrawal.OrderID withdrawal ->
    pc_ReferenceID payload <> "" ->
    pc_Status payload <> "Success" ->
    exists resp2 db2,
      KytaPayoutWebhookHandler (Some payload) db1 = (resp2, db2)
      /\ Code resp2 = StatusOK
      /\ First (fun w => Withdrawal.ID w =? id) (withdrawals db2)
         = Some (Withdrawal.set_Status Status.Pending withdrawal)
      /\ First (fun u => User.ID u =? Withdrawal.UserID withdrawal)
               (users db2)
         = Some (User.set_Balance
                   (User.Balance user + Withdrawal.Amount withdrawal) user).
Proof.
  intros id db db1 resp withdrawal user payload
         Hrun Hok Hw Hfirst Hu Href Hne Hst.
  destruct (First_some _ _ _ Hw) as [_ Heq]. apply Z.eqb_eq in Heq.
  destruct (First_some _ _ _ Hu) as [_ Huid].
  assert (Hdb1 :
    withdrawals db1
    = Save Withdrawal.ID (Withdrawal.set_Status Status.Failed withdrawal)
           (withdrawals db)
    /\ users db1
       = Save User.ID
              (User.set_Balance
                 (User.Balance user + Withdrawal.Amount withdrawal) user)
              (users db)).
  { revert Hrun. unfold RejectWithdrawal. rewrite Hw.
    destruct (negb (Status.eqb (Withdrawal.Status withdrawal) Status.Pending)).
    { intros H. inversion H; subst. discriminate Hok. }
    unfold db_Transaction, markRejected. tx_unfold. db_simpl. rewrite Hu.
    intros H. inversion H; subst. split; reflexivity. }
  destruct Hdb1 as [Hws Hus].
  assert (Hbyorder :
    First (fun w => (Withdrawal.OrderID w =? pc_ReferenceID payload)%string)
          (withdrawals db1)
    = Some (Withdrawal.set_Status Status.Failed withdrawal)).
  { rewrite Href, Hws.
    apply (First_Save Withdrawal.ID _ _ withdrawal);
      [exact Hfirst | reflexivity | simpl; apply String.eqb_refl]. }
  assert (Hrow :
    First (fun w => Withdrawal.ID w =? id) (withdrawals db1)
    = Some (Withdrawal.set_Status Status.Failed withdrawal)).
  { rewrite Hws.
    apply (First_Save Withdrawal.ID _ _ withdrawal);
      [exact Hw | reflexivity | simpl; rewrite Heq; apply Z.eqb_refl]. }
  apply String.eqb_neq in Hne. apply String.eqb_neq in Hst.
  unfold KytaPayoutWebhookHandler. rewrite Hne, Hst, Hbyorder.
  unfold db_Transaction, revertToPending. tx_unfold.
  eexists _, _. split; [reflexivity|]. db_simpl. cbn [withdrawals].
  split; [reflexivity|]. split.
  - rewrite (First_Save Withdrawal.ID _ _
               (Withdrawal.set_Status Status.Failed withdrawal) _ Hrow);
      [reflexivity | reflexivity | simpl; rewrite Heq; apply Z.eqb_refl].
  - rewrite Hus.
    apply (First_Save User.ID _ _ user);
      [exact Hu | reflexivity | exact Huid].
Qed.

(** X25.  A purchase that waits for its payment does not use up the product's
    purchase limit: only Running, Completed and Suspended investments
    count, so after a purchase answered 201 the count the limit is
    compared with is what it was. *)
Theorem pending_purchase_does_not_use_limit :
  forall (env : Env) (gw : Gateway) (now : Time)
         (req : CreateInvestmentRequest) (auth : Z * bool) (db db1 : DB)
         (resp : APIResponse) (calls : list GatewayCall),
    CreateInvestmentHandler env gw now (Some req) auth db
    = (resp, db1, calls) ->
    Code resp = StatusCreated ->
    forall uid productID,
      Count (counts_as_purchase uid productID) (investments db1)
      = Count (counts_as_purchase uid productID) (investments db).
Proof.
  intros env gw now req auth db db1 resp calls Hrun Hcreated uid productID.
  pose proof (purchase_outcome env gw now req auth db) as H.
  rewrite Hrun in H.
  destruct (H Hcreated) as [product [category [payment [_ [_ [Hi _]]]]]].
  cbv zeta in Hi. rewrite Hi. unfold Count.
  rewrite filter_app. cbn [filter]. unfold counts_as_purchase at 2.
  cbn [Investment.Status InvStatus.eqb orb].
  rewrite andb_false_r. rewrite app_nil_r. reflexivity.
Qed.


(** X26.  The listing of a user's investments.  Whatever the parameters, the
    answer holds at most [limit] rows (10 when the limit is missing or
    below 1), every row is a row of the table owned by the user, the total
    is the number of the user's matching rows, and the page count is the
    least number of pages of that size that hold them all.  The rows come
    by descending id. *)
Theorem listing_rows_owned_and_bounded :
  forall (uid : Z) (page limit : Z) (search : string) (db : DB),
    uid <> 0 ->
    exists rows pagination,
      ListInvestmentsHandler (uid, true) page limit search db
      = mkReply StatusOK true "Successfully" (Some (rows, pagination))
      /\ 1 <= pg_page pagination
      /\ pg_limit pagination = (if limit <? 1 then 10 else limit)
      /\ Z.of_nat (List.length rows) <= pg_limit pagination
      /\ Forall (fun r => In r (investments db)
                          /\ Investment.UserID r = uid) rows
      /\ StronglySorted (fun a b => Investment.ID b <= Investment.ID a) rows
      /\ pg_total_rows pagination
         = Count (listed uid (TrimSpace search)) (investments db)
      /\ pg_total_rows pagination
         <= pg_total_pages pagination * pg_limit pagination
         < pg_total_rows pagination + pg_limit pagination.
Proof.
  intros uid page limit search db Hu. apply Z.eqb_neq in Hu.
  unfold ListInvestmentsHandler. cbn [negb orb]. rewrite Hu.
  eexists _, _. split; [reflexivity|].
  cbn [pg_page pg_limit pg_total_rows pg_total_pages].
  set (L := if limit <? 1 then 10 else limit).
  assert (HL : 1 <= L).
  { subst L. destruct (Z.ltb_spec limit 1); lia. }
  split; [destruct (Z.ltb_spec page 1); lia|].
  split; [reflexivity|]. split.
  { rewrite length_firstn. lia. }
  split.
  { apply Forall_forall. intros r Hr. apply In_slice in Hr.
    rename Hr into Hin.
    apply In_OrderBy in Hin. apply filter_In in Hin.
    destruct Hin as [Hin Hl]. split; [exact Hin|].
    unfold listed in Hl. apply andb_prop in Hl. destruct Hl as [Hl _].
    apply Z.eqb_eq. exact Hl. }
  split; [apply sorted_slice; apply OrderBy_descending|].
  split; [reflexivity|].
  set (T := Count (listed uid (TrimSpace search)) (investments db)).
  pose proof (Z.mul_div_le (T + L - 1) L ltac:(lia)).
  pose proof (Z.mul_succ_div_gt (T + L - 1) L ltac:(lia)).
  lia.
Qed.


(** X27.  Masking needs a settings row.  With an empty payment_settings table
    the listing shows, and the payout is sent to, the user's own bank,
    account number and account name, whatever the amount and whatever the
    exemption list says. *)
Theorem masking_needs_a_settings_row :
  forall (db : DB) (withdrawal : Withdrawal.t) (row : WithdrawalWithDetails)
         (ba : BankAccount.t) (bank : Bank.t),
    payment_settings db = [] ->
    joinDetails db withdrawal = Some row ->
    First (fun a => BankAccount.ID a =? Withdrawal.BankAccountID withdrawal)
          (bank_accounts db) = Some ba ->
    First (fun b => Bank.ID b =? BankAccount.BankID ba) (banks db)
    = Some bank ->
    let shown := maskedResponse (loadPaymentSettings db) row in
    wr_BankName shown = Bank.Name bank
    /\ wr_AccountNumber shown = BankAccount.AccountNumber ba
    /\ wr_AccountName shown = BankAccount.AccountName ba
    /\ payoutDestination (loadPaymentSettings db) withdrawal ba (Some bank)
       = (Bank.Code bank, BankAccount.AccountNumber ba,
          BankAccount.AccountName ba).
Proof.
  intros db withdrawal row ba bank Hnone Hrow Hba Hbank shown.
  subst shown. unfold loadPaymentSettings. rewrite Hnone. cbn [First find].
  unfold joinDetails in Hrow. rewrite Hba, Hbank in Hrow.
  destruct (First (fun u => User.ID u =? Withdrawal.UserID withdrawal)
                  (users db)) as [u|]; [|discriminate].
  inversion Hrow; subst row. clear Hrow.
  unfold maskedResponse, payoutDestination.
  cbn [PaymentSettings.ID PaymentSettings.zero Z.eqb negb andb
       wd_BankName wd_AccountName wd_AccountNumber wd_Withdrawal
       wr_BankName wr_AccountName wr_AccountNumber].
  rewrite andb_false_r. cbn [andb]. repeat split.
Qed.

End Handlers.

(** * Worked instances

    The properties above, applied to the sample data. *)

(** The sample database is well formed. *)
Lemma well_formed_runningDB : well_formed runningDB.
Proof.
  repeat split.
  - repeat constructor; cbn; try lia. discriminate.
  - repeat constructor. intros [].
  - repeat constructor; cbn; lia.
Qed.

(** C1 on the sample: the first run settles the due investment, the second
    run at the same time settles nothing and changes nothing. *)
Lemma settlement_rerun_instance :
  exists resp1 db1 resp2,
    CronDailyReturnsHandler sampleGenerateOrderID sampleEnv "cron-secret"
      86400 (fun _ => 86400) runningDB = (resp1, db1)
    /\ Data resp1 = Processed 1
    /\ CronDailyReturnsHandler sampleGenerateOrderID sampleEnv "cron-secret"
         86400 (fun _ => 90000) db1 = (resp2, db1)
    /\ Data resp2 = Processed 0.
Proof.
  generalize (settlement_rerun_changes_nothing sampleGenerateOrderID
                sampleEnv "cron-secret" 86400 (fun _ => 86400)
                (fun _ => 90000) runningDB (fun _ => Z.le_refl 86400)).
  destruct (CronDailyReturnsHandler sampleGenerateOrderID sampleEnv
              "cron-secret" 86400 (fun _ => 86400) runningDB)
    as [resp1 db1] eqn:E1.
  destruct (CronDailyReturnsHandler sampleGenerateOrderID sampleEnv
              "cron-secret" 86400 (fun _ => 90000) db1)
    as [resp2 db2] eqn:E2.
  intros [Hdb [_ [_ Hresp]]]. subst db2.
  assert (H1 : Code resp1 = StatusOK /\ Data resp1 = Processed 1).
  { vm_compute in E1. inversion E1. split; reflexivity. }
  exists resp1, db1, resp2.
  repeat split; [apply H1 | exact E2 | apply Hresp, H1].
Defined.

(** C2 on the sample: a confirming callback, then a second callback for the
    same order id. *)
Lemma webhook_redelivery_instance :
  exists db1 db2,
    KytaWebhookHandler sampleUnicodeToUpper sampleGenerateOrderID 0 (Some paidCallback) sampleDB
    = (mkResp StatusOK true "OK" NoData, db1)
    /\ KytaWebhookHandler sampleUnicodeToUpper sampleGenerateOrderID 60 (Some failedCallback) db1
       = (mkResp StatusOK true "Ignored" NoData, db2)
    /\ users db2 = users db1
    /\ investments db2 = investments db1
    /\ transactions db2 = transactions db1.
Proof.
  destruct (proj2 (webhook_redelivery_applies_once sampleUnicodeToUpper sampleGenerateOrderID)
              0 60 paidCallback failedCallback sampleDB samplePayment
              samplePending)
    as [db1 [db2 [inv1 [H1 [_ [_ [_ [H2 [Hu [Hi Ht]]]]]]]]]].
  - vm_compute. discriminate.
  - vm_compute. reflexivity.
  - vm_compute. reflexivity.
  - vm_compute. reflexivity.
  - vm_compute. reflexivity.
  - reflexivity.
  - exists db1, db2. repeat split; assumption.
Defined.

(** C3 on the sample: two periods; the first settlement pays nothing, the
    second writes the profit 30000 and the principal 100000 and credits
    the investor with both. *)
Lemma locked_profit_instance :
  exists db' profit principal,
    settle_passes sampleGenerateOrderID [86400; 172800] 1 runningDB = Some db'
    /\ transactions db' = transactions runningDB ++ [profit; principal]
    /\ Transaction.Amount profit = rp 30000
    /\ Transaction.Amount principal = rp 100000
    /\ users (match settle_passes sampleGenerateOrderID [86400] 1 runningDB
              with Some db1 => db1 | None => sampleDB end)
       = users runningDB
    /\ users runningDB = [sampleReferrer; sampleInvestor]
    /\ users db'
       = [sampleReferrer; User.set_Balance (rp 130000) sampleInvestor].
Proof.
  assert (E2 : { db' | settle_passes sampleGenerateOrderID [86400; 172800] 1
                         runningDB = Some db' }).
  { eexists. vm_compute. reflexivity. }
  assert (E1 : { db' | settle_passes sampleGenerateOrderID [86400] 1
                         runningDB = Some db' }).
  { eexists. vm_compute. reflexivity. }
  destruct E2 as [db2 E2]. destruct E1 as [db1 E1].
  assert (Hrow : First (fun r => Investment.ID r =? 1) (investments runningDB)
                 = Some sampleRunning) by reflexivity.
  assert (Hcat : First (fun c => Category.ID c
                                 =? Investment.CategoryID sampleRunning)
                       (categories runningDB)
                 = Some (Category.mk 1 "Router" locked Active))
    by reflexivity.
  assert (Hleft : Investment.TotalPaid sampleRunning
                  < Investment.Duration sampleRunning) by reflexivity.
  destruct (locked_profit_paid_once_at_completion sampleGenerateOrderID
              [86400; 172800] 1 runningDB db2 sampleRunning _
              Hrow Hcat eq_refl Hleft E2) as [_ [_ Hlast]].
  destruct (Hlast eq_refl)
    as [profit [principal [inv' [Hrows [_ [Hprofit [Hprincipal
         [_ [_ [_ [_ [_ [user [Huser [_ Hcredit]]]]]]]]]]]]]]].
  vm_compute in Huser. inversion Huser; subst user; clear Huser.
  destruct (locked_profit_paid_once_at_completion sampleGenerateOrderID
              [86400] 1 runningDB db1 sampleRunning _
              Hrow Hcat eq_refl Hleft E1) as [_ [Hfirst _]].
  exists db2, profit, principal. rewrite E1.
  repeat split.
  - exact E2.
  - exact Hrows.
  - rewrite Hprofit; [reflexivity | vm_compute; discriminate].
  - exact Hprincipal.
  - apply Hfirst. reflexivity.
  - rewrite Hcredit; [reflexivity | | |]; vm_compute; discriminate.
Defined.

(** C4 on the sample: the state after two scheduler runs. *)
Lemma total_paid_instance :
  Forall paid_within_duration
    (investments
       (snd (CronDailyReturnsHandler sampleGenerateOrderID sampleEnv
               "cron-secret" 172800 (fun _ => 172800)
               (snd (CronDailyReturnsHandler sampleGenerateOrderID sampleEnv
                       "cron-secret" 86400 (fun _ => 86400) runningDB))))).
Proof.
  apply Forall_forall. intros inv Hin.
  apply (total_paid_within_duration sampleUnicodeToUpper sampleGenerateOrderID (fun _ => true)
           (fun _ _ => None) nobodyExempt runningDB _ well_formed_runningDB
           (reach_step _ _ _ _ _ _ _ _
              (reach_step _ _ _ _ _ _ _ _ (reach_start _ _ _ _ _ _)
                 (step_settlement _ _ _ _ _ _ sampleEnv "cron-secret" 86400
                    (fun _ => 86400)))
              (step_settlement _ _ _ _ _ _ sampleEnv "cron-secret" 172800
                 (fun _ => 172800)))
           inv Hin).
Defined.

(** C5 on the sample: the referrer of the investor receives 30000 and a
    first spin ticket. *)
Lemma referral_bonus_instance :
  exists db' referrer',
    KytaWebhookHandler sampleUnicodeToUpper sampleGenerateOrderID 0 (Some paidCallback) sampleDB
    = (mkResp StatusOK true "OK" NoData, db')
    /\ First (fun u => User.ID u =? 1) (users db') = Some referrer'
    /\ User.Balance referrer' = rp 30000
    /\ User.SpinTicket referrer' = Some 1
    /\ List.length (transactions db') = 3%nat.
Proof.
  destruct (proj1 (referral_bonus_at_confirmation_only sampleUnicodeToUpper sampleGenerateOrderID)
              0 paidCallback sampleDB samplePayment samplePending
              sampleInvestor 1 sampleReferrer)
    as [db' [referrer' [trx [Hrun [Hfound [Hbal [Hspin [Hrows _]]]]]]]].
  - vm_compute. discriminate.
  - vm_compute. reflexivity.
  - vm_compute. reflexivity.
  - vm_compute. reflexivity.
  - reflexivity.
  - vm_compute. reflexivity.
  - reflexivity.
  - vm_compute. reflexivity.
  - exists db', referrer'. repeat split.
    + exact Hrun.
    + exact Hfound.
    + rewrite Hbal. vm_compute. reflexivity.
    + rewrite Hspin. vm_compute. reflexivity.
    + rewrite Hrows. vm_compute. reflexivity.
Defined.

(** An investment of 33333.35: 30% of it is 10000.005, and the referrer
    receives 10000.00. *)
Lemma referral_bonus_not_thirty_percent :
  exists db' referrer',
    KytaWebhookHandler sampleUnicodeToUpper sampleGenerateOrderID 0
                       (Some paidCallback) oddAmountDB
    = (mkResp StatusOK true "OK" NoData, db')
    /\ First (fun u => User.ID u =? 1) (users db') = Some referrer'
    /\ User.Balance referrer' = User.Balance sampleReferrer + 1000000
    /\ Investment.Amount oddPending = 3333335
    /\ 100 * 1000000 < 30 * Investment.Amount oddPending.
Proof.
  eexists _, _. split; [vm_compute; reflexivity|].
  split; [vm_compute; reflexivity|].
  repeat split.
Qed.

(** C6 on the sample: the gateway grants the token and refuses the charge;
    nothing is written. *)
Lemma declined_charge_instance :
  exists resp token charge,
    CreateInvestmentHandler sampleUnicodeToUpper sampleGenerateOrderID (fun _ => true)
      (fun _ _ => None) sampleEnv decliningGateway 1000
      (Some (mkRequest 1 "qris" "")) (2, true) sampleDB
    = (resp, sampleDB, [token; charge])
    /\ Code resp = StatusBadRequest
    /\ call_failed decliningGateway charge = true.
Proof.
  generalize (purchase_persists_only_after_gateway_success sampleUnicodeToUpper
                sampleGenerateOrderID (fun _ => true) (fun _ _ => None)
                sampleEnv decliningGateway 1000
                (Some (mkRequest 1 "qris" "")) (2, true) sampleDB).
  destruct (CreateInvestmentHandler sampleUnicodeToUpper sampleGenerateOrderID (fun _ => true)
              (fun _ _ => None) sampleEnv decliningGateway 1000
              (Some (mkRequest 1 "qris" "")) (2, true) sampleDB)
    as [[resp db'] calls] eqn:E.
  intros [Hfail _].
  assert (Hcalls : exists token charge,
             calls = [token; charge]
             /\ call_failed decliningGateway charge = true).
  { vm_compute in E. inversion E. eexists. eexists.
    split; [reflexivity | vm_compute; reflexivity]. }
  destruct Hcalls as [token [charge [-> Hcharge]]].
  destruct Hfail as [Hcode [_ ->]].
  { exists charge. split; [right; left; reflexivity | exact Hcharge]. }
  exists resp, token, charge. repeat split; assumption.
Defined.

(** C7 on the sample: an unknown payment method, refused without a call,
    and a QRIS purchase above the maximum, refused after the token
    request was answered. *)
Lemma purchase_validation_instance :
  exists resp1 resp2 url credentials,
    CreateInvestmentHandler sampleUnicodeToUpper sampleGenerateOrderID
      (fun _ => true) (fun _ _ => None) sampleEnv sampleGateway 1000
      (Some (mkRequest 1 "cash" "")) (2, true) sampleDB
    = (resp1, sampleDB, [])
    /\ Code resp1 = StatusBadRequest
    /\ CreateInvestmentHandler sampleUnicodeToUpper sampleGenerateOrderID
         (fun _ => true) (fun _ _ => None) sampleEnv sampleGateway 1000
         (Some (mkRequest 2 "qris" "")) (2, true) sampleDB
       = (resp2, sampleDB, [PostAccessToken url credentials])
    /\ Code resp2 = StatusBadRequest
    /\ call_failed sampleGateway (PostAccessToken url credentials) = false.
Proof.
  assert (Huid : 2 <> 0) by discriminate.
  generalize (purchase_validation_rejects_without_writes
                sampleUnicodeToUpper sampleGenerateOrderID (fun _ => true)
                (fun _ _ => None) sampleEnv sampleGateway 1000
                (mkRequest 1 "cash" "") 2 sampleDB Huid).
  generalize (purchase_validation_rejects_without_writes
                sampleUnicodeToUpper sampleGenerateOrderID (fun _ => true)
                (fun _ _ => None) sampleEnv sampleGateway 1000
                (mkRequest 2 "qris" "") 2 sampleDB Huid).
  cbv zeta.
  destruct (CreateInvestmentHandler sampleUnicodeToUpper
              sampleGenerateOrderID (fun _ => true)
              (fun _ _ => None) sampleEnv sampleGateway 1000
              (Some (mkRequest 1 "cash" "")) (2, true) sampleDB)
    as [[resp1 db1] calls1].
  destruct (CreateInvestmentHandler sampleUnicodeToUpper
              sampleGenerateOrderID (fun _ => true)
              (fun _ _ => None) sampleEnv sampleGateway 1000
              (Some (mkRequest 2 "qris" "")) (2, true) sampleDB)
    as [[resp2 db2] calls2] eqn:E2.
  assert (Hrefused : refusedByAmount resp2 = true).
  { vm_compute in E2. inversion E2. reflexivity. }
  intros [_ [_ Hamount]] [Hmethod _].
  destruct Hmethod as [Hcode [_ [-> ->]]].
  { left. split; vm_compute; discriminate. }
  destruct (Hamount Hrefused)
    as [Hcode2 [-> [product [url [credentials [_ [_ [-> Hanswered]]]]]]]].
  exists resp1, resp2, url, credentials.
  repeat split; assumption.
Defined.

(** The amount bound is checked after the access token was requested. *)
Lemma amount_check_follows_token_call :
  exists resp,
    CreateInvestmentHandler sampleUnicodeToUpper sampleGenerateOrderID (fun _ => true)
      (fun _ _ => None) sampleEnv sampleGateway 1000
      (Some (mkRequest 2 "qris" "")) (2, true) sampleDB
    = (resp, sampleDB,
       [PostAccessToken "https://api.kytapay.com/v2/access-token"
                        "client:secret"])
    /\ Code resp = StatusBadRequest
    /\ rp 10000000 < Product.Amount sampleTower.
Proof.
  eexists. split; [vm_compute; reflexivity|].
  split; vm_compute; reflexivity.
Qed.


(** C9 on the sample: a withdrawal above the threshold, user not exempt. *)
Lemma masking_instance :
  exists row code number name,
    joinDetails awaitingApprovalDB
      (Withdrawal.set_Status Status.Pending sampleWithdrawal) = Some row
    /\ payoutDestination nobodyExempt (loadPaymentSettings awaitingApprovalDB)
         (Withdrawal.set_Status Status.Pending sampleWithdrawal) sampleAccount
         (First (fun b => Bank.ID b =? BankAccount.BankID sampleAccount)
                (banks awaitingApprovalDB))
       = (code, number, name)
    /\ wr_AccountNumber
         (maskedResponse nobodyExempt (loadPaymentSettings awaitingApprovalDB)
                         row) = number
    /\ wr_AccountName
         (maskedResponse nobodyExempt (loadPaymentSettings awaitingApprovalDB)
                         row) = name
    /\ code = "BCA" /\ number = "1234567890" /\ name = "Budi".
Proof.
  assert (Hrow : { row | joinDetails awaitingApprovalDB
                           (Withdrawal.set_Status Status.Pending
                                                  sampleWithdrawal)
                         = Some row }).
  { eexists. vm_compute. reflexivity. }
  destruct Hrow as [row Hrow].
  generalize (proj1 (masking_same_for_listing_and_payout (fun _ => true)
                       nobodyExempt)
                awaitingApprovalDB
                (Withdrawal.set_Status Status.Pending sampleWithdrawal)
                row sampleAccount Hrow eq_refl).
  cbv zeta.
  destruct (payoutDestination nobodyExempt
              (loadPaymentSettings awaitingApprovalDB)
              (Withdrawal.set_Status Status.Pending sampleWithdrawal)
              sampleAccount
              (First (fun b => Bank.ID b =? BankAccount.BankID sampleAccount)
                     (banks awaitingApprovalDB)))
    as [[code number] name].
  intros [Hnumber [Hname [Hkept [Hmasked _]]]].
  destruct (Hmasked eq_refl) as [_ [Hcode Hhouse]].
  exists row, code, number, name.
  repeat split; first [assumption | rewrite Hkept; reflexivity].
Defined.

(** Under masking the account name shown and sent is the user's own, not
    the house's. *)
Lemma masking_keeps_user_account_name :
  exists shown,
    Data (GetWithdrawals nobodyExempt (fun rows => rows) awaitingApprovalDB)
    = WithdrawalList [shown]
    /\ wr_AccountNumber shown = PaymentSettings.AccountNumber sampleSettings
    /\ wr_AccountName shown = BankAccount.AccountName sampleAccount
    /\ snd (ApproveWithdrawal (fun _ => true) nobodyExempt sampleEnv
              sampleGateway (Some 1) awaitingApprovalDB)
       = [PostAccessToken "https://api.kytapay.com/v2/access-token"
                          "client:secret";
          PostPayout "https://api.kytapay.com/v2/payouts/transfers" "token-1"
                     "WD-1" 54000 "Penarikan # WD-1" "BCA" "1234567890"
                     "Budi" "https://shop.example/payout"]
    /\ PaymentSettings.AccountName sampleSettings = "StoneForm Admin"
    /\ BankAccount.AccountName sampleAccount = "Budi".
Proof.
  eexists. split; [vm_compute; reflexivity|].
  repeat split; vm_compute; reflexivity.
Qed.


(** The paid callback padded with no-break spaces is read as the paid
    callback: it confirms the payment of ORD-1 and stores the gateway's id
    without the padding. *)
Lemma padded_callback_instance :
  exists db' payment' inv',
    KytaWebhookHandler sampleUnicodeToUpper sampleGenerateOrderID 0
                       (Some paddedCallback) sampleDB
    = (mkResp StatusOK true "OK" NoData, db')
    /\ payments db' = [payment']
    /\ Payment.Status payment' = "Success"
    /\ Payment.ReferenceID payment' = Some "KYTA-77"
    /\ investments db' = [inv']
    /\ Investment.Status inv' = InvStatus.Running.
Proof.
  eexists _, _, _. split; [vm_compute; reflexivity|].
  repeat split.
Qed.

(** * Worked instances of the further properties *)

(** A rejection on the sample: the withdrawal of 60000 is refunded in
    full. *)
Lemma reject_refund_instance :
  exists db',
    RejectWithdrawal (Some 1) awaitingApprovalDB
    = (mkResp StatusOK true "Penarikan berhasil ditolak"
              (IdStatus 1 Status.Failed), db')
    /\ First (fun u => User.ID u =? 2) (users db')
       = Some (User.set_Balance (rp 60000) sampleInvestor)
    /\ option_map Withdrawal.Status
         (First (fun w => Withdrawal.ID w =? 1) (withdrawals db'))
       = Some Status.Failed.
Proof.
  destruct (reject_refunds_whole_amount 1 awaitingApprovalDB
              (Withdrawal.set_Status Status.Pending sampleWithdrawal)
              sampleInvestor eq_refl eq_refl eq_refl)
    as [db' [Hrun [Hw [Hu _]]]].
  exists db'. split; [exact Hrun|]. split; [exact Hu|].
  rewrite Hw. reflexivity.
Defined.

(** A rejection without the user's row changes nothing. *)
Lemma reject_rollback_instance :
  RejectWithdrawal (Some 1) orphanWithdrawalDB
  = (serverError "Gagal mengambil data pengguna", orphanWithdrawalDB).
Proof.
  apply (reject_without_user_rolls_back 1 orphanWithdrawalDB
           (Withdrawal.set_Status Status.Pending sampleWithdrawal));
    reflexivity.
Defined.

(** An approval on the sample, and one through a gateway that refuses the
    payout. *)
Lemma approve_instance :
  exists resp db' calls,
    ApproveWithdrawal (fun _ => true) nobodyExempt sampleEnv sampleGateway
                      (Some 1) awaitingApprovalDB = (resp, db', calls)
    /\ Code resp = StatusOK
    /\ List.length calls = 2%nat
    /\ option_map Withdrawal.Status
         (First (fun w => Withdrawal.ID w =? 1) (withdrawals db'))
       = Some Status.Success
    /\ snd (fst (ApproveWithdrawal (fun _ => true) nobodyExempt sampleEnv
                   decliningGateway (Some 1) awaitingApprovalDB))
       = awaitingApprovalDB.
Proof.
  generalize (approve_writes_only_on_success (fun _ => true) nobodyExempt
                sampleEnv sampleGateway (Some 1) awaitingApprovalDB).
  generalize (approve_writes_only_on_success (fun _ => true) nobodyExempt
                sampleEnv decliningGateway (Some 1) awaitingApprovalDB).
  destruct (ApproveWithdrawal (fun _ => true) nobodyExempt sampleEnv
              decliningGateway (Some 1) awaitingApprovalDB)
    as [[resp0 db0] calls0] eqn:E0.
  destruct (ApproveWithdrawal (fun _ => true) nobodyExempt sampleEnv
              sampleGateway (Some 1) awaitingApprovalDB)
    as [[resp db'] calls] eqn:E.
  intros [Hkeep _] [_ [_ Hok]].
  assert (Hcodes : Code resp = StatusOK /\ Code resp0 <> StatusOK
                   /\ List.length calls = 2%nat
                   /\ option_map Withdrawal.Status
                        (First (fun w => Withdrawal.ID w =? 1)
                               (withdrawals db'))
                      = Some Status.Success).
  { vm_compute in E0. vm_compute in E. inversion E0. inversion E.
    repeat split. discriminate. }
  destruct Hcodes as [H1 [H2 [H3 H4]]].
  exists resp, db', calls. repeat split; try assumption.
  cbn [fst snd]. apply Hkeep. exact H2.
Defined.

(** A second approval and a rejection after an approval are refused. *)
Lemma approved_final_instance :
  exists resp db' calls,
    ApproveWithdrawal (fun _ => true) nobodyExempt sampleEnv sampleGateway
                      (Some 1) awaitingApprovalDB = (resp, db', calls)
    /\ ApproveWithdrawal (fun _ => true) nobodyExempt sampleEnv sampleGateway
                         (Some 1) db'
       = (serverError
            "Hanya penarikan dengan status Pending yang dapat disetujui",
          db', [])
    /\ RejectWithdrawal (Some 1) db'
       = (serverError
            "Hanya penarikan dengan status Pending yang dapat ditolak", db').
Proof.
  destruct (ApproveWithdrawal (fun _ => true) nobodyExempt sampleEnv
              sampleGateway (Some 1) awaitingApprovalDB)
    as [[resp db'] calls] eqn:E.
  assert (Hok : Code resp = StatusOK).
  { vm_compute in E. inversion E. reflexivity. }
  destruct (approved_withdrawal_is_final (fun _ => true) nobodyExempt
              sampleEnv sampleGateway 1 awaitingApprovalDB db' resp calls
              E Hok) as [Happrove Hreject].
  exists resp, db', calls. split; [reflexivity|].
  split; [apply Happrove | exact Hreject].
Defined.

(** An approval after a rejection is refused, and sends nothing. *)
Lemma rejected_final_instance :
  exists resp db',
    RejectWithdrawal (Some 1) awaitingApprovalDB = (resp, db')
    /\ ApproveWithdrawal (fun _ => true) nobodyExempt sampleEnv sampleGateway
                         (Some 1) db'
       = (serverError
            "Hanya penarikan dengan status Pending yang dapat disetujui",
          db', [])
    /\ RejectWithdrawal (Some 1) db'
       = (serverError
            "Hanya penarikan dengan status Pending yang dapat ditolak", db').
Proof.
  destruct (RejectWithdrawal (Some 1) awaitingApprovalDB)
    as [resp db'] eqn:E.
  assert (Hok : Code resp = StatusOK).
  { vm_compute in E. inversion E. reflexivity. }
  destruct (rejected_withdrawal_is_final (fun _ => true) nobodyExempt
              1 awaitingApprovalDB db' resp E Hok) as [Happrove Hreject].
  exists resp, db'. split; [reflexivity|].
  split; [apply Happrove | exact Hreject].
Defined.

(** Approval, then a failed payout: the withdrawal is Pending again. *)
Lemma failed_payout_instance :
  exists resp db1 calls resp2 db2,
    ApproveWithdrawal (fun _ => true) nobodyExempt sampleEnv sampleGateway
                      (Some 1) awaitingApprovalDB = (resp, db1, calls)
    /\ KytaPayoutWebhookHandler (Some failedPayout) db1 = (resp2, db2)
    /\ First (fun w => Withdrawal.ID w =? 1) (withdrawals db2)
       = Some (Withdrawal.set_Status Status.Pending sampleWithdrawal)
    /\ users db2 = users awaitingApprovalDB.
Proof.
  destruct (ApproveWithdrawal (fun _ => true) nobodyExempt sampleEnv
              sampleGateway (Some 1) awaitingApprovalDB)
    as [[resp db1] calls] eqn:E.
  assert (Hok : Code resp = StatusOK).
  { vm_compute in E. inversion E. reflexivity. }
  destruct (failed_payout_reopens_withdrawal (fun _ => true) nobodyExempt
              sampleEnv sampleGateway 1 awaitingApprovalDB db1 resp calls
              (Withdrawal.set_Status Status.Pending sampleWithdrawal)
              failedPayout E Hok eq_refl eq_refl eq_refl
              ltac:(discriminate) ltac:(discriminate))
    as [resp2 [db2 [Hrun [_ [Hrow [_ [Hu _]]]]]]].
  exists resp, db1, calls, resp2, db2.
  repeat split; assumption.
Defined.

(** Rejection, then a failed payout callback: Pending again, refund kept. *)
Lemma reopened_rejected_instance :
  exists resp db1 resp2 db2,
    RejectWithdrawal (Some 1) awaitingApprovalDB = (resp, db1)
    /\ KytaPayoutWebhookHandler (Some failedPayout) db1 = (resp2, db2)
    /\ First (fun w => Withdrawal.ID w =? 1) (withdrawals db2)
       = Some (Withdrawal.set_Status Status.Pending sampleWithdrawal)
    /\ First (fun u => User.ID u =? 2) (users db2)
       = Some (User.set_Balance (rp 60000) sampleInvestor).
Proof.
  destruct (RejectWithdrawal (Some 1) awaitingApprovalDB)
    as [resp db1] eqn:E.
  assert (Hok : Code resp = StatusOK).
  { vm_compute in E. inversion E. reflexivity. }
  destruct (failed_payout_reopens_rejected_withdrawal 1 awaitingApprovalDB
              db1 resp
              (Withdrawal.set_Status Status.Pending sampleWithdrawal)
              sampleInvestor failedPayout E Hok eq_refl eq_refl eq_refl
              eq_refl ltac:(discriminate) ltac:(discriminate))
    as [resp2 [db2 [Hrun [_ [Hrow Hu]]]]].
  exists resp, db1, resp2, db2. repeat split; assumption.
Defined.

(** A failure callback cancels the sample purchase; a later success
    callback changes nothing. *)
Lemma cancelled_for_good_instance :
  exists db1 db2,
    KytaWebhookHandler sampleUnicodeToUpper sampleGenerateOrderID 0 (Some failedCallback) sampleDB
    = (mkResp StatusOK true "Failed updated" NoData, db1)
    /\ map Investment.Status (investments db1) = [InvStatus.Cancelled]
    /\ KytaWebhookHandler sampleUnicodeToUpper sampleGenerateOrderID 60 (Some paidCallback) db1
       = (mkResp StatusOK true "Ignored" NoData, db2)
    /\ investments db2 = investments db1
    /\ users db2 = users sampleDB.
Proof.
  destruct (failed_payment_cancels_for_good sampleUnicodeToUpper sampleGenerateOrderID 0 60
              failedCallback paidCallback sampleDB samplePayment
              samplePending)
    as [db1 [db2 [H1 [Hi [_ [_ [H2 [Hu [Hi2 _]]]]]]]]].
  - vm_compute. discriminate.
  - vm_compute. reflexivity.
  - vm_compute. reflexivity.
  - vm_compute. reflexivity.
  - vm_compute. reflexivity.
  - reflexivity.
  - exists db1, db2. repeat split; try assumption.
    rewrite Hi. reflexivity.
Defined.

(** The sample purchase is of a locked category: confirming it adds 100000
    to the VIP total and sets level 1. *)
Lemma vip_level_instance :
  exists db' investor',
    KytaWebhookHandler sampleUnicodeToUpper sampleGenerateOrderID 0 (Some paidCallback) sampleDB
    = (mkResp StatusOK true "OK" NoData, db')
    /\ First (fun u => User.ID u =? 2) (users db') = Some investor'
    /\ User.TotalInvestVIP investor' = rp 100000
    /\ User.Level investor' = Some 1.
Proof.
  destruct (confirmation_recomputes_vip_level sampleUnicodeToUpper sampleGenerateOrderID 0
              paidCallback sampleDB samplePayment samplePending
              sampleInvestor)
    as [db' [investor' [Hrun [Hf [_ [Hv Hl]]]]]].
  - vm_compute. discriminate.
  - vm_compute. reflexivity.
  - vm_compute. reflexivity.
  - vm_compute. reflexivity.
  - reflexivity.
  - vm_compute. reflexivity.
  - exists db', investor'. split; [exact Hrun|]. split; [exact Hf|].
    split; [rewrite Hv | rewrite Hl]; vm_compute; reflexivity.
Defined.

(** A callback for an order id without a payment row. *)
Lemma webhook_unknown_order_instance :
  exists resp,
    KytaWebhookHandler sampleUnicodeToUpper sampleGenerateOrderID 0
      (Some (mkCallback "KYTA-1" "ORD-404" "paid")) sampleDB
    = (resp, sampleDB)
    /\ Code resp = StatusNotFound.
Proof.
  generalize (webhook_error_paths sampleUnicodeToUpper sampleGenerateOrderID 0
                (Some (mkCallback "KYTA-1" "ORD-404" "paid")) sampleDB).
  destruct (KytaWebhookHandler sampleUnicodeToUpper sampleGenerateOrderID 0
              (Some (mkCallback "KYTA-1" "ORD-404" "paid")) sampleDB)
    as [resp db'].
  intros [H _].
  destruct (H _ eq_refl) as [Hcode ->].
  - vm_compute. discriminate.
  - vm_compute. reflexivity.
  - exists resp. split; [reflexivity | exact Hcode].
Defined.

(** Without a configured key the scheduler refuses the sample key. *)
Lemma scheduler_key_instance :
  CronDailyReturnsHandler sampleGenerateOrderID
    (mkEnv "" "" "client" "secret" "" "" "" "") "cron-secret" 86400
    (fun _ => 86400) runningDB
  = (mkResp StatusUnauthorized false "Unauthorized" NoData, runningDB).
Proof.
  apply (scheduler_refuses_without_matching_key sampleGenerateOrderID).
  left. reflexivity.
Defined.

(** The unlocked sample over its two periods: two profit rows of 5000, the
    principal of 50000, and a balance grown by 60000. *)
Lemma unlocked_profit_instance :
  exists db' user' added,
    settle_passes sampleGenerateOrderID [86400; 172800] 1 unlockedDB
    = Some db'
    /\ First (fun u => User.ID u =? 2) (users db') = Some user'
    /\ transactions db' = transactions unlockedDB ++ added
    /\ map Transaction.Amount added = [rp 5000; rp 5000; rp 50000]
    /\ User.Balance user' = rp 60000.
Proof.
  assert (E : { db' | settle_passes sampleGenerateOrderID [86400; 172800] 1
                        unlockedDB = Some db' }).
  { eexists. vm_compute. reflexivity. }
  destruct E as [db' E].
  destruct (unlocked_profit_paid_each_period sampleGenerateOrderID
              [86400; 172800] 1 unlockedDB db' unlockedRunning
              (Category.mk 2 "Mifi" unlocked Active) sampleInvestor
              eq_refl eq_refl eq_refl eq_refl)
    as [_ [user' [added [Hu [Ht [Hm [_ Hb]]]]]]];
    try (vm_compute; first [reflexivity | discriminate]).
  - exact E.
  - exists db', user', added. split; [exact E|]. split; [exact Hu|].
    split; [exact Ht|]. split; [rewrite Hm | rewrite Hb];
      vm_compute; reflexivity.
Defined.

(** One scheduler run over the unlocked sample: one row settled, the
    Pending, Completed and Suspended rows and the row that is not due yet
    untouched. *)
Lemma scheduler_once_instance :
  exists G,
    investments (snd (CronDailyReturnsHandler sampleGenerateOrderID sampleEnv
                        "cron-secret" 86400 (fun _ => 86400) unlockedDB))
    = map G (investments unlockedDB)
    /\ Data (fst (CronDailyReturnsHandler sampleGenerateOrderID sampleEnv
                    "cron-secret" 86400 (fun _ => 86400) unlockedDB))
       = Processed 1
    /\ Investment.TotalPaid (G unlockedRunning) = 1
    /\ Forall (fun r => G r = r) (tl (investments unlockedDB)).
Proof.
  destruct (scheduler_settles_due_rows_once sampleGenerateOrderID sampleEnv
              "cron-secret" 86400 (fun _ => 86400) unlockedDB)
    as [G [Hm [Hp HG]]].
  - vm_compute. repeat constructor; intros H;
      repeat (destruct H as [H|H]; [discriminate H|]); exact H.
  - discriminate.
  - reflexivity.
  - exists G. split; [exact Hm|]. split; [exact Hp|]. split.
    + assert (H0 : Investment.TotalPaid
                     (nth 0 (investments
                        (snd (CronDailyReturnsHandler sampleGenerateOrderID
                                sampleEnv "cron-secret" 86400
                                (fun _ => 86400) unlockedDB)))
                        unlockedRunning) = 1)
        by (vm_compute; reflexivity).
      rewrite Hm in H0. exact H0.
    + apply Forall_forall. intros r Hr.
      apply (HG r (or_intror Hr)).
      cbn in Hr.
      repeat (destruct Hr as [<-|Hr]; [vm_compute; reflexivity|]).
      contradiction.
Defined.

(** A purchase of product 1 by QRIS on the sample. *)
Lemma purchase_rows_instance :
  exists resp db' calls payment,
    CreateInvestmentHandler sampleUnicodeToUpper sampleGenerateOrderID (fun _ => true)
      (fun _ _ => None) sampleEnv sampleGateway 1000
      (Some (mkRequest 1 "qris" "")) (2, true) sampleDB
    = (resp, db', calls)
    /\ Code resp = StatusCreated
    /\ payments db' = payments sampleDB ++ [payment]
    /\ Payment.OrderID payment = "INV2-2"
    /\ Payment.InvestmentID payment = 2
    /\ map Investment.OrderID (investments db') = ["ORD-1"; "INV2-2"].
Proof.
  generalize (purchase_rows_share_order_id sampleUnicodeToUpper sampleGenerateOrderID
                (fun _ => true) (fun _ _ => None) sampleEnv sampleGateway
                1000 (mkRequest 1 "qris" "") (2, true) sampleDB).
  destruct (CreateInvestmentHandler sampleUnicodeToUpper sampleGenerateOrderID (fun _ => true)
              (fun _ _ => None) sampleEnv sampleGateway 1000
              (Some (mkRequest 1 "qris" "")) (2, true) sampleDB)
    as [[resp db'] calls] eqn:E.
  assert (Hok : Code resp = StatusCreated).
  { vm_compute in E. inversion E. reflexivity. }
  intros H.
  destruct (H Hok)
    as [product [category [payment [_ [_ [Hi [Hp [Hpi [Hpo _]]]]]]]]].
  exists resp, db', calls, payment.
  split; [reflexivity|]. split; [exact Hok|]. split; [exact Hp|].
  split; [exact Hpo|]. split; [exact Hpi|].
  cbv zeta in Hi. rewrite Hi. reflexivity.
Defined.

(** The purchase, then the payment callback for its order id. *)
Lemma purchase_then_payment_instance :
  exists resp db1 calls db2 inv2,
    CreateInvestmentHandler sampleUnicodeToUpper sampleGenerateOrderID (fun _ => true)
      (fun _ _ => None) sampleEnv sampleGateway 1000
      (Some (mkRequest 1 "qris" "")) (2, true) sampleDB
    = (resp, db1, calls)
    /\ KytaWebhookHandler sampleUnicodeToUpper sampleGenerateOrderID 2000
         (Some (mkCallback "KYTA-2" "INV2-2" "PAID")) db1
       = (mkResp StatusOK true "OK" NoData, db2)
    /\ investments db2 = investments sampleDB ++ [inv2]
    /\ Investment.Status inv2 = InvStatus.Running
    /\ Investment.NextReturnAt inv2 = Some 88400.
Proof.
  destruct (CreateInvestmentHandler sampleUnicodeToUpper sampleGenerateOrderID (fun _ => true)
              (fun _ _ => None) sampleEnv sampleGateway 1000
              (Some (mkRequest 1 "qris" "")) (2, true) sampleDB)
    as [[resp db1] calls] eqn:E.
  assert (Hok : Code resp = StatusCreated).
  { vm_compute in E. inversion E. reflexivity. }
  destruct (purchase_then_payment_activates sampleUnicodeToUpper sampleGenerateOrderID
              (fun _ => true) (fun _ _ => None) sampleEnv sampleGateway
              1000 2000 (mkRequest 1 "qris" "") (2, true) sampleDB db1 resp
              calls (mkCallback "KYTA-2" "INV2-2" "PAID") E Hok)
    as [db2 [inv2 [trx2 [Hrun [Hi [_ [_ [Hs [_ [Hn _]]]]]]]]]].
  - vm_compute. discriminate.
  - intros p Hp. cbn in Hp. destruct Hp as [<-|[]]. vm_compute.
    discriminate.
  - vm_compute. reflexivity.
  - vm_compute. reflexivity.
  - exists resp, db1, calls, db2, inv2. repeat split; assumption.
Defined.

(** Product 3 allows one purchase; a purchase waiting for its payment does
    not count. *)
Lemma pending_purchase_instance :
  exists resp db1 calls,
    CreateInvestmentHandler sampleUnicodeToUpper sampleGenerateOrderID (fun _ => true)
      (fun _ _ => None) sampleEnv sampleGateway 1000
      (Some (mkRequest 1 "qris" "")) (2, true) sampleDB
    = (resp, db1, calls)
    /\ Count (counts_as_purchase 2 1) (investments db1) = 0.
Proof.
  destruct (CreateInvestmentHandler sampleUnicodeToUpper sampleGenerateOrderID (fun _ => true)
              (fun _ _ => None) sampleEnv sampleGateway 1000
              (Some (mkRequest 1 "qris" "")) (2, true) sampleDB)
    as [[resp db1] calls] eqn:E.
  assert (Hok : Code resp = StatusCreated).
  { vm_compute in E. inversion E. reflexivity. }
  exists resp, db1, calls. split; [reflexivity|].
  rewrite (pending_purchase_does_not_use_limit sampleUnicodeToUpper sampleGenerateOrderID
             (fun _ => true) (fun _ _ => None) sampleEnv sampleGateway 1000
             (mkRequest 1 "qris" "") (2, true) sampleDB db1 resp calls E Hok).
  reflexivity.
Defined.

(** The details of the purchase, read back by its order id. *)
Lemma payment_details_instance :
  exists resp db1 calls details,
    CreateInvestmentHandler sampleUnicodeToUpper sampleGenerateOrderID (fun _ => true)
      (fun _ _ => None) sampleEnv sampleGateway 1000
      (Some (mkRequest 1 "qris" "")) (2, true) sampleDB
    = (resp, db1, calls)
    /\ GetPaymentDetailsHandler "/v3/users/payment/INV2-2" db1
       = mkReply StatusOK true "Successfully" (Some details)
    /\ pd_product details = "Router 1"
    /\ pd_amount details = rp 100000
    /\ pd_status details = "Pending".
Proof.
  destruct (CreateInvestmentHandler sampleUnicodeToUpper sampleGenerateOrderID (fun _ => true)
              (fun _ _ => None) sampleEnv sampleGateway 1000
              (Some (mkRequest 1 "qris" "")) (2, true) sampleDB)
    as [[resp db1] calls] eqn:E.
  assert (Hok : Code resp = StatusCreated).
  { vm_compute in E. inversion E. reflexivity. }
  destruct (payment_details_follow_purchase sampleUnicodeToUpper sampleGenerateOrderID
              (fun _ => true) (fun _ _ => None) sampleEnv sampleGateway
              1000 (mkRequest 1 "qris" "") (2, true) sampleDB db1 resp
              calls "/v3/users/payment/INV2-2" E Hok)
    as [product [details [Hprod [Hrun [Hn [_ [Ha [Hs _]]]]]]]].
  - intros p Hp. cbn in Hp. destruct Hp as [<-|[]]. vm_compute.
    discriminate.
  - vm_compute. repeat constructor; intros H;
      repeat (destruct H as [H|H]; [discriminate H|]); exact H.
  - vm_compute. reflexivity.
  - vm_compute in Hprod. inversion Hprod; subst product.
    exists resp, db1, calls, details. repeat split; assumption.
Defined.

(** Levels at two totals. *)
Lemma vip_monotone_instance :
  calculateVIPLevel (rp 49999) <= calculateVIPLevel (rp 1200000)
  /\ calculateVIPLevel (rp 49999) = 0
  /\ calculateVIPLevel (rp 1200000) = 2.
Proof.
  split; [|split; reflexivity].
  apply (vip_level_monotone (rp 49999) (rp 1200000)). vm_compute.
  discriminate.
Defined.

(** X16 on 12345.67, with 0.33 added and over 30 periods. *)
Lemma round3_whole_hundredths_instance :
  round3_float64 (float64_of_Money 1234567) = 1234567
  /\ round3_float64 (fadd (float64_of_Money 1234567) (float64_of_Money 33))
     = 1234600
  /\ round3_float64 (fmul (float64_of_Money 1234567) (float64_of_Z 30))
     = 37037010.
Proof.
  destruct round3_whole_hundredths as [Hwhole [Hsum Htimes]].
  split; [|split].
  - apply (Hwhole 1234567). lia.
  - apply (Hsum 1234567 33); lia.
  - apply (Htimes 1234567 30); lia.
Defined.


(** Investment 5 of user 2, read by its path. *)
Lemma investment_lookup_instance :
  exists row,
    re_Data (GetInvestmentHandler (2, true) "/v3/users/investments/5"
                                  unlockedDB) = Some row
    /\ In row (investments unlockedDB)
    /\ Investment.UserID row = 2
    /\ Some 5 = Some (Investment.ID row).
Proof.
  destruct (re_Data (GetInvestmentHandler (2, true)
                       "/v3/users/investments/5" unlockedDB))
    as [row|] eqn:E; [|vm_compute in E; discriminate E].
  destruct (investment_lookup_scoped_to_owner
              (2, true) "/v3/users/investments/5" unlockedDB row E)
    as [Hin [Huser [_ [_ [Hid _]]]]].
  exists row. repeat split; assumption.
Defined.

(** Investment 5 is found by its owner; investment 3, of another user, is
    answered as missing. *)
Lemma investment_found_instance :
  exists inv,
    GetInvestmentHandler (2, true) "/v3/users/investments/5" unlockedDB
    = mkReply StatusOK true "Successfully" (Some inv)
    /\ Investment.OrderID inv = "ORD-13"
    /\ GetInvestmentHandler (2, true) "/v3/users/investments/3" unlockedDB
       = mkReply StatusNotFound false "Data tidak ditemukan" None.
Proof.
  assert (Hnd : NoDup (map Investment.ID (investments unlockedDB))).
  { vm_compute. repeat constructor; intros H;
      repeat (destruct H as [H|H]; [discriminate H|]); exact H. }
  exists (nth 4 (investments unlockedDB) unlockedRunning).
  split; [|split; [reflexivity|]].
  - apply (proj1 (investment_found_by_path 2 "/v3/users/investments/5"
                    unlockedDB 5 ltac:(discriminate)
                    ltac:(split; reflexivity) ltac:(vm_compute; lia)
                    eq_refl Hnd)).
    + cbn. tauto.
    + reflexivity.
    + reflexivity.
  - apply (proj2 (investment_found_by_path 2 "/v3/users/investments/3"
                    unlockedDB 3 ltac:(discriminate)
                    ltac:(split; reflexivity) ltac:(vm_compute; lia)
                    eq_refl Hnd)).
    intros inv Hin Hid.
    cbn in Hin.
    repeat (destruct Hin as [<-|Hin];
            [vm_compute in Hid;
             first [discriminate Hid | intros Hu; discriminate Hu]|]).
    destruct Hin.
Defined.

(** The second page of two rows for user 2; the search is a no-break
    space, which is trimmed to no search at all. *)
Lemma listing_rows_instance :
  exists rows pagination,
    ListInvestmentsHandler nothingMatches (2, true) 2 2 NBSP unlockedDB
    = mkReply StatusOK true "Successfully" (Some (rows, pagination))
    /\ map Investment.ID rows = [2; 1]
    /\ pg_total_rows pagination = 4
    /\ pg_total_pages pagination = 2.
Proof.
  destruct (listing_rows_owned_and_bounded nothingMatches 2 2 2 NBSP
              unlockedDB ltac:(discriminate))
    as [rows [pagination [E _]]].
  exists rows, pagination. split; [exact E|].
  vm_compute in E. inversion E. repeat split; reflexivity.
Defined.

(** The two pages of user 2 together, and the page after them, for the
    same search. *)
Lemma listing_tile_instance :
  exists page1 page2 page3 pg1 pg2 pg3,
    re_Data (ListInvestmentsHandler nothingMatches (2, true) 1 2 NBSP
                                    unlockedDB) = Some (page1, pg1)
    /\ re_Data (ListInvestmentsHandler nothingMatches (2, true) 2 2 NBSP
                                       unlockedDB) = Some (page2, pg2)
    /\ re_Data (ListInvestmentsHandler nothingMatches (2, true) 3 2 NBSP
                                       unlockedDB) = Some (page3, pg3)
    /\ page1 ++ page2
       = OrderBy (fun a b => Investment.ID b <? Investment.ID a)
           (filter (listed nothingMatches 2 "") (investments unlockedDB))
    /\ map Investment.ID (page1 ++ page2) = [5; 4; 2; 1]
    /\ page3 = [].
Proof.
  destruct (listing_pages_tile nothingMatches 2 2 NBSP unlockedDB
              ltac:(discriminate) ltac:(discriminate) eq_refl)
    as [Htile Hbeyond].
  do 6 eexists.
  split; [vm_compute; reflexivity|].
  split; [vm_compute; reflexivity|].
  split; [vm_compute; reflexivity|].
  split; [exact Htile|].
  split; [vm_compute; reflexivity|].
  rewrite <- (Hbeyond 3 eq_refl eq_refl). vm_compute. reflexivity.
Defined.

(** The active investments of user 2, one key per active category. *)
Lemma active_listing_instance :
  exists groups,
    GetActiveInvestmentsHandler (2, true) unlockedDB
    = mkReply StatusOK true "Successfully" (Some groups)
    /\ map fst groups = ["Router"; "Mifi"]
    /\ map (fun g => map ai_id (snd g)) groups = [[5]; [1]].
Proof.
  destruct (active_listing_keys_and_entries 2 unlockedDB ltac:(discriminate))
    as [groups [E _]].
  exists groups. split; [exact E|].
  vm_compute in E. inversion E. split; reflexivity.
Defined.

(** Without a settings row the withdrawal above the sample threshold is
    shown and paid with the user's own account. *)
Lemma masking_unconfigured_instance :
  exists row,
    joinDetails unconfiguredDB
      (Withdrawal.set_Status Status.Pending sampleWithdrawal) = Some row
    /\ wr_AccountNumber
         (maskedResponse nobodyExempt (loadPaymentSettings unconfiguredDB)
                         row) = "555000111"
    /\ payoutDestination nobodyExempt (loadPaymentSettings unconfiguredDB)
         (Withdrawal.set_Status Status.Pending sampleWithdrawal)
         sampleAccount (Some (Bank.mk 1 "Bank BRI" "BRI"))
       = ("BRI", "555000111", "Budi").
Proof.
  assert (Hrow : { row | joinDetails unconfiguredDB
                           (Withdrawal.set_Status Status.Pending
                                                  sampleWithdrawal)
                         = Some row }).
  { eexists. vm_compute. reflexivity. }
  destruct Hrow as [row Hrow].
  destruct (masking_needs_a_settings_row nobodyExempt unconfiguredDB
              (Withdrawal.set_Status Status.Pending sampleWithdrawal) row
              sampleAccount (Bank.mk 1 "Bank BRI" "BRI")
              eq_refl Hrow eq_refl eq_refl)
    as [_ [Hnumber [_ Hdest]]].
  exists row. split; [exact Hrow|]. split; [exact Hnumber | exact Hdest].
Defined.
